(** * Audio session engine of the Canada Care voice receptionist

    A shallow embedding of the session logic of the React front-ends

      - [PartA]: src/unnamed/part_000, first [App] (lines 37-290), the
        front-end with the [isClosingRef] teardown guard;
      - [PartB]: src/unnamed/part_001, [App] (lines 32-266), the front-end
        without guard.

    Every callback of the component is a function on [State].  A [State]
    holds the React state variables, the [useRef] cells and the [log] of the
    calls the callbacks made on browser, SDK and React objects.

    Conventions of the model.
      - Times on the playback clock ([AudioContext.currentTime],
        [AudioBuffer.duration], [nextStartTimeRef]) are integers counting
        sample frames of the 24 kHz output context: both quantities are
        multiples of one frame.
      - Wall-clock stamps ([new Date()]) are integers (milliseconds).
      - A JavaScript string is the list of its UTF-16 code units.
      - A captured sample (an element of a [Float32Array]) is a rational
        number: every finite float is one, and the product with 32768, a
        power of two, is exact in double precision.
      - A ref that holds either [null] or an object whose content the
        handlers never read is a [bool] ([true]: an object is held).
      - [./utils/audio] ([encode], [decode], [decodeAudioData]) is not part
        of the sources at hand.  A packet is modelled by the samples it
        carries before [encode]; the decoder is a variable of the
        development.
      - Callbacks run one at a time, each to its end (with its microtasks)
        before the next one starts, as on the single JavaScript thread.  An
        [async] handler runs to its end or to its next [await]; what follows
        the [await] is a callback of its own, and others may run before it.
        [handleStart] and [onmessage] are given in their two halves, and
        in one piece for the case that nothing runs in between. *)

From Stdlib Require Import ZArith NArith QArith Qround List Bool Lia String Ascii.
Import ListNotations.
Open Scope Z_scope.

(** ** JavaScript values *)

Module Js.

(** A string as its UTF-16 code units. *)
Definition JsString := list N.

(** The code units of an ASCII literal. *)
Definition of_string (s : string) : JsString :=
  map N_of_ascii (list_ascii_of_string s).

(** [String(undefined)], what [+=] appends for a missing text field. *)
Definition undefined_text : JsString := of_string "undefined".

(** Operand of [+=] on a string: [ToString] of an optional string. *)
Definition to_string (v : option JsString) : JsString :=
  match v with
  | Some t => t
  | None => undefined_text
  end.

(** Truthiness of a string: non-empty. *)
Definition truthy (s : JsString) : bool :=
  match s with
  | [] => false
  | _ :: _ => true
  end.

(** ECMAScript WhiteSpace and LineTerminator code points, the characters
    [String.prototype.trim] strips. *)
Definition isWhiteSpace (c : N) : bool :=
  ((9 <=? c) && (c <=? 13) || (c =? 32) || (c =? 160) || (c =? 5760)
   || (8192 <=? c) && (c <=? 8202) || (c =? 8232) || (c =? 8233)
   || (c =? 8239) || (c =? 8287) || (c =? 12288) || (c =? 65279))%N.

Fixpoint trimStart (s : JsString) : JsString :=
  match s with
  | [] => []
  | c :: r => if isWhiteSpace c then trimStart r else s
  end.

Definition trimEnd (s : JsString) : JsString := rev (trimStart (rev s)).

Definition trim (s : JsString) : JsString := trimEnd (trimStart s).

(** [Math.trunc]: the integer part of a rational, toward zero. *)
Definition trunc (x : Q) : Z := Z.quot (Qnum x) (Zpos (Qden x)).

(** [Math.round]: the nearest integer, ties toward +infinity. *)
Definition round (x : Q) : Z := Qfloor (x + (1 # 2))%Q.

(** [ToInt16]: reduction modulo 2^16 into the signed 16-bit range. *)
Definition wrap16 (n : Z) : Z := (n + 32768) mod 65536 - 32768.

(** Storing a finite number into an element of an [Int16Array]:
    truncation toward zero, then [ToInt16]. *)
Definition Int16Array_store (x : Q) : Z := wrap16 (trunc x).

End Js.

(** ** Types of src/types.ts *)

Inductive AppStatus := IDLE | CONNECTING | CONNECTED | ERROR.

Inductive Role := user | agent.

Record TranscriptionEntry := {
  type : Role;
  text : Js.JsString;
  timestamp : Z
}.

(** ** Objects the component talks to *)

(** A decoded chunk: 24 kHz mono, [duration] in frames. *)
Record AudioBuffer := { duration : Z }.

(** An [AudioBufferSourceNode]; [src_id] stands for the identity of the
    object. *)
Record Source := { src_id : nat; buffer : AudioBuffer }.

(** The microphone stream: the ids of its tracks. *)
Record MediaStream := { getTracks : list nat }.

(** [MediaRecorder.state]. *)
Inductive RecordingState := inactive | recording | paused.

(** A [Blob] as its bytes. *)
Definition Blob := list Byte.byte.

(** The promise returned by [ai.live.connect]. *)
Inductive Promise := Pending | Fulfilled | Rejected.

(** The [ScriptProcessorNode] with the environment of its [onaudioprocess]
    closure: the closure is created inside [handleStart] and reads the
    [isMuted] binding of the render in which [handleStart] was invoked. *)
Record Processor := { closure_isMuted : bool }.

(** The outbound packet [{ data, mimeType }]; [data] before [encode]. *)
Record MediaPacket := { data : list Z; mimeType : string }.

(** The consumed fields of a [LiveServerMessage].  Optional chaining makes
    an absent [serverContent], [modelTurn] or [parts] behave as an empty
    part list and an absent flag as [false]. *)
Record Part := { inlineData : option (option Js.JsString) }.

Record LiveServerMessage := {
  parts : list Part;
  interrupted : bool;
  inputTranscription : option (option Js.JsString);
  outputTranscription : option (option Js.JsString);
  turnComplete : bool
}.

Record TranscriptionBuffer := { user_text : Js.JsString; agent_text : Js.JsString }.

Inductive Node := processorNode | sourceNode | micToMixerNode.

Inductive Destination := speakers | mixer.

Inductive StateVar :=
  sv_status | sv_isProcessing | sv_transcriptions | sv_isMuted | sv_errorMessage | sv_hasAudioData.

(** Reactions attached with [then] to the connection promise. *)
Inductive Continuation :=
| ThenClose                         (* session => { try { session.close() } catch {} } *)
| ThenSendGuarded (p : MediaPacket) (* part_000:275-279, re-checks isClosingRef *)
| ThenSend (p : MediaPacket).       (* part_001:253-255 *)

(** Calls made on the outside world, as they appear in the trace. *)
Inductive Event :=
| SetState (x : StateVar)
| SessionClose
| SendRealtimeInput (p : MediaPacket)
| RecorderStart
| RecorderStop
| NodeDisconnect (n : Node)
| NodeConnect (n : Node)
| TrackStop (t : nat)
| SourceConnect (id : nat) (d : Destination)
| SourceStart (id : nat) (when : Z)
| SourceStop (id : nat)
| CreateObjectURL (b : Blob)
| RevokeObjectURL (b : Blob)
| LiveConnect
| SetTimeout (ms : Z)
| ConsoleError.

(** Teardown calls that release a resource. *)
Definition is_release (e : Event) : bool :=
  match e with
  | SessionClose | RecorderStop | NodeDisconnect _ | TrackStop _ | SourceStop _ => true
  | _ => false
  end.

(** ** Component state *)

(** The React state variables (part_000:38-43), the refs (part_000:45-64)
    and, last, what the model adds: the [log], the microtasks queued by the
    running callback, the reactions waiting on the pending connection
    promise, and the number of source nodes created so far (the next
    [src_id]).  part_001 declares the same cells except [isClosingRef] and
    [micToMixerNodeRef], which its handlers leave untouched. *)
Record State := {
  status : AppStatus;
  isProcessing : bool;
  transcriptions : list TranscriptionEntry;
  isMuted : bool;
  errorMessage : option string;
  hasAudioData : bool;
  outputAudioContextRef : bool;
  sessionPromiseRef : option Promise;
  nextStartTimeRef : Z;
  activeSourcesRef : list Source;
  streamRef : option MediaStream;
  isClosingRef : bool;
  recorderRef : option RecordingState;
  recordedChunksRef : list Blob;
  mixerRef : bool;
  audioUrlRef : option Blob;
  sourceNodeRef : bool;
  processorNodeRef : option Processor;
  micToMixerNodeRef : bool;
  transcriptionBufferRef : TranscriptionBuffer;
  log : list Event;
  microtasks : list Continuation;
  reactions : list Continuation;
  sourcesCreated : nat
}.

(** Field updates. *)

Definition with_status (v : AppStatus) (s : State) : State :=
  {| status := v; isProcessing := isProcessing s; transcriptions := transcriptions s;
     isMuted := isMuted s; errorMessage := errorMessage s; hasAudioData := hasAudioData s;
     outputAudioContextRef := outputAudioContextRef s; sessionPromiseRef := sessionPromiseRef s;
     nextStartTimeRef := nextStartTimeRef s; activeSourcesRef := activeSourcesRef s;
     streamRef := streamRef s; isClosingRef := isClosingRef s; recorderRef := recorderRef s;
     recordedChunksRef := recordedChunksRef s; mixerRef := mixerRef s;
     audioUrlRef := audioUrlRef s; sourceNodeRef := sourceNodeRef s;
     processorNodeRef := processorNodeRef s; micToMixerNodeRef := micToMixerNodeRef s;
     transcriptionBufferRef := transcriptionBufferRef s; log := log s; microtasks := microtasks s;
     reactions := reactions s; sourcesCreated := sourcesCreated s |}.

Definition with_isProcessing (v : bool) (s : State) : State :=
  {| status := status s; isProcessing := v; transcriptions := transcriptions s;
     isMuted := isMuted s; errorMessage := errorMessage s; hasAudioData := hasAudioData s;
     outputAudioContextRef := outputAudioContextRef s; sessionPromiseRef := sessionPromiseRef s;
     nextStartTimeRef := nextStartTimeRef s; activeSourcesRef := activeSourcesRef s;
     streamRef := streamRef s; isClosingRef := isClosingRef s; recorderRef := recorderRef s;
     recordedChunksRef := recordedChunksRef s; mixerRef := mixerRef s;
     audioUrlRef := audioUrlRef s; sourceNodeRef := sourceNodeRef s;
     processorNodeRef := processorNodeRef s; micToMixerNodeRef := micToMixerNodeRef s;
     transcriptionBufferRef := transcriptionBufferRef s; log := log s; microtasks := microtasks s;
     reactions := reactions s; sourcesCreated := sourcesCreated s |}.

Definition with_transcriptions (v : list TranscriptionEntry) (s : State) : State :=
  {| status := status s; isProcessing := isProcessing s; transcriptions := v; isMuted := isMuted s;
     errorMessage := errorMessage s; hasAudioData := hasAudioData s;
     outputAudioContextRef := outputAudioContextRef s; sessionPromiseRef := sessionPromiseRef s;
     nextStartTimeRef := nextStartTimeRef s; activeSourcesRef := activeSourcesRef s;
     streamRef := streamRef s; isClosingRef := isClosingRef s; recorderRef := recorderRef s;
     recordedChunksRef := recordedChunksRef s; mixerRef := mixerRef s;
     audioUrlRef := audioUrlRef s; sourceNodeRef := sourceNodeRef s;
     processorNodeRef := processorNodeRef s; micToMixerNodeRef := micToMixerNodeRef s;
     transcriptionBufferRef := transcriptionBufferRef s; log := log s; microtasks := microtasks s;
     reactions := reactions s; sourcesCreated := sourcesCreated s |}.

Definition with_isMuted (v : bool) (s : State) : State :=
  {| status := status s; isProcessing := isProcessing s; transcriptions := transcriptions s;
     isMuted := v; errorMessage := errorMessage s; hasAudioData := hasAudioData s;
     outputAudioContextRef := outputAudioContextRef s; sessionPromiseRef := sessionPromiseRef s;
     nextStartTimeRef := nextStartTimeRef s; activeSourcesRef := activeSourcesRef s;
     streamRef := streamRef s; isClosingRef := isClosingRef s; recorderRef := recorderRef s;
     recordedChunksRef := recordedChunksRef s; mixerRef := mixerRef s;
     audioUrlRef := audioUrlRef s; sourceNodeRef := sourceNodeRef s;
     processorNodeRef := processorNodeRef s; micToMixerNodeRef := micToMixerNodeRef s;
     transcriptionBufferRef := transcriptionBufferRef s; log := log s; microtasks := microtasks s;
     reactions := reactions s; sourcesCreated := sourcesCreated s |}.

Definition with_errorMessage (v : option string) (s : State) : State :=
  {| status := status s; isProcessing := isProcessing s; transcriptions := transcriptions s;
     isMuted := isMuted s; errorMessage := v; hasAudioData := hasAudioData s;
     outputAudioContextRef := outputAudioContextRef s; sessionPromiseRef := sessionPromiseRef s;
     nextStartTimeRef := nextStartTimeRef s; activeSourcesRef := activeSourcesRef s;
     streamRef := streamRef s; isClosingRef := isClosingRef s; recorderRef := recorderRef s;
     recordedChunksRef := recordedChunksRef s; mixerRef := mixerRef s;
     audioUrlRef := audioUrlRef s; sourceNodeRef := sourceNodeRef s;
     processorNodeRef := processorNodeRef s; micToMixerNodeRef := micToMixerNodeRef s;
     transcriptionBufferRef := transcriptionBufferRef s; log := log s; microtasks := microtasks s;
     reactions := reactions s; sourcesCreated := sourcesCreated s |}.

Definition with_hasAudioData (v : bool) (s : State) : State :=
  {| status := status s; isProcessing := isProcessing s; transcriptions := transcriptions s;
     isMuted := isMuted s; errorMessage := errorMessage s; hasAudioData := v;
     outputAudioContextRef := outputAudioContextRef s; sessionPromiseRef := sessionPromiseRef s;
     nextStartTimeRef := nextStartTimeRef s; activeSourcesRef := activeSourcesRef s;
     streamRef := streamRef s; isClosingRef := isClosingRef s; recorderRef := recorderRef s;
     recordedChunksRef := recordedChunksRef s; mixerRef := mixerRef s;
     audioUrlRef := audioUrlRef s; sourceNodeRef := sourceNodeRef s;
     processorNodeRef := processorNodeRef s; micToMixerNodeRef := micToMixerNodeRef s;
     transcriptionBufferRef := transcriptionBufferRef s; log := log s; microtasks := microtasks s;
     reactions := reactions s; sourcesCreated := sourcesCreated s |}.

Definition with_outputAudioContextRef (v : bool) (s : State) : State :=
  {| status := status s; isProcessing := isProcessing s; transcriptions := transcriptions s;
     isMuted := isMuted s; errorMessage := errorMessage s; hasAudioData := hasAudioData s;
     outputAudioContextRef := v; sessionPromiseRef := sessionPromiseRef s;
     nextStartTimeRef := nextStartTimeRef s; activeSourcesRef := activeSourcesRef s;
     streamRef := streamRef s; isClosingRef := isClosingRef s; recorderRef := recorderRef s;
     recordedChunksRef := recordedChunksRef s; mixerRef := mixerRef s;
     audioUrlRef := audioUrlRef s; sourceNodeRef := sourceNodeRef s;
     processorNodeRef := processorNodeRef s; micToMixerNodeRef := micToMixerNodeRef s;
     transcriptionBufferRef := transcriptionBufferRef s; log := log s; microtasks := microtasks s;
     reactions := reactions s; sourcesCreated := sourcesCreated s |}.

Definition with_sessionPromiseRef (v : option Promise) (s : State) : State :=
  {| status := status s; isProcessing := isProcessing s; transcriptions := transcriptions s;
     isMuted := isMuted s; errorMessage := errorMessage s; hasAudioData := hasAudioData s;
     outputAudioContextRef := outputAudioContextRef s; sessionPromiseRef := v;
     nextStartTimeRef := nextStartTimeRef s; activeSourcesRef := activeSourcesRef s;
     streamRef := streamRef s; isClosingRef := isClosingRef s; recorderRef := recorderRef s;
     recordedChunksRef := recordedChunksRef s; mixerRef := mixerRef s;
     audioUrlRef := audioUrlRef s; sourceNodeRef := sourceNodeRef s;
     processorNodeRef := processorNodeRef s; micToMixerNodeRef := micToMixerNodeRef s;
     transcriptionBufferRef := transcriptionBufferRef s; log := log s; microtasks := microtasks s;
     reactions := reactions s; sourcesCreated := sourcesCreated s |}.

Definition with_nextStartTimeRef (v : Z) (s : State) : State :=
  {| status := status s; isProcessing := isProcessing s; transcriptions := transcriptions s;
     isMuted := isMuted s; errorMessage := errorMessage s; hasAudioData := hasAudioData s;
     outputAudioContextRef := outputAudioContextRef s; sessionPromiseRef := sessionPromiseRef s;
     nextStartTimeRef := v; activeSourcesRef := activeSourcesRef s; streamRef := streamRef s;
     isClosingRef := isClosingRef s; recorderRef := recorderRef s;
     recordedChunksRef := recordedChunksRef s; mixerRef := mixerRef s;
     audioUrlRef := audioUrlRef s; sourceNodeRef := sourceNodeRef s;
     processorNodeRef := processorNodeRef s; micToMixerNodeRef := micToMixerNodeRef s;
     transcriptionBufferRef := transcriptionBufferRef s; log := log s; microtasks := microtasks s;
     reactions := reactions s; sourcesCreated := sourcesCreated s |}.

Definition with_activeSourcesRef (v : list Source) (s : State) : State :=
  {| status := status s; isProcessing := isProcessing s; transcriptions := transcriptions s;
     isMuted := isMuted s; errorMessage := errorMessage s; hasAudioData := hasAudioData s;
     outputAudioContextRef := outputAudioContextRef s; sessionPromiseRef := sessionPromiseRef s;
     nextStartTimeRef := nextStartTimeRef s; activeSourcesRef := v; streamRef := streamRef s;
     isClosingRef := isClosingRef s; recorderRef := recorderRef s;
     recordedChunksRef := recordedChunksRef s; mixerRef := mixerRef s;
     audioUrlRef := audioUrlRef s; sourceNodeRef := sourceNodeRef s;
     processorNodeRef := processorNodeRef s; micToMixerNodeRef := micToMixerNodeRef s;
     transcriptionBufferRef := transcriptionBufferRef s; log := log s; microtasks := microtasks s;
     reactions := reactions s; sourcesCreated := sourcesCreated s |}.

Definition with_streamRef (v : option MediaStream) (s : State) : State :=
  {| status := status s; isProcessing := isProcessing s; transcriptions := transcriptions s;
     isMuted := isMuted s; errorMessage := errorMessage s; hasAudioData := hasAudioData s;
     outputAudioContextRef := outputAudioContextRef s; sessionPromiseRef := sessionPromiseRef s;
     nextStartTimeRef := nextStartTimeRef s; activeSourcesRef := activeSourcesRef s;
     streamRef := v; isClosingRef := isClosingRef s; recorderRef := recorderRef s;
     recordedChunksRef := recordedChunksRef s; mixerRef := mixerRef s;
     audioUrlRef := audioUrlRef s; sourceNodeRef := sourceNodeRef s;
     processorNodeRef := processorNodeRef s; micToMixerNodeRef := micToMixerNodeRef s;
     transcriptionBufferRef := transcriptionBufferRef s; log := log s; microtasks := microtasks s;
     reactions := reactions s; sourcesCreated := sourcesCreated s |}.

Definition with_isClosingRef (v : bool) (s : State) : State :=
  {| status := status s; isProcessing := isProcessing s; transcriptions := transcriptions s;
     isMuted := isMuted s; errorMessage := errorMessage s; hasAudioData := hasAudioData s;
     outputAudioContextRef := outputAudioContextRef s; sessionPromiseRef := sessionPromiseRef s;
     nextStartTimeRef := nextStartTimeRef s; activeSourcesRef := activeSourcesRef s;
     streamRef := streamRef s; isClosingRef := v; recorderRef := recorderRef s;
     recordedChunksRef := recordedChunksRef s; mixerRef := mixerRef s;
     audioUrlRef := audioUrlRef s; sourceNodeRef := sourceNodeRef s;
     processorNodeRef := processorNodeRef s; micToMixerNodeRef := micToMixerNodeRef s;
     transcriptionBufferRef := transcriptionBufferRef s; log := log s; microtasks := microtasks s;
     reactions := reactions s; sourcesCreated := sourcesCreated s |}.

Definition with_recorderRef (v : option RecordingState) (s : State) : State :=
  {| status := status s; isProcessing := isProcessing s; transcriptions := transcriptions s;
     isMuted := isMuted s; errorMessage := errorMessage s; hasAudioData := hasAudioData s;
     outputAudioContextRef := outputAudioContextRef s; sessionPromiseRef := sessionPromiseRef s;
     nextStartTimeRef := nextStartTimeRef s; activeSourcesRef := activeSourcesRef s;
     streamRef := streamRef s; isClosingRef := isClosingRef s; recorderRef := v;
     recordedChunksRef := recordedChunksRef s; mixerRef := mixerRef s;
     audioUrlRef := audioUrlRef s; sourceNodeRef := sourceNodeRef s;
     processorNodeRef := processorNodeRef s; micToMixerNodeRef := micToMixerNodeRef s;
     transcriptionBufferRef := transcriptionBufferRef s; log := log s; microtasks := microtasks s;
     reactions := reactions s; sourcesCreated := sourcesCreated s |}.

Definition with_recordedChunksRef (v : list Blob) (s : State) : State :=
  {| status := status s; isProcessing := isProcessing s; transcriptions := transcriptions s;
     isMuted := isMuted s; errorMessage := errorMessage s; hasAudioData := hasAudioData s;
     outputAudioContextRef := outputAudioContextRef s; sessionPromiseRef := sessionPromiseRef s;
     nextStartTimeRef := nextStartTimeRef s; activeSourcesRef := activeSourcesRef s;
     streamRef := streamRef s; isClosingRef := isClosingRef s; recorderRef := recorderRef s;
     recordedChunksRef := v; mixerRef := mixerRef s; audioUrlRef := audioUrlRef s;
     sourceNodeRef := sourceNodeRef s; processorNodeRef := processorNodeRef s;
     micToMixerNodeRef := micToMixerNodeRef s; transcriptionBufferRef := transcriptionBufferRef s;
     log := log s; microtasks := microtasks s; reactions := reactions s;
     sourcesCreated := sourcesCreated s |}.

Definition with_mixerRef (v : bool) (s : State) : State :=
  {| status := status s; isProcessing := isProcessing s; transcriptions := transcriptions s;
     isMuted := isMuted s; errorMessage := errorMessage s; hasAudioData := hasAudioData s;
     outputAudioContextRef := outputAudioContextRef s; sessionPromiseRef := sessionPromiseRef s;
     nextStartTimeRef := nextStartTimeRef s; activeSourcesRef := activeSourcesRef s;
     streamRef := streamRef s; isClosingRef := isClosingRef s; recorderRef := recorderRef s;
     recordedChunksRef := recordedChunksRef s; mixerRef := v; audioUrlRef := audioUrlRef s;
     sourceNodeRef := sourceNodeRef s; processorNodeRef := processorNodeRef s;
     micToMixerNodeRef := micToMixerNodeRef s; transcriptionBufferRef := transcriptionBufferRef s;
     log := log s; microtasks := microtasks s; reactions := reactions s;
     sourcesCreated := sourcesCreated s |}.

Definition with_audioUrlRef (v : option Blob) (s : State) : State :=
  {| status := status s; isProcessing := isProcessing s; transcriptions := transcriptions s;
     isMuted := isMuted s; errorMessage := errorMessage s; hasAudioData := hasAudioData s;
     outputAudioContextRef := outputAudioContextRef s; sessionPromiseRef := sessionPromiseRef s;
     nextStartTimeRef := nextStartTimeRef s; activeSourcesRef := activeSourcesRef s;
     streamRef := streamRef s; isClosingRef := isClosingRef s; recorderRef := recorderRef s;
     recordedChunksRef := recordedChunksRef s; mixerRef := mixerRef s; audioUrlRef := v;
     sourceNodeRef := sourceNodeRef s; processorNodeRef := processorNodeRef s;
     micToMixerNodeRef := micToMixerNodeRef s; transcriptionBufferRef := transcriptionBufferRef s;
     log := log s; microtasks := microtasks s; reactions := reactions s;
     sourcesCreated := sourcesCreated s |}.

Definition with_sourceNodeRef (v : bool) (s : State) : State :=
  {| status := status s; isProcessing := isProcessing s; transcriptions := transcriptions s;
     isMuted := isMuted s; errorMessage := errorMessage s; hasAudioData := hasAudioData s;
     outputAudioContextRef := outputAudioContextRef s; sessionPromiseRef := sessionPromiseRef s;
     nextStartTimeRef := nextStartTimeRef s; activeSourcesRef := activeSourcesRef s;
     streamRef := streamRef s; isClosingRef := isClosingRef s; recorderRef := recorderRef s;
     recordedChunksRef := recordedChunksRef s; mixerRef := mixerRef s;
     audioUrlRef := audioUrlRef s; sourceNodeRef := v; processorNodeRef := processorNodeRef s;
     micToMixerNodeRef := micToMixerNodeRef s; transcriptionBufferRef := transcriptionBufferRef s;
     log := log s; microtasks := microtasks s; reactions := reactions s;
     sourcesCreated := sourcesCreated s |}.

Definition with_processorNodeRef (v : option Processor) (s : State) : State :=
  {| status := status s; isProcessing := isProcessing s; transcriptions := transcriptions s;
     isMuted := isMuted s; errorMessage := errorMessage s; hasAudioData := hasAudioData s;
     outputAudioContextRef := outputAudioContextRef s; sessionPromiseRef := sessionPromiseRef s;
     nextStartTimeRef := nextStartTimeRef s; activeSourcesRef := activeSourcesRef s;
     streamRef := streamRef s; isClosingRef := isClosingRef s; recorderRef := recorderRef s;
     recordedChunksRef := recordedChunksRef s; mixerRef := mixerRef s;
     audioUrlRef := audioUrlRef s; sourceNodeRef := sourceNodeRef s; processorNodeRef := v;
     micToMixerNodeRef := micToMixerNodeRef s; transcriptionBufferRef := transcriptionBufferRef s;
     log := log s; microtasks := microtasks s; reactions := reactions s;
     sourcesCreated := sourcesCreated s |}.

Definition with_micToMixerNodeRef (v : bool) (s : State) : State :=
  {| status := status s; isProcessing := isProcessing s; transcriptions := transcriptions s;
     isMuted := isMuted s; errorMessage := errorMessage s; hasAudioData := hasAudioData s;
     outputAudioContextRef := outputAudioContextRef s; sessionPromiseRef := sessionPromiseRef s;
     nextStartTimeRef := nextStartTimeRef s; activeSourcesRef := activeSourcesRef s;
     streamRef := streamRef s; isClosingRef := isClosingRef s; recorderRef := recorderRef s;
     recordedChunksRef := recordedChunksRef s; mixerRef := mixerRef s;
     audioUrlRef := audioUrlRef s; sourceNodeRef := sourceNodeRef s;
     processorNodeRef := processorNodeRef s; micToMixerNodeRef := v;
     transcriptionBufferRef := transcriptionBufferRef s; log := log s; microtasks := microtasks s;
     reactions := reactions s; sourcesCreated := sourcesCreated s |}.

Definition with_transcriptionBufferRef (v : TranscriptionBuffer) (s : State) : State :=
  {| status := status s; isProcessing := isProcessing s; transcriptions := transcriptions s;
     isMuted := isMuted s; errorMessage := errorMessage s; hasAudioData := hasAudioData s;
     outputAudioContextRef := outputAudioContextRef s; sessionPromiseRef := sessionPromiseRef s;
     nextStartTimeRef := nextStartTimeRef s; activeSourcesRef := activeSourcesRef s;
     streamRef := streamRef s; isClosingRef := isClosingRef s; recorderRef := recorderRef s;
     recordedChunksRef := recordedChunksRef s; mixerRef := mixerRef s;
     audioUrlRef := audioUrlRef s; sourceNodeRef := sourceNodeRef s;
     processorNodeRef := processorNodeRef s; micToMixerNodeRef := micToMixerNodeRef s;
     transcriptionBufferRef := v; log := log s; microtasks := microtasks s;
     reactions := reactions s; sourcesCreated := sourcesCreated s |}.

Definition with_log (v : list Event) (s : State) : State :=
  {| status := status s; isProcessing := isProcessing s; transcriptions := transcriptions s;
     isMuted := isMuted s; errorMessage := errorMessage s; hasAudioData := hasAudioData s;
     outputAudioContextRef := outputAudioContextRef s; sessionPromiseRef := sessionPromiseRef s;
     nextStartTimeRef := nextStartTimeRef s; activeSourcesRef := activeSourcesRef s;
     streamRef := streamRef s; isClosingRef := isClosingRef s; recorderRef := recorderRef s;
     recordedChunksRef := recordedChunksRef s; mixerRef := mixerRef s;
     audioUrlRef := audioUrlRef s; sourceNodeRef := sourceNodeRef s;
     processorNodeRef := processorNodeRef s; micToMixerNodeRef := micToMixerNodeRef s;
     transcriptionBufferRef := transcriptionBufferRef s; log := v; microtasks := microtasks s;
     reactions := reactions s; sourcesCreated := sourcesCreated s |}.

Definition with_microtasks (v : list Continuation) (s : State) : State :=
  {| status := status s; isProcessing := isProcessing s; transcriptions := transcriptions s;
     isMuted := isMuted s; errorMessage := errorMessage s; hasAudioData := hasAudioData s;
     outputAudioContextRef := outputAudioContextRef s; sessionPromiseRef := sessionPromiseRef s;
     nextStartTimeRef := nextStartTimeRef s; activeSourcesRef := activeSourcesRef s;
     streamRef := streamRef s; isClosingRef := isClosingRef s; recorderRef := recorderRef s;
     recordedChunksRef := recordedChunksRef s; mixerRef := mixerRef s;
     audioUrlRef := audioUrlRef s; sourceNodeRef := sourceNodeRef s;
     processorNodeRef := processorNodeRef s; micToMixerNodeRef := micToMixerNodeRef s;
     transcriptionBufferRef := transcriptionBufferRef s; log := log s; microtasks := v;
     reactions := reactions s; sourcesCreated := sourcesCreated s |}.

Definition with_reactions (v : list Continuation) (s : State) : State :=
  {| status := status s; isProcessing := isProcessing s; transcriptions := transcriptions s;
     isMuted := isMuted s; errorMessage := errorMessage s; hasAudioData := hasAudioData s;
     outputAudioContextRef := outputAudioContextRef s; sessionPromiseRef := sessionPromiseRef s;
     nextStartTimeRef := nextStartTimeRef s; activeSourcesRef := activeSourcesRef s;
     streamRef := streamRef s; isClosingRef := isClosingRef s; recorderRef := recorderRef s;
     recordedChunksRef := recordedChunksRef s; mixerRef := mixerRef s;
     audioUrlRef := audioUrlRef s; sourceNodeRef := sourceNodeRef s;
     processorNodeRef := processorNodeRef s; micToMixerNodeRef := micToMixerNodeRef s;
     transcriptionBufferRef := transcriptionBufferRef s; log := log s; microtasks := microtasks s;
     reactions := v; sourcesCreated := sourcesCreated s |}.

Definition with_sourcesCreated (v : nat) (s : State) : State :=
  {| status := status s; isProcessing := isProcessing s; transcriptions := transcriptions s;
     isMuted := isMuted s; errorMessage := errorMessage s; hasAudioData := hasAudioData s;
     outputAudioContextRef := outputAudioContextRef s; sessionPromiseRef := sessionPromiseRef s;
     nextStartTimeRef := nextStartTimeRef s; activeSourcesRef := activeSourcesRef s;
     streamRef := streamRef s; isClosingRef := isClosingRef s; recorderRef := recorderRef s;
     recordedChunksRef := recordedChunksRef s; mixerRef := mixerRef s;
     audioUrlRef := audioUrlRef s; sourceNodeRef := sourceNodeRef s;
     processorNodeRef := processorNodeRef s; micToMixerNodeRef := micToMixerNodeRef s;
     transcriptionBufferRef := transcriptionBufferRef s; log := log s; microtasks := microtasks s;
     reactions := reactions s; sourcesCreated := v |}.

Definition init : State :=
  {| status := IDLE; isProcessing := false; transcriptions := []; isMuted := false;
     errorMessage := None; hasAudioData := false; outputAudioContextRef := false;
     sessionPromiseRef := None; nextStartTimeRef := 0; activeSourcesRef := [];
     streamRef := None; isClosingRef := false; recorderRef := None; recordedChunksRef := [];
     mixerRef := false; audioUrlRef := None; sourceNodeRef := false; processorNodeRef := None;
     micToMixerNodeRef := false;
     transcriptionBufferRef := {| user_text := []; agent_text := [] |};
     log := []; microtasks := []; reactions := []; sourcesCreated := 0%nat |}.

(** ** Shared plumbing: trace, React setters, promise reactions *)

(** [log] holds the calls made so far, the latest first. *)
Definition emit (e : Event) (s : State) : State := with_log (e :: log s) s.

Definition emits (es : list Event) (s : State) : State := with_log (rev es ++ log s) s.

(** The calls in the order they were made. *)
Definition trace (s : State) : list Event := rev (log s).

Definition setStatus (v : AppStatus) (s : State) : State :=
  with_status v (emit (SetState sv_status) s).

Definition setIsProcessing (v : bool) (s : State) : State :=
  with_isProcessing v (emit (SetState sv_isProcessing) s).

Definition setIsMuted (v : bool) (s : State) : State :=
  with_isMuted v (emit (SetState sv_isMuted) s).

Definition setErrorMessage (v : option string) (s : State) : State :=
  with_errorMessage v (emit (SetState sv_errorMessage) s).

Definition setHasAudioData (v : bool) (s : State) : State :=
  with_hasAudioData v (emit (SetState sv_hasAudioData) s).

(** [setTranscriptions(prev => [...prev, e])]. *)
Definition setTranscriptions_append (e : TranscriptionEntry) (s : State) : State :=
  with_transcriptions (transcriptions s ++ [e]) (emit (SetState sv_transcriptions) s).

(** [p.then(k)]: on a fulfilled promise the reaction is a microtask of the
    running callback; on a pending one it waits for the fulfilment; on a
    rejected one it never runs (the rejection is swallowed by [catch] in
    part_000 and left unhandled in part_001). *)
Definition then_ (p : Promise) (k : Continuation) (s : State) : State :=
  match p with
  | Fulfilled => with_microtasks (microtasks s ++ [k]) s
  | Pending => with_reactions (reactions s ++ [k]) s
  | Rejected => s
  end.

Definition run_continuation (k : Continuation) (s : State) : State :=
  match k with
  | ThenClose => emit SessionClose s
  | ThenSendGuarded p => if isClosingRef s then s else emit (SendRealtimeInput p) s
  | ThenSend p => emit (SendRealtimeInput p) s
  end.

(** The microtask checkpoint at the end of a callback. *)
Definition drain (s : State) : State :=
  fold_left (fun st k => run_continuation k st) (microtasks s) (with_microtasks [] s).

(** A callback run by the event loop: its body, then its microtasks. *)
Definition task (body : State -> State) (s : State) : State := drain (body s).

(** The connection promise settles. *)
Definition sessionPromise_fulfilled (s : State) : State :=
  let s := match sessionPromiseRef s with
           | Some Pending => with_sessionPromiseRef (Some Fulfilled) s
           | _ => s
           end in
  drain (with_microtasks (reactions s) (with_reactions [] s)).

Definition sessionPromise_rejected (s : State) : State :=
  let s := match sessionPromiseRef s with
           | Some Pending => with_sessionPromiseRef (Some Rejected) s
           | _ => s
           end in
  with_reactions [] s.

(** [activeSourcesRef.current.forEach(s => { try { s.stop(); } catch(e) {} })],
    in insertion order. *)
Definition stop_sources (s : State) : State :=
  emits (map (fun src => SourceStop (src_id src)) (activeSourcesRef s)) s.

(** [source.onended = () => activeSourcesRef.current.delete(source)]. *)
Definition source_onended (id : nat) (s : State) : State :=
  with_activeSourcesRef (filter (fun x => negb (Nat.eqb (src_id x) id)) (activeSourcesRef s)) s.

(** [onClick={() => setIsMuted(!isMuted)}]. *)
Definition toggleMute (s : State) : State := setIsMuted (negb (isMuted s)) s.

(** [recorder.ondataavailable = (e) => { if (e.data.size > 0) push }]. *)
Definition recorder_ondataavailable (e_data : Blob) (s : State) : State :=
  match e_data with
  | [] => s
  | _ :: _ => with_recordedChunksRef (recordedChunksRef s ++ [e_data]) s
  end.

(** [recorder.onstop] (part_000:186-190, part_001:172-176): [new Blob(chunks)]
    is the concatenation of the chunks. *)
Definition recorder_onstop (s : State) : State :=
  let blob := List.concat (recordedChunksRef s) in
  let s := with_audioUrlRef (Some blob) (emit (CreateObjectURL blob) s) in
  setHasAudioData true s.

(** The conversion loop of [onaudioprocess] (part_000:264-269,
    part_001:243-248): [int16[i] = inputData[i] * 32768]. *)
Definition int16_of_frame (inputData : list Q) : list Z :=
  map (fun x => Js.Int16Array_store (x * 32768)%Q) inputData.

Definition pcmBlob (inputData : list Q) : MediaPacket :=
  {| data := int16_of_frame inputData; mimeType := "audio/pcm;rate=16000" |}.

(** Result of the [async] message handler: it ran to its end, or the awaited
    decoding rejected (or a call threw) and the rest of the body was skipped;
    the writes made before that point stay. *)
Inductive Outcome :=
| Done (s : State)
| Thrown (s : State).

Definition state_of (o : Outcome) : State :=
  match o with
  | Done s => s
  | Thrown s => s
  end.

(** The message handler at its [await]: it returned without reaching it, or
    it is suspended on the decoding of the payload [b64]. *)
Inductive Suspension :=
| Returned (s : State)
| Awaiting (b64 : Js.JsString) (s : State).

Definition is_some {A} (o : option A) : bool :=
  match o with
  | Some _ => true
  | None => false
  end.

(** The turn-complete block, identical in both front-ends
    (part_000:232-239, part_001:215-222). *)
Definition turn_complete (now : Z) (s : State) : State :=
  let userText := Js.trim (user_text (transcriptionBufferRef s)) in
  let agentText := Js.trim (agent_text (transcriptionBufferRef s)) in
  let s := if Js.truthy userText
           then setTranscriptions_append {| type := user; text := userText; timestamp := now |} s
           else s in
  let s := if Js.truthy agentText
           then setTranscriptions_append {| type := agent; text := agentText; timestamp := now |} s
           else s in
  let s := with_transcriptionBufferRef {| user_text := []; agent_text := [] |} s in
  setIsProcessing false s.

(** The interruption block (part_000:218-223, part_001:201-206). *)
Definition on_interrupted (s : State) : State :=
  let s := stop_sources s in
  let s := with_activeSourcesRef [] s in
  let s := with_nextStartTimeRef 0 s in
  setIsProcessing false s.

(** The two transcription blocks (part_000:225-231, part_001:208-214),
    one after the other in [on_transcriptions]. *)
Definition on_inputTranscription (t : option Js.JsString) (s : State) : State :=
  let b := transcriptionBufferRef s in
  let s := with_transcriptionBufferRef
             {| user_text := user_text b ++ Js.to_string t; agent_text := agent_text b |} s in
  setIsProcessing true s.

Definition on_outputTranscription (t : option Js.JsString) (s : State) : State :=
  let b := transcriptionBufferRef s in
  with_transcriptionBufferRef
    {| user_text := user_text b; agent_text := agent_text b ++ Js.to_string t |} s.

(** Lines 218-239 of part_000 (201-222 of part_001): what follows the audio
    block in [onmessage]. *)
Definition on_transcriptions (m : LiveServerMessage) (s : State) : State :=
  let s := match inputTranscription m with
           | Some t => on_inputTranscription t s
           | None => s
           end in
  match outputTranscription m with
  | Some t => on_outputTranscription t s
  | None => s
  end.

Definition after_audio (now : Z) (m : LiveServerMessage) (s : State) : State :=
  let s := if interrupted m then on_interrupted s else s in
  let s := on_transcriptions m s in
  if turnComplete m then turn_complete now s else s.

(** ** part_000: the front-end with the closing guard *)

Module PartA.

(** [handleStop] (lines 73-122). *)
Definition handleStop (errorOccurred : bool) (s : State) : State :=
  if isClosingRef s then s else
  let s := with_isClosingRef true s in
  let s := setStatus (if errorOccurred then ERROR else IDLE) s in
  let s := match sessionPromiseRef s with
           | Some p => then_ p ThenClose (with_sessionPromiseRef None s)
           | None => s
           end in
  let s := match recorderRef s with
           | Some inactive | None => s
           | Some _ => with_recorderRef (Some inactive) (emit RecorderStop s)
           end in
  let s := match processorNodeRef s with
           | Some _ => with_processorNodeRef None (emit (NodeDisconnect processorNode) s)
           | None => s
           end in
  let s := if sourceNodeRef s
           then with_sourceNodeRef false (emit (NodeDisconnect sourceNode) s)
           else s in
  let s := if micToMixerNodeRef s
           then with_micToMixerNodeRef false (emit (NodeDisconnect micToMixerNode) s)
           else s in
  let s := match streamRef s with
           | Some stream => with_streamRef None (emits (map TrackStop (getTracks stream)) s)
           | None => s
           end in
  let s := stop_sources s in
  let s := with_activeSourcesRef [] s in
  let s := with_nextStartTimeRef 0 s in
  let s := setIsProcessing false s in
  emit (SetTimeout 500) s.

(** The timer armed at lines 119-121. *)
Definition closing_timeout (s : State) : State := with_isClosingRef false s.

(** [handleStart] (lines 124-290).  [media] is the outcome of
    [getUserMedia] ([None]: rejected); the awaited calls are taken to
    complete without another callback running in between.  The
    [onaudioprocess] closure keeps the [isMuted] of the render whose
    [handleStart] was invoked. *)
Definition handleStart (media : option MediaStream) (s : State) : State :=
  if isClosingRef s then s else
  let isMuted_of_render := isMuted s in
  let s := setErrorMessage None s in
  let s := setHasAudioData false s in
  let s := match audioUrlRef s with
           | Some url => emit (RevokeObjectURL url) s
           | None => s
           end in
  let s := with_audioUrlRef None s in
  let s := with_recordedChunksRef [] s in
  let s := setStatus CONNECTING s in
  let s := with_outputAudioContextRef true s in
  match media with
  | None =>
      let s := emit ConsoleError s in
      let s := setErrorMessage (Some "System error. Check mic permissions."%string) s in
      setStatus IDLE s
  | Some stream =>
      let s := with_streamRef (Some stream) s in
      let s := with_mixerRef true s in
      let s := with_micToMixerNodeRef true s in
      let s := emit (NodeConnect micToMixerNode) s in
      let s := emit LiveConnect s in
      let s := with_sessionPromiseRef (Some Pending) s in
      let s := with_sourceNodeRef true s in
      let s := with_processorNodeRef (Some {| closure_isMuted := isMuted_of_render |}) s in
      let s := emit (NodeConnect sourceNode) s in
      emit (NodeConnect processorNode) s
  end.

(** [onopen] (lines 174-193). *)
Definition onopen (s : State) : State :=
  let s := setStatus CONNECTED s in
  let s := setErrorMessage None s in
  let s := emit RecorderStart s in
  with_recorderRef (Some recording) s.

(** [onaudioprocess] (lines 261-280), with the environment [p] of the
    closure. *)
Definition onaudioprocess (p : Processor) (inputData : list Q) (s : State) : State :=
  if closure_isMuted p || isClosingRef s || negb (is_some (sessionPromiseRef s)) then s else
  match sessionPromiseRef s with
  | Some promise => then_ promise (ThenSendGuarded (pcmBlob inputData)) s
  | None => s
  end.

(** The audio graph delivers a frame to the connected processor. *)
Definition audioprocess (inputData : list Q) (s : State) : State :=
  match processorNodeRef s with
  | Some p => task (onaudioprocess p inputData) s
  | None => s
  end.

Section Messages.

(** [decodeAudioData(decode(base64Audio), ctx, 24000, 1)]; [None] when
    the call throws or its promise rejects. *)
Variable decodeAudioData : Js.JsString -> option AudioBuffer.

(** Lines 195-196:
    [parts?.find(p => p.inlineData?.data)] then [?.inlineData?.data]. *)
Definition base64Audio (m : LiveServerMessage) : option Js.JsString :=
  match find (fun p => match inlineData p with
                       | Some (Some d) => Js.truthy d
                       | _ => false
                       end) (parts m) with
  | Some p => match inlineData p with
              | Some d => d
              | None => None
              end
  | None => None
  end.

(** [onmessage] is an [async] function with one [await], on the decoding
    of the payload (line 203).  It runs up to the [await] when the
    message arrives and is resumed when the decoding has settled; any
    other callback may run in between.  What it wrote before the
    [await] (the clock, at line 201) may have been overwritten by then,
    and what it reads afterwards (the clock again, at lines 213-214, the
    mixer, the set of sources, the buffers) is read as it is at the
    resumption. *)

(** The audio block up to its [await] (lines 198-203); [currentTime] is
    [ctx.currentTime] as read at line 201.  [Returned]: the condition of
    line 198 is false and the block is skipped. *)
Definition audio_before_await (currentTime : Z) (m : LiveServerMessage) (s : State)
  : Suspension :=
  match base64Audio m with
  | Some b64 =>
      if Js.truthy b64 && outputAudioContextRef s then
        let s := setIsProcessing false s in
        Awaiting b64 (with_nextStartTimeRef (Z.max (nextStartTimeRef s) currentTime) s)
      else Returned s
  | None => Returned s
  end.

(** The audio block from the settling of the decoding on (lines
    203-216); [decoded] is [None] when the awaited promise rejects. *)
Definition audio_after_await (decoded : option AudioBuffer) (s : State) : Outcome :=
  match decoded with
  | None => Thrown s
  | Some buf =>
      let source := {| src_id := sourcesCreated s; buffer := buf |} in
      let s := with_sourcesCreated (S (sourcesCreated s)) s in
      let s := emit (SourceConnect (src_id source) speakers) s in
      let s := if mixerRef s then emit (SourceConnect (src_id source) mixer) s else s in
      let s := emit (SourceStart (src_id source) (nextStartTimeRef s)) s in
      let s := with_nextStartTimeRef (nextStartTimeRef s + duration buf) s in
      Done (with_activeSourcesRef (activeSourcesRef s ++ [source]) s)
  end.

(** [onmessage] up to its [await] (lines 195-203), or the whole body
    (lines 195-239) when there is nothing to decode.  [now] is the
    reading of [new Date()]. *)
Definition onmessage_before_await (now currentTime : Z) (m : LiveServerMessage)
    (s : State) : Suspension :=
  match audio_before_await currentTime m s with
  | Returned s => Returned (after_audio now m s)
  | Awaiting b64 s => Awaiting b64 s
  end.

(** [onmessage] from the settling of the decoding on (lines 203-239). *)
Definition onmessage_after_await (now : Z) (m : LiveServerMessage)
    (decoded : option AudioBuffer) (s : State) : Outcome :=
  match audio_after_await decoded s with
  | Done s => Done (after_audio now m s)
  | Thrown s => Thrown s
  end.

(** The audio block in one piece: its two halves with no other callback
    in between, the decoding having settled at once. *)
Definition schedule_audio (currentTime : Z) (m : LiveServerMessage) (s : State) : Outcome :=
  match audio_before_await currentTime m s with
  | Returned s => Done s
  | Awaiting b64 s => audio_after_await (decodeAudioData b64) s
  end.

(** [onmessage] (lines 194-240) in one piece, in the same way. *)
Definition onmessage (now currentTime : Z) (m : LiveServerMessage) (s : State) : Outcome :=
  match schedule_audio currentTime m s with
  | Done s => Done (after_audio now m s)
  | Thrown s => Thrown s
  end.

(** Messages handled one at a time, in arrival order, each with the
    clock readings at its arrival: every handler has run to its end
    before the next message is delivered.  A handler that throws does
    not stop the later ones. *)
Fixpoint run (ms : list (Z * Z * LiveServerMessage)) (s : State) : State :=
  match ms with
  | [] => s
  | (now, currentTime, m) :: rest => run rest (state_of (onmessage now currentTime m s))
  end.

End Messages.

(** [onerror] (lines 241-246). *)
Definition onerror (s : State) : State :=
  let s := emit ConsoleError s in
  if isClosingRef s then s else
  let s := setErrorMessage (Some "Line unstable. Resetting connection..."%string) s in
  handleStop true s.

(** [onclose] (lines 247-250). *)
Definition onclose (s : State) : State :=
  if isClosingRef s then s else handleStop false s.

End PartA.

(** ** part_001: the front-end without guard *)

Module PartB.

(** [handleStop] (lines 90-119). *)
Definition handleStop (s : State) : State :=
  let s := match sessionPromiseRef s with
           | Some p => with_sessionPromiseRef None (then_ p ThenClose s)
           | None => s
           end in
  let s := match recorderRef s with
           | Some inactive | None => s
           | Some _ => with_recorderRef (Some inactive) (emit RecorderStop s)
           end in
  let s := match processorNodeRef s with
           | Some _ => with_processorNodeRef None (emit (NodeDisconnect processorNode) s)
           | None => s
           end in
  let s := if sourceNodeRef s
           then with_sourceNodeRef false (emit (NodeDisconnect sourceNode) s)
           else s in
  let s := match streamRef s with
           | Some stream => with_streamRef None (emits (map TrackStop (getTracks stream)) s)
           | None => s
           end in
  let s := stop_sources s in
  let s := with_activeSourcesRef [] s in
  let s := with_nextStartTimeRef 0 s in
  let s := setStatus IDLE s in
  setIsProcessing false s.

(** [handleStart] (lines 121-266), under the conventions of
    [PartA.handleStart]. *)
Definition handleStart (media : option MediaStream) (s : State) : State :=
  let isMuted_of_render := isMuted s in
  let s := setErrorMessage None s in
  let s := setHasAudioData false s in
  let s := match audioUrlRef s with
           | Some url => emit (RevokeObjectURL url) s
           | None => s
           end in
  let s := with_audioUrlRef None s in
  let s := with_recordedChunksRef [] s in
  let s := setStatus CONNECTING s in
  let s := with_outputAudioContextRef true s in
  match media with
  | None =>
      let s := emit ConsoleError s in
      let s := setErrorMessage (Some "Microphone access failed."%string) s in
      setStatus IDLE s
  | Some stream =>
      let s := with_streamRef (Some stream) s in
      let s := with_mixerRef true s in
      let s := emit (NodeConnect micToMixerNode) s in
      let s := emit LiveConnect s in
      let s := with_sessionPromiseRef (Some Pending) s in
      let s := with_sourceNodeRef true s in
      let s := with_processorNodeRef (Some {| closure_isMuted := isMuted_of_render |}) s in
      let s := emit (NodeConnect sourceNode) s in
      emit (NodeConnect processorNode) s
  end.

(** [onopen] (lines 165-179). *)
Definition onopen (s : State) : State :=
  let s := setStatus CONNECTED s in
  let s := emit RecorderStart s in
  with_recorderRef (Some recording) s.

(** [onaudioprocess] (lines 241-256). *)
Definition onaudioprocess (p : Processor) (inputData : list Q) (s : State) : State :=
  if closure_isMuted p then s else
  match sessionPromiseRef s with
  | Some promise => then_ promise (ThenSend (pcmBlob inputData)) s
  | None => s
  end.

Definition audioprocess (inputData : list Q) (s : State) : State :=
  match processorNodeRef s with
  | Some p => task (onaudioprocess p inputData) s
  | None => s
  end.

Section Messages.

Variable decodeAudioData : Js.JsString -> option AudioBuffer.

(** Line 181: [parts?.find(p => p.inlineData)?.inlineData?.data]. *)
Definition base64Audio (m : LiveServerMessage) : option Js.JsString :=
  match find (fun p => is_some (inlineData p)) (parts m) with
  | Some p => match inlineData p with
              | Some d => d
              | None => None
              end
  | None => None
  end.

(** The audio block up to its [await] (lines 182-187). *)
Definition audio_before_await (currentTime : Z) (m : LiveServerMessage) (s : State)
  : Suspension :=
  match base64Audio m with
  | Some b64 =>
      if Js.truthy b64 && outputAudioContextRef s then
        let s := setIsProcessing false s in
        Awaiting b64 (with_nextStartTimeRef (Z.max (nextStartTimeRef s) currentTime) s)
      else Returned s
  | None => Returned s
  end.

(** The audio block from the settling of the decoding on (lines
    187-199); [source.connect(mixerRef.current!)] throws on a null
    mixer. *)
Definition audio_after_await (decoded : option AudioBuffer) (s : State) : Outcome :=
  match decoded with
  | None => Thrown s
  | Some buf =>
      let source := {| src_id := sourcesCreated s; buffer := buf |} in
      let s := with_sourcesCreated (S (sourcesCreated s)) s in
      let s := emit (SourceConnect (src_id source) speakers) s in
      if mixerRef s then
        let s := emit (SourceConnect (src_id source) mixer) s in
        let s := emit (SourceStart (src_id source) (nextStartTimeRef s)) s in
        let s := with_nextStartTimeRef (nextStartTimeRef s + duration buf) s in
        Done (with_activeSourcesRef (activeSourcesRef s ++ [source]) s)
      else Thrown s
  end.

(** [onmessage] up to its [await] (lines 181-187), or the whole body
    (lines 181-222) when there is nothing to decode. *)
Definition onmessage_before_await (now currentTime : Z) (m : LiveServerMessage)
    (s : State) : Suspension :=
  match audio_before_await currentTime m s with
  | Returned s => Returned (after_audio now m s)
  | Awaiting b64 s => Awaiting b64 s
  end.

(** [onmessage] from the settling of the decoding on (lines 187-222). *)
Definition onmessage_after_await (now : Z) (m : LiveServerMessage)
    (decoded : option AudioBuffer) (s : State) : Outcome :=
  match audio_after_await decoded s with
  | Done s => Done (after_audio now m s)
  | Thrown s => Thrown s
  end.

(** The audio block in one piece: its two halves with no other callback
    in between. *)
Definition schedule_audio (currentTime : Z) (m : LiveServerMessage) (s : State) : Outcome :=
  match audio_before_await currentTime m s with
  | Returned s => Done s
  | Awaiting b64 s => audio_after_await (decodeAudioData b64) s
  end.

(** [onmessage] (lines 180-223) in one piece, in the same way. *)
Definition onmessage (now currentTime : Z) (m : LiveServerMessage) (s : State) : Outcome :=
  match schedule_audio currentTime m s with
  | Done s => Done (after_audio now m s)
  | Thrown s => Thrown s
  end.

End Messages.

(** [onerror] (lines 224-228). *)
Definition onerror (s : State) : State :=
  let s := emit ConsoleError s in
  let s := setErrorMessage (Some "Network issue. Reconnecting..."%string) s in
  handleStop s.

(** [onclose] (line 229). *)
Definition onclose (s : State) : State := handleStop s.

End PartB.

(** ** Observations and the spec's formulas *)

(** The times passed to [source.start], in call order. *)
Definition scheduled_starts (evs : list Event) : list Z :=
  flat_map (fun e => match e with
                     | SourceStart _ w => [w]
                     | _ => []
                     end) evs.

(** The packets handed to [session.sendRealtimeInput], in call order. *)
Definition sent_packets (evs : list Event) : list MediaPacket :=
  flat_map (fun e => match e with
                     | SendRealtimeInput p => [p]
                     | _ => []
                     end) evs.

(** The chunk a message of part_000 carries, once decoded. *)
Definition decoded (decodeAudioData : Js.JsString -> option AudioBuffer)
    (m : LiveServerMessage) : option AudioBuffer :=
  match PartA.base64Audio m with
  | Some b64 => decodeAudioData b64
  | None => None
  end.



(** The message carries no audio payload (in the reading of part_000). *)
Definition no_audio (m : LiveServerMessage) : bool := negb (is_some (PartA.base64Audio m)).

(** The message carries no payload that fails to decode. *)
Definition audio_ok (decodeAudioData : Js.JsString -> option AudioBuffer)
    (m : LiveServerMessage) : bool :=
  match PartA.base64Audio m with
  | Some b64 => is_some (decodeAudioData b64)
  | None => true
  end.

(** What a message adds to each transcript buffer. *)
Definition input_delta (m : LiveServerMessage) : Js.JsString :=
  match inputTranscription m with
  | Some t => Js.to_string t
  | None => []
  end.

Definition output_delta (m : LiveServerMessage) : Js.JsString :=
  match outputTranscription m with
  | Some t => Js.to_string t
  | None => []
  end.

(** The buffers as the turn-complete test of a message finds them. *)
Definition pending_user (m : LiveServerMessage) (s : State) : Js.JsString :=
  user_text (transcriptionBufferRef s) ++ input_delta m.

Definition pending_agent (m : LiveServerMessage) (s : State) : Js.JsString :=
  agent_text (transcriptionBufferRef s) ++ output_delta m.

(** The entry committed for a role: none for an empty text. *)
Definition entry_if (r : Role) (t : Js.JsString) (now : Z) : list TranscriptionEntry :=
  if Js.truthy t then [{| type := r; text := t; timestamp := now |}] else [].

Definition message_of (c : Z * Z * LiveServerMessage) : LiveServerMessage := snd c.

Definition currentTime_of (c : Z * Z * LiveServerMessage) : Z := snd (fst c).


(** The start times given to [source.start] while the messages [cs] were
    handled from state [s]. *)
Definition code_starts (decodeAudioData : Js.JsString -> option AudioBuffer)
    (cs : list (Z * Z * LiveServerMessage)) (s : State) : list Z :=
  skipn (List.length (scheduled_starts (trace s)))
        (scheduled_starts (trace (PartA.run decodeAudioData cs s))).

(** The spec's recurrence (section 4.3): [start = max(nextStart, currentTime)],
    then [nextStart = start + duration]. *)
Fixpoint spec_starts (nextStart : Z) (tds : list (Z * Z)) : list Z :=
  match tds with
  | [] => []
  | (t, d) :: rest => Z.max nextStart t :: spec_starts (Z.max nextStart t + d) rest
  end.

Fixpoint spec_clock (nextStart : Z) (tds : list (Z * Z)) : Z :=
  match tds with
  | [] => nextStart
  | (t, d) :: rest => spec_clock (Z.max nextStart t + d) rest
  end.

(** The spec's conversion formula (section 4.2): [round(sample * 32768)],
    clamped to the int16 range. *)
Definition clamp16 (n : Z) : Z := Z.max (-32768) (Z.min 32767 n).

Definition spec_sample_conversion (x : Q) : Z := clamp16 (Js.round (x * 32768)%Q).

(** States of a component on which [handleStart] was never invoked: the
    initial state and whatever the stop button, the mute button and the
    guard timer make of it. *)
Inductive never_startedA : State -> Prop :=
| nsA_init : never_startedA init
| nsA_stop s : never_startedA s -> never_startedA (task (PartA.handleStop false) s)
| nsA_timeout s : never_startedA s -> never_startedA (PartA.closing_timeout s)
| nsA_mute s : never_startedA s -> never_startedA (toggleMute s).

Inductive never_startedB : State -> Prop :=
| nsB_init : never_startedB init
| nsB_stop s : never_startedB s -> never_startedB (task PartB.handleStop s)
| nsB_mute s : never_startedB s -> never_startedB (toggleMute s).

(** All session references are null and no source is active. *)
Definition nothing_held (s : State) : Prop :=
  sessionPromiseRef s = None /\ recorderRef s = None /\ processorNodeRef s = None
  /\ sourceNodeRef s = false /\ micToMixerNodeRef s = false /\ streamRef s = None
  /\ activeSourcesRef s = [].

(** The invariant of a component that was never started. *)
Definition idle_and_empty (s : State) : Prop :=
  nothing_held s /\ status s = IDLE /\ nextStartTimeRef s = 0
  /\ filter is_release (log s) = [] /\ microtasks s = [].

(** ** Test data *)

(** A stand-in decoder: a payload of [k] code units decodes to [k] seconds
    of audio, unless it contains ['!'], which no base64 text does. *)
Definition sample_decoder (b64 : Js.JsString) : option AudioBuffer :=
  if existsb (N.eqb 33) b64 then None
  else Some {| duration := 24000 * Z.of_nat (List.length b64) |}.

Definition audio_message (b64 : string) : LiveServerMessage :=
  {| parts := [{| inlineData := Some (Some (Js.of_string b64)) |}];
     interrupted := false; inputTranscription := None; outputTranscription := None;
     turnComplete := false |}.

Definition control_message (interrupt complete : bool) (heard said : option string)
  : LiveServerMessage :=
  {| parts := []; interrupted := interrupt;
     inputTranscription := option_map (fun t => Some (Js.of_string t)) heard;
     outputTranscription := option_map (fun t => Some (Js.of_string t)) said;
     turnComplete := complete |}.

Definition microphone : MediaStream := {| getTracks := [0%nat] |}.

(** A call in progress on each front-end: started, opened, promise
    fulfilled. *)
Definition connectedA : State :=
  sessionPromise_fulfilled (task PartA.onopen (task (PartA.handleStart (Some microphone)) init)).

Definition connectedB : State :=
  sessionPromise_fulfilled (task PartB.onopen (task (PartB.handleStart (Some microphone)) init)).

(** The calls a reaction makes when it runs, given the guard at that time. *)
Definition continuation_events (closing : bool) (k : Continuation) : list Event :=
  match k with
  | ThenClose => [SessionClose]
  | ThenSendGuarded p => if closing then [] else [SendRealtimeInput p]
  | ThenSend p => [SendRealtimeInput p]
  end.

(** A second call on part_000, placed while the first one is muted: the
    call is stopped, the guard timer fires, a new call is started, opened
    and connected. *)
Definition recalled_while_mutedA : State :=
  sessionPromise_fulfilled
    (task PartA.onopen
       (task (PartA.handleStart (Some microphone))
          (PartA.closing_timeout (task (PartA.handleStop false) (toggleMute connectedA))))).

Definition frame_example : list Q := [(1 # 2)%Q; (-1 # 4)%Q; 0%Q].

(** A call stopped before the recorder produced any data: the stop, then
    the recorder's last [dataavailable] event with an empty blob. *)
Definition stopped_at_onceA : State :=
  recorder_ondataavailable [] (task (PartA.handleStop false) connectedA).

Definition stopped_at_onceB : State :=
  recorder_ondataavailable [] (task PartB.handleStop connectedB).

(** What a run of messages adds to each transcript buffer. *)
Definition heard (cs : list (Z * Z * LiveServerMessage)) : Js.JsString :=
  List.concat (map (fun c => input_delta (message_of c)) cs).

Definition said (cs : list (Z * Z * LiveServerMessage)) : Js.JsString :=
  List.concat (map (fun c => output_delta (message_of c)) cs).

(** A message inside a turn: it does not complete the turn, and its
    handler is not cut short by a payload that fails to decode. *)
Definition within_turn (decodeAudioData : Js.JsString -> option AudioBuffer)
    (m : LiveServerMessage) : bool :=
  negb (turnComplete m) && audio_ok decodeAudioData m.

Definition whitespace_only (t : Js.JsString) : Prop :=
  Forall (fun c => Js.isWhiteSpace c = true) t.

Definition empty_buffers : TranscriptionBuffer := {| user_text := []; agent_text := [] |}.

(** Three chunks of one second each, all arriving at [currentTime = 0]
    (the scenario of section 8 of the spec). *)
Definition three_chunks : list (Z * Z * LiveServerMessage) :=
  [(0, 0, audio_message "A"); (0, 0, audio_message "B"); (0, 0, audio_message "C")].

(** A barge-in notice, arriving after the second chunk. *)
Definition barge_in : LiveServerMessage := control_message true false None None.

Definition before_barge_in : State :=
  PartA.run sample_decoder (firstn 2 three_chunks) connectedA.

Definition after_barge_in : State :=
  state_of (PartA.onmessage sample_decoder 1 12000 barge_in before_barge_in).

(** A turn in which the agent's text arrives before the user's. *)
Definition agent_first_turn : list (Z * Z * LiveServerMessage) :=
  [(5, 0, control_message false false None (Some "Hi "%string));
   (6, 0, control_message false false (Some " hello"%string) None)].

Definition turn_end : LiveServerMessage := control_message false true None None.

(** A turn-complete message whose only text is two spaces. *)
Definition blank_turn_end : LiveServerMessage :=
  control_message false true (Some "  "%string) None.

(** ** The start handler around its awaits *)

(** [handleStart] of part_000 up to its first [await] (lines 125-143);
    [None] when it returned at the guard. *)
Definition handleStartA_before_await (s : State) : option State :=
  if isClosingRef s then None else
  let s := setErrorMessage None s in
  let s := setHasAudioData false s in
  let s := match audioUrlRef s with
           | Some url => emit (RevokeObjectURL url) s
           | None => s
           end in
  let s := with_audioUrlRef None s in
  let s := with_recordedChunksRef [] s in
  let s := setStatus CONNECTING s in
  Some (with_outputAudioContextRef true s).

(** The continuation of that [handleStart] once [getUserMedia] has settled
    (lines 148-289); no test is made between the awaits and the end.
    [isMuted_of_render] is the binding the handler was created with. *)
Definition handleStartA_after_await (isMuted_of_render : bool) (media : option MediaStream)
    (s : State) : State :=
  match media with
  | None =>
      let s := emit ConsoleError s in
      let s := setErrorMessage (Some "System error. Check mic permissions."%string) s in
      setStatus IDLE s
  | Some stream =>
      let s := with_streamRef (Some stream) s in
      let s := with_mixerRef true s in
      let s := with_micToMixerNodeRef true s in
      let s := emit (NodeConnect micToMixerNode) s in
      let s := emit LiveConnect s in
      let s := with_sessionPromiseRef (Some Pending) s in
      let s := with_sourceNodeRef true s in
      let s := with_processorNodeRef (Some {| closure_isMuted := isMuted_of_render |}) s in
      let s := emit (NodeConnect sourceNode) s in
      emit (NodeConnect processorNode) s
  end.

(** The same for part_001 (lines 122-137 and 142-265); it has no guard. *)
Definition handleStartB_before_await (s : State) : State :=
  let s := setErrorMessage None s in
  let s := setHasAudioData false s in
  let s := match audioUrlRef s with
           | Some url => emit (RevokeObjectURL url) s
           | None => s
           end in
  let s := with_audioUrlRef None s in
  let s := with_recordedChunksRef [] s in
  let s := setStatus CONNECTING s in
  with_outputAudioContextRef true s.

Definition handleStartB_after_await (isMuted_of_render : bool) (media : option MediaStream)
    (s : State) : State :=
  match media with
  | None =>
      let s := emit ConsoleError s in
      let s := setErrorMessage (Some "Microphone access failed."%string) s in
      setStatus IDLE s
  | Some stream =>
      let s := with_streamRef (Some stream) s in
      let s := with_mixerRef true s in
      let s := emit (NodeConnect micToMixerNode) s in
      let s := emit LiveConnect s in
      let s := with_sessionPromiseRef (Some Pending) s in
      let s := with_sourceNodeRef true s in
      let s := with_processorNodeRef (Some {| closure_isMuted := isMuted_of_render |}) s in
      let s := emit (NodeConnect sourceNode) s in
      emit (NodeConnect processorNode) s
  end.

(** ** The callbacks of a component, as the event loop delivers them *)

Inductive Callback :=
| StartClicked
| StartResumed (isMuted_of_render : bool) (media : option MediaStream)
| StopClicked
| MuteClicked
| Opened
| Received (now currentTime : Z) (m : LiveServerMessage)
| Failed
| Closed
| PromiseFulfilled
| PromiseRejected
| GuardTimer
| FrameCaptured (inputData : list Q)
| SourceEnded (id : nat)
| RecorderData (e_data : Blob)
| RecorderStopped.

(** One callback of part_000.  [StartResumed] is the continuation of a
    [handleStart] whose awaits have settled; it may come at any later
    time.  [Received] is a message handled in one piece: its decoding
    settles before the next callback ([Delivery] below has the arrival and
    the settling apart). *)
Definition dispatchA (decodeAudioData : Js.JsString -> option AudioBuffer)
    (cb : Callback) (s : State) : State :=
  match cb with
  | StartClicked =>
      match handleStartA_before_await s with
      | Some s' => s'
      | None => s
      end
  | StartResumed muted media => handleStartA_after_await muted media s
  | StopClicked => task (PartA.handleStop false) s
  | MuteClicked => toggleMute s
  | Opened => task PartA.onopen s
  | Received now t m => state_of (PartA.onmessage decodeAudioData now t m s)
  | Failed => task PartA.onerror s
  | Closed => task PartA.onclose s
  | PromiseFulfilled => sessionPromise_fulfilled s
  | PromiseRejected => sessionPromise_rejected s
  | GuardTimer => PartA.closing_timeout s
  | FrameCaptured inputData => PartA.audioprocess inputData s
  | SourceEnded id => source_onended id s
  | RecorderData e_data => recorder_ondataavailable e_data s
  | RecorderStopped => recorder_onstop s
  end.

(** One callback of part_001, which has no guard timer. *)
Definition dispatchB (decodeAudioData : Js.JsString -> option AudioBuffer)
    (cb : Callback) (s : State) : State :=
  match cb with
  | StartClicked => handleStartB_before_await s
  | StartResumed muted media => handleStartB_after_await muted media s
  | StopClicked => task PartB.handleStop s
  | MuteClicked => toggleMute s
  | Opened => task PartB.onopen s
  | Received now t m => state_of (PartB.onmessage decodeAudioData now t m s)
  | Failed => task PartB.onerror s
  | Closed => task PartB.onclose s
  | PromiseFulfilled => sessionPromise_fulfilled s
  | PromiseRejected => sessionPromise_rejected s
  | GuardTimer => s
  | FrameCaptured inputData => PartB.audioprocess inputData s
  | SourceEnded id => source_onended id s
  | RecorderData e_data => recorder_ondataavailable e_data s
  | RecorderStopped => recorder_onstop s
  end.

(** A sequence of callbacks, in delivery order. *)
Definition deliver (dispatch : Callback -> State -> State) (cbs : list Callback) (s : State)
  : State :=
  fold_left (fun st cb => dispatch cb st) cbs s.


(** The events picked out of a list by a partial function. *)
Definition pick {A : Type} (f : Event -> option A) (evs : list Event) : list A :=
  flat_map (fun e => match f e with
                     | Some a => [a]
                     | None => []
                     end) evs.

Definition stopped_track (e : Event) : option nat :=
  match e with
  | TrackStop t => Some t
  | _ => None
  end.

(** The blobs delivered to [recorder.ondataavailable] in a sequence of
    callbacks, by the recorder of the running call or by the recorder of an
    earlier one: both push to the same [recordedChunksRef]. *)
Definition delivered_data (cbs : list Callback) : list Blob :=
  flat_map (fun cb => match cb with
                      | RecorderData b => [b]
                      | _ => []
                      end) cbs.

Definition is_start_click (cb : Callback) : bool :=
  match cb with
  | StartClicked => true
  | _ => false
  end.

(** Messages of part_001 handled one at a time, in arrival order. *)
Fixpoint runB (decodeAudioData : Js.JsString -> option AudioBuffer)
    (ms : list (Z * Z * LiveServerMessage)) (s : State) : State :=
  match ms with
  | [] => s
  | (now, currentTime, m) :: rest =>
      runB decodeAudioData rest (state_of (PartB.onmessage decodeAudioData now currentTime m s))
  end.

(** Test states: part_000 after a call, a stop, the recorder's last events
    and the guard timer. *)
Definition idle_after_callA : State :=
  PartA.closing_timeout (recorder_onstop stopped_at_onceA).

(** The transcript and the recording cells are the same in two states. *)
Definition same_cells (s s' : State) : Prop :=
  transcriptions s' = transcriptions s
  /\ recordedChunksRef s' = recordedChunksRef s
  /\ hasAudioData s' = hasAudioData s
  /\ audioUrlRef s' = audioUrlRef s.

(** The callbacks that concern neither the transcript nor the recording. *)
Definition is_bystander (cb : Callback) : bool :=
  match cb with
  | StartClicked | Received _ _ _ | RecorderData _ | RecorderStopped => false
  | _ => true
  end.

(** The "Call Recording" button is enabled only when there is a URL to
    download ([disabled={!hasAudioData}], part_000:346, part_001:294, and
    the test of [downloadAudio], part_000:309, part_001:83). *)
Definition recording_button_works (s : State) : Prop :=
  hasAudioData s = true -> audioUrlRef s <> None.

(** The test [e.data.size > 0] of [recorder.ondataavailable]. *)
Definition nonempty_blob (b : Blob) : bool :=
  match b with
  | [] => false
  | _ :: _ => true
  end.

(** The tracks of the stream a state holds. *)
Definition tracks_held (s : State) : list nat :=
  match streamRef s with
  | Some stream => getTracks stream
  | None => []
  end.

(** One release call for each resource a state of part_000 holds: the
    running recorder, the three audio nodes, the tracks of the stream, the
    active sources, and the session of a fulfilled connection. *)
Definition releases_dueA (s : State) : list Event :=
  (match recorderRef s with
   | Some recording | Some paused => [RecorderStop]
   | _ => []
   end)
  ++ (if is_some (processorNodeRef s) then [NodeDisconnect processorNode] else [])
  ++ (if sourceNodeRef s then [NodeDisconnect sourceNode] else [])
  ++ (if micToMixerNodeRef s then [NodeDisconnect micToMixerNode] else [])
  ++ map TrackStop (tracks_held s)
  ++ map (fun src => SourceStop (src_id src)) (activeSourcesRef s)
  ++ (match sessionPromiseRef s with
      | Some Fulfilled => [SessionClose]
      | _ => []
      end).

(** The same for part_001, which keeps no cell for the microphone-to-mixer
    node. *)
Definition releases_dueB (s : State) : list Event :=
  (match recorderRef s with
   | Some recording | Some paused => [RecorderStop]
   | _ => []
   end)
  ++ (if is_some (processorNodeRef s) then [NodeDisconnect processorNode] else [])
  ++ (if sourceNodeRef s then [NodeDisconnect sourceNode] else [])
  ++ map TrackStop (tracks_held s)
  ++ map (fun src => SourceStop (src_id src)) (activeSourcesRef s)
  ++ (match sessionPromiseRef s with
      | Some Fulfilled => [SessionClose]
      | _ => []
      end).

(** Every cell a teardown is to clear is clear. *)
Definition torn_down (s : State) : Prop :=
  sessionPromiseRef s = None /\ processorNodeRef s = None /\ sourceNodeRef s = false
  /\ streamRef s = None /\ activeSourcesRef s = [] /\ nextStartTimeRef s = 0
  /\ isProcessing s = false /\ recorderRef s <> Some recording /\ recorderRef s <> Some paused.

(** A state in which a connection has been requested and is still pending,
    with the capture callback of an unmuted render wired and nothing
    queued. *)
Definition connecting (s : State) : Prop :=
  sessionPromiseRef s = Some Pending
  /\ processorNodeRef s = Some {| closure_isMuted := false |}
  /\ isClosingRef s = false
  /\ microtasks s = []
  /\ reactions s = [].

(** Frames delivered one after the other to a capture callback. *)
Definition capture (audioprocess : list Q -> State -> State) (frames : list (list Q))
    (s : State) : State :=
  fold_left (fun st f => audioprocess f st) frames s.

(** The connection is pending and [pkts] wait on it, each in the reaction
    [k]. *)
Definition queued (k : MediaPacket -> Continuation) (pkts : list MediaPacket) (s : State)
  : Prop :=
  sessionPromiseRef s = Some Pending
  /\ isClosingRef s = false
  /\ microtasks s = []
  /\ reactions s = map k pkts.

(** A call being connected on each front-end. *)
Definition connectingA : State := task (PartA.handleStart (Some microphone)) init.

Definition connectingB : State := task (PartB.handleStart (Some microphone)) init.

(** A message that announces a barge-in and the end of the turn, with a
    payload that does not decode. *)
Definition garbled_barge_in : LiveServerMessage :=
  {| parts := [{| inlineData := Some (Some (Js.of_string "!")) |}];
     interrupted := true; inputTranscription := None; outputTranscription := None;
     turnComplete := true |}.

(** The callbacks of one call after the click on start: the microphone is
    granted, the connection opens, the recorder delivers three blobs (one of
    them empty) around a message, and the call is stopped. *)
Definition one_call : list Callback :=
  [StartResumed false (Some microphone); Opened; PromiseFulfilled;
   RecorderData [Byte.x01; Byte.x02]; RecorderData [];
   Received 1 0 (audio_message "A"); RecorderData [Byte.x03]; StopClicked].

(** The same call from the click on, up to the recorder's stop event. *)
Definition one_recorded_call : list Callback := StartClicked :: one_call ++ [RecorderStopped].

(** From [s] to [s'] the status is kept or set to one of IDLE, CONNECTING
    and CONNECTED, and the clock is kept or reset. *)
Definition calm (s s' : State) : Prop :=
  (status s' = status s \/ status s' = IDLE \/ status s' = CONNECTING \/ status s' = CONNECTED)
  /\ (nextStartTimeRef s' = nextStartTimeRef s \/ nextStartTimeRef s' = 0).

(** The callback is a connection error. *)
Definition is_failure (cb : Callback) : bool :=
  match cb with
  | Failed => true
  | _ => false
  end.

(** The callback is a server message. *)
Definition is_message (cb : Callback) : bool :=
  match cb with
  | Received _ _ _ => true
  | _ => false
  end.

(** A call whose connection fails once it is open. *)
Definition failed_call : list Callback :=
  [StartClicked; StartResumed false (Some microphone); Opened; PromiseFulfilled; Failed].

(** ** part_000, second component: the front-end that keeps the session itself *)

(** The file part_000 holds a second [App] (lines 514-691).  It keeps the
    resolved session in [sessionRef] instead of the connection promise,
    closes and sends synchronously, and has neither recorder nor mixer nor
    closing guard. *)
Module PartC.

(** The state variables (lines 515-518) and the refs the handlers write
    (lines 520-529), then the [log] and the number of source nodes
    created so far. *)
Record State := {
  status : AppStatus;
  transcriptions : list TranscriptionEntry;
  isMuted : bool;
  errorMessage : option string;
  audioContextRef : bool;
  outputAudioContextRef : bool;
  sessionRef : bool;
  nextStartTimeRef : Z;
  activeSourcesRef : list Source;
  streamRef : option MediaStream;
  processorNodeRef : option Processor;
  sourceNodeRef : bool;
  transcriptionBufferRef : TranscriptionBuffer;
  log : list Event;
  sourcesCreated : nat
}.

(** Field updates. *)
Definition with_status (v : AppStatus) (s : State) : State :=
  {| status := v; transcriptions := transcriptions s; isMuted := isMuted s;
     errorMessage := errorMessage s; audioContextRef := audioContextRef s;
     outputAudioContextRef := outputAudioContextRef s; sessionRef := sessionRef s;
     nextStartTimeRef := nextStartTimeRef s; activeSourcesRef := activeSourcesRef s;
     streamRef := streamRef s; processorNodeRef := processorNodeRef s;
     sourceNodeRef := sourceNodeRef s;
     transcriptionBufferRef := transcriptionBufferRef s; log := log s;
     sourcesCreated := sourcesCreated s |}.

Definition with_transcriptions (v : list TranscriptionEntry) (s : State) : State :=
  {| status := status s; transcriptions := v; isMuted := isMuted s;
     errorMessage := errorMessage s; audioContextRef := audioContextRef s;
     outputAudioContextRef := outputAudioContextRef s; sessionRef := sessionRef s;
     nextStartTimeRef := nextStartTimeRef s; activeSourcesRef := activeSourcesRef s;
     streamRef := streamRef s; processorNodeRef := processorNodeRef s;
     sourceNodeRef := sourceNodeRef s;
     transcriptionBufferRef := transcriptionBufferRef s; log := log s;
     sourcesCreated := sourcesCreated s |}.

Definition with_isMuted (v : bool) (s : State) : State :=
  {| status := status s; transcriptions := transcriptions s; isMuted := v;
     errorMessage := errorMessage s; audioContextRef := audioContextRef s;
     outputAudioContextRef := outputAudioContextRef s; sessionRef := sessionRef s;
     nextStartTimeRef := nextStartTimeRef s; activeSourcesRef := activeSourcesRef s;
     streamRef := streamRef s; processorNodeRef := processorNodeRef s;
     sourceNodeRef := sourceNodeRef s;
     transcriptionBufferRef := transcriptionBufferRef s; log := log s;
     sourcesCreated := sourcesCreated s |}.

Definition with_errorMessage (v : option string) (s : State) : State :=
  {| status := status s; transcriptions := transcriptions s; isMuted := isMuted s;
     errorMessage := v; audioContextRef := audioContextRef s;
     outputAudioContextRef := outputAudioContextRef s; sessionRef := sessionRef s;
     nextStartTimeRef := nextStartTimeRef s; activeSourcesRef := activeSourcesRef s;
     streamRef := streamRef s; processorNodeRef := processorNodeRef s;
     sourceNodeRef := sourceNodeRef s;
     transcriptionBufferRef := transcriptionBufferRef s; log := log s;
     sourcesCreated := sourcesCreated s |}.

Definition with_audioContextRef (v : bool) (s : State) : State :=
  {| status := status s; transcriptions := transcriptions s; isMuted := isMuted s;
     errorMessage := errorMessage s; audioContextRef := v;
     outputAudioContextRef := outputAudioContextRef s; sessionRef := sessionRef s;
     nextStartTimeRef := nextStartTimeRef s; activeSourcesRef := activeSourcesRef s;
     streamRef := streamRef s; processorNodeRef := processorNodeRef s;
     sourceNodeRef := sourceNodeRef s;
     transcriptionBufferRef := transcriptionBufferRef s; log := log s;
     sourcesCreated := sourcesCreated s |}.

Definition with_outputAudioContextRef (v : bool) (s : State) : State :=
  {| status := status s; transcriptions := transcriptions s; isMuted := isMuted s;
     errorMessage := errorMessage s; audioContextRef := audioContextRef s;
     outputAudioContextRef := v; sessionRef := sessionRef s;
     nextStartTimeRef := nextStartTimeRef s; activeSourcesRef := activeSourcesRef s;
     streamRef := streamRef s; processorNodeRef := processorNodeRef s;
     sourceNodeRef := sourceNodeRef s;
     transcriptionBufferRef := transcriptionBufferRef s; log := log s;
     sourcesCreated := sourcesCreated s |}.

Definition with_sessionRef (v : bool) (s : State) : State :=
  {| status := status s; transcriptions := transcriptions s; isMuted := isMuted s;
     errorMessage := errorMessage s; audioContextRef := audioContextRef s;
     outputAudioContextRef := outputAudioContextRef s; sessionRef := v;
     nextStartTimeRef := nextStartTimeRef s; activeSourcesRef := activeSourcesRef s;
     streamRef := streamRef s; processorNodeRef := processorNodeRef s;
     sourceNodeRef := sourceNodeRef s;
     transcriptionBufferRef := transcriptionBufferRef s; log := log s;
     sourcesCreated := sourcesCreated s |}.

Definition with_nextStartTimeRef (v : Z) (s : State) : State :=
  {| status := status s; transcriptions := transcriptions s; isMuted := isMuted s;
     errorMessage := errorMessage s; audioContextRef := audioContextRef s;
     outputAudioContextRef := outputAudioContextRef s; sessionRef := sessionRef s;
     nextStartTimeRef := v; activeSourcesRef := activeSourcesRef s;
     streamRef := streamRef s; processorNodeRef := processorNodeRef s;
     sourceNodeRef := sourceNodeRef s;
     transcriptionBufferRef := transcriptionBufferRef s; log := log s;
     sourcesCreated := sourcesCreated s |}.

Definition with_activeSourcesRef (v : list Source) (s : State) : State :=
  {| status := status s; transcriptions := transcriptions s; isMuted := isMuted s;
     errorMessage := errorMessage s; audioContextRef := audioContextRef s;
     outputAudioContextRef := outputAudioContextRef s; sessionRef := sessionRef s;
     nextStartTimeRef := nextStartTimeRef s; activeSourcesRef := v;
     streamRef := streamRef s; processorNodeRef := processorNodeRef s;
     sourceNodeRef := sourceNodeRef s;
     transcriptionBufferRef := transcriptionBufferRef s; log := log s;
     sourcesCreated := sourcesCreated s |}.

Definition with_streamRef (v : option MediaStream) (s : State) : State :=
  {| status := status s; transcriptions := transcriptions s; isMuted := isMuted s;
     errorMessage := errorMessage s; audioContextRef := audioContextRef s;
     outputAudioContextRef := outputAudioContextRef s; sessionRef := sessionRef s;
     nextStartTimeRef := nextStartTimeRef s; activeSourcesRef := activeSourcesRef s;
     streamRef := v; processorNodeRef := processorNodeRef s;
     sourceNodeRef := sourceNodeRef s;
     transcriptionBufferRef := transcriptionBufferRef s; log := log s;
     sourcesCreated := sourcesCreated s |}.

Definition with_processorNodeRef (v : option Processor) (s : State) : State :=
  {| status := status s; transcriptions := transcriptions s; isMuted := isMuted s;
     errorMessage := errorMessage s; audioContextRef := audioContextRef s;
     outputAudioContextRef := outputAudioContextRef s; sessionRef := sessionRef s;
     nextStartTimeRef := nextStartTimeRef s; activeSourcesRef := activeSourcesRef s;
     streamRef := streamRef s; processorNodeRef := v; sourceNodeRef := sourceNodeRef s;
     transcriptionBufferRef := transcriptionBufferRef s; log := log s;
     sourcesCreated := sourcesCreated s |}.

Definition with_sourceNodeRef (v : bool) (s : State) : State :=
  {| status := status s; transcriptions := transcriptions s; isMuted := isMuted s;
     errorMessage := errorMessage s; audioContextRef := audioContextRef s;
     outputAudioContextRef := outputAudioContextRef s; sessionRef := sessionRef s;
     nextStartTimeRef := nextStartTimeRef s; activeSourcesRef := activeSourcesRef s;
     streamRef := streamRef s; processorNodeRef := processorNodeRef s;
     sourceNodeRef := v; transcriptionBufferRef := transcriptionBufferRef s;
     log := log s; sourcesCreated := sourcesCreated s |}.

Definition with_transcriptionBufferRef (v : TranscriptionBuffer) (s : State) : State :=
  {| status := status s; transcriptions := transcriptions s; isMuted := isMuted s;
     errorMessage := errorMessage s; audioContextRef := audioContextRef s;
     outputAudioContextRef := outputAudioContextRef s; sessionRef := sessionRef s;
     nextStartTimeRef := nextStartTimeRef s; activeSourcesRef := activeSourcesRef s;
     streamRef := streamRef s; processorNodeRef := processorNodeRef s;
     sourceNodeRef := sourceNodeRef s; transcriptionBufferRef := v; log := log s;
     sourcesCreated := sourcesCreated s |}.

Definition with_log (v : list Event) (s : State) : State :=
  {| status := status s; transcriptions := transcriptions s; isMuted := isMuted s;
     errorMessage := errorMessage s; audioContextRef := audioContextRef s;
     outputAudioContextRef := outputAudioContextRef s; sessionRef := sessionRef s;
     nextStartTimeRef := nextStartTimeRef s; activeSourcesRef := activeSourcesRef s;
     streamRef := streamRef s; processorNodeRef := processorNodeRef s;
     sourceNodeRef := sourceNodeRef s;
     transcriptionBufferRef := transcriptionBufferRef s; log := v;
     sourcesCreated := sourcesCreated s |}.

Definition with_sourcesCreated (v : nat) (s : State) : State :=
  {| status := status s; transcriptions := transcriptions s; isMuted := isMuted s;
     errorMessage := errorMessage s; audioContextRef := audioContextRef s;
     outputAudioContextRef := outputAudioContextRef s; sessionRef := sessionRef s;
     nextStartTimeRef := nextStartTimeRef s; activeSourcesRef := activeSourcesRef s;
     streamRef := streamRef s; processorNodeRef := processorNodeRef s;
     sourceNodeRef := sourceNodeRef s;
     transcriptionBufferRef := transcriptionBufferRef s; log := log s;
     sourcesCreated := v |}.

Definition init : State :=
  {| status := IDLE; transcriptions := []; isMuted := false; errorMessage := None;
     audioContextRef := false; outputAudioContextRef := false; sessionRef := false;
     nextStartTimeRef := 0; activeSourcesRef := []; streamRef := None;
     processorNodeRef := None; sourceNodeRef := false;
     transcriptionBufferRef := {| user_text := []; agent_text := [] |};
     log := []; sourcesCreated := 0%nat |}.

Definition emit (e : Event) (s : State) : State := with_log (e :: log s) s.

Definition emits (es : list Event) (s : State) : State := with_log (rev es ++ log s) s.

Definition trace (s : State) : list Event := rev (log s).

Definition setStatus (v : AppStatus) (s : State) : State :=
  with_status v (emit (SetState sv_status) s).

Definition setIsMuted (v : bool) (s : State) : State :=
  with_isMuted v (emit (SetState sv_isMuted) s).

Definition setErrorMessage (v : option string) (s : State) : State :=
  with_errorMessage v (emit (SetState sv_errorMessage) s).

Definition setTranscriptions_append (e : TranscriptionEntry) (s : State) : State :=
  with_transcriptions (transcriptions s ++ [e]) (emit (SetState sv_transcriptions) s).

Definition stop_sources (s : State) : State :=
  emits (map (fun src => SourceStop (src_id src)) (activeSourcesRef s)) s.

(** [source.onended = () => activeSourcesRef.current.delete(source)]
    (line 650). *)
Definition source_onended (id : nat) (s : State) : State :=
  with_activeSourcesRef
    (filter (fun x => negb (Nat.eqb (src_id x) id)) (activeSourcesRef s)) s.

(** [onClick={() => setIsMuted(!isMuted)}] (line 804). *)
Definition toggleMute (s : State) : State := setIsMuted (negb (isMuted s)) s.

(** [handleStop] (lines 553-576): the session is closed first, and at
    once. *)
Definition handleStop (s : State) : State :=
  let s := if sessionRef s
           then with_sessionRef false (emit SessionClose s)
           else s in
  let s := match streamRef s with
           | Some stream => with_streamRef None (emits (map TrackStop (getTracks stream)) s)
           | None => s
           end in
  let s := match processorNodeRef s with
           | Some _ => with_processorNodeRef None (emit (NodeDisconnect processorNode) s)
           | None => s
           end in
  let s := if sourceNodeRef s
           then with_sourceNodeRef false (emit (NodeDisconnect sourceNode) s)
           else s in
  let s := stop_sources s in
  let s := with_activeSourcesRef [] s in
  let s := with_nextStartTimeRef 0 s in
  setStatus IDLE s.

(** [handleStart] (lines 578-691) is cut at its awaits.  Up to the
    first one (lines 580-590): *)
Definition handleStart_before_await (s : State) : State :=
  let s := setErrorMessage None s in
  let s := setStatus CONNECTING s in
  let s := with_audioContextRef true s in
  with_outputAudioContextRef true s.

(** Once [getUserMedia] has resolved (lines 595-598, up to the [await] of
    the connection at line 685). *)
Definition handleStart_granted (stream : MediaStream) (s : State) : State :=
  let s := with_streamRef (Some stream) s in
  emit LiveConnect s.

(** Once the connection promise has resolved (line 685). *)
Definition handleStart_connected (s : State) : State := with_sessionRef true s.

(** The [catch] (lines 686-690), reached when either await rejects. *)
Definition handleStart_failed (s : State) : State :=
  let s := emit ConsoleError s in
  let s := setErrorMessage (Some "Could not access microphone or server."%string) s in
  setStatus IDLE s.

(** [onopen] (lines 610-638); the [onaudioprocess] closure it installs
    reads the [isMuted] binding of the [handleStart] that created the
    connection.  [audioContextRef.current!] is set by every [handleStart]
    before a connection exists; on a null context the call at line 612
    throws. *)
Definition onopen (isMuted_of_render : bool) (s : State) : State :=
  let s := setStatus CONNECTED s in
  if audioContextRef s then
    let s := with_sourceNodeRef true s in
    let s := with_processorNodeRef (Some {| closure_isMuted := isMuted_of_render |}) s in
    let s := emit (NodeConnect sourceNode) s in
    emit (NodeConnect processorNode) s
  else s.

(** [onaudioprocess] (lines 618-634). *)
Definition onaudioprocess (p : Processor) (inputData : list Q) (s : State) : State :=
  if closure_isMuted p || negb (sessionRef s) then s
  else emit (SendRealtimeInput (pcmBlob inputData)) s.

Definition audioprocess (inputData : list Q) (s : State) : State :=
  match processorNodeRef s with
  | Some p => onaudioprocess p inputData s
  | None => s
  end.

Inductive Outcome :=
| Done (s : State)
| Thrown (s : State).

Definition state_of (o : Outcome) : State :=
  match o with
  | Done s => s
  | Thrown s => s
  end.

Inductive Suspension :=
| Returned (s : State)
| Awaiting (b64 : Js.JsString) (s : State).

(** The interruption block (lines 656-660). *)
Definition on_interrupted (s : State) : State :=
  let s := stop_sources s in
  let s := with_activeSourcesRef [] s in
  with_nextStartTimeRef 0 s.

(** The two transcription blocks (lines 662-667). *)
Definition on_transcriptions (m : LiveServerMessage) (s : State) : State :=
  let s := match inputTranscription m with
           | Some t =>
               let b := transcriptionBufferRef s in
               with_transcriptionBufferRef
                 {| user_text := user_text b ++ Js.to_string t; agent_text := agent_text b |} s
           | None => s
           end in
  match outputTranscription m with
  | Some t =>
      let b := transcriptionBufferRef s in
      with_transcriptionBufferRef
        {| user_text := user_text b; agent_text := agent_text b ++ Js.to_string t |} s
  | None => s
  end.

(** The turn-complete block (lines 668-674). *)
Definition turn_complete (now : Z) (s : State) : State :=
  let userText := Js.trim (user_text (transcriptionBufferRef s)) in
  let agentText := Js.trim (agent_text (transcriptionBufferRef s)) in
  let s := if Js.truthy userText
           then setTranscriptions_append {| type := user; text := userText; timestamp := now |} s
           else s in
  let s := if Js.truthy agentText
           then setTranscriptions_append
                  {| type := agent; text := agentText; timestamp := now |} s
           else s in
  with_transcriptionBufferRef {| user_text := []; agent_text := [] |} s.

Definition after_audio (now : Z) (m : LiveServerMessage) (s : State) : State :=
  let s := if interrupted m then on_interrupted s else s in
  let s := on_transcriptions m s in
  if turnComplete m then turn_complete now s else s.

Section Messages.

Variable decodeAudioData : Js.JsString -> option AudioBuffer.

(** Line 640: [parts?.find(p => p.inlineData)?.inlineData?.data]. *)
Definition base64Audio (m : LiveServerMessage) : option Js.JsString :=
  match find (fun p => is_some (inlineData p)) (parts m) with
  | Some p => match inlineData p with
              | Some d => d
              | None => None
              end
  | None => None
  end.

(** The audio block up to its [await] (lines 641-645). *)
Definition audio_before_await (currentTime : Z) (m : LiveServerMessage) (s : State)
  : Suspension :=
  match base64Audio m with
  | Some b64 =>
      if Js.truthy b64 && outputAudioContextRef s then
        Awaiting b64 (with_nextStartTimeRef (Z.max (nextStartTimeRef s) currentTime) s)
      else Returned s
  | None => Returned s
  end.

(** The audio block from the settling of the decoding on (lines
    645-654). *)
Definition audio_after_await (decoded : option AudioBuffer) (s : State) : Outcome :=
  match decoded with
  | None => Thrown s
  | Some buf =>
      let source := {| src_id := sourcesCreated s; buffer := buf |} in
      let s := with_sourcesCreated (S (sourcesCreated s)) s in
      let s := emit (SourceConnect (src_id source) speakers) s in
      let s := emit (SourceStart (src_id source) (nextStartTimeRef s)) s in
      let s := with_nextStartTimeRef (nextStartTimeRef s + duration buf) s in
      Done (with_activeSourcesRef (activeSourcesRef s ++ [source]) s)
  end.

(** [onmessage] up to its [await] (lines 640-645), or the whole body
    (lines 640-674) when there is nothing to decode. *)
Definition onmessage_before_await (now currentTime : Z) (m : LiveServerMessage)
    (s : State) : Suspension :=
  match audio_before_await currentTime m s with
  | Returned s => Returned (after_audio now m s)
  | Awaiting b64 s => Awaiting b64 s
  end.

(** [onmessage] from the settling of the decoding on (lines 645-674). *)
Definition onmessage_after_await (now : Z) (m : LiveServerMessage)
    (decoded : option AudioBuffer) (s : State) : Outcome :=
  match audio_after_await decoded s with
  | Done s => Done (after_audio now m s)
  | Thrown s => Thrown s
  end.

(** The audio block in one piece: its two halves with no other callback
    in between. *)
Definition schedule_audio (currentTime : Z) (m : LiveServerMessage) (s : State) : Outcome :=
  match audio_before_await currentTime m s with
  | Returned s => Done s
  | Awaiting b64 s => audio_after_await (decodeAudioData b64) s
  end.

(** [onmessage] (lines 639-675) in one piece, in the same way. *)
Definition onmessage (now currentTime : Z) (m : LiveServerMessage) (s : State) : Outcome :=
  match schedule_audio currentTime m s with
  | Done s => Done (after_audio now m s)
  | Thrown s => Thrown s
  end.

(** Messages handled one at a time. *)
Fixpoint run (ms : list (Z * Z * LiveServerMessage)) (s : State) : State :=
  match ms with
  | [] => s
  | (now, currentTime, m) :: rest => run rest (state_of (onmessage now currentTime m s))
  end.

End Messages.

(** [onerror] (lines 676-680). *)
Definition onerror (s : State) : State :=
  let s := emit ConsoleError s in
  let s := setErrorMessage (Some "Connection interrupted. Please try again."%string) s in
  handleStop s.

(** [onclose] (line 681). *)
Definition onclose (s : State) : State := handleStop s.

(** One release call for each resource a state holds, in the order of
    [handleStop]. *)
Definition releases_due (s : State) : list Event :=
  (if sessionRef s then [SessionClose] else [])
  ++ map TrackStop (match streamRef s with
                    | Some stream => getTracks stream
                    | None => []
                    end)
  ++ (if is_some (processorNodeRef s) then [NodeDisconnect processorNode] else [])
  ++ (if sourceNodeRef s then [NodeDisconnect sourceNode] else [])
  ++ map (fun src => SourceStop (src_id src)) (activeSourcesRef s).

Definition torn_down (s : State) : Prop :=
  sessionRef s = false /\ streamRef s = None /\ processorNodeRef s = None
  /\ sourceNodeRef s = false /\ activeSourcesRef s = [] /\ nextStartTimeRef s = 0.

End PartC.

(** A call on the second component: being connected, and connected. *)
Definition connectingC : PartC.State :=
  PartC.handleStart_granted microphone (PartC.handleStart_before_await PartC.init).

Definition connectedC : PartC.State :=
  PartC.handleStart_connected (PartC.onopen false connectingC).

(** The calls that make the playback heard. *)
Definition is_playback (e : Event) : bool :=
  match e with
  | SourceStart _ _ | SourceStop _ | SourceConnect _ speakers => true
  | _ => false
  end.

(** A state of the second component and a state of part_001 agree on
    everything the message handlers of both read and write, and on the
    playback calls made so far. *)
Definition agree (c : PartC.State) (b : State) : Prop :=
  PartC.transcriptions c = transcriptions b
  /\ PartC.transcriptionBufferRef c = transcriptionBufferRef b
  /\ PartC.nextStartTimeRef c = nextStartTimeRef b
  /\ PartC.activeSourcesRef c = activeSourcesRef b
  /\ PartC.sourcesCreated c = sourcesCreated b
  /\ PartC.outputAudioContextRef c = outputAudioContextRef b
  /\ filter is_playback (PartC.log c) = filter is_playback (log b).

(** Two handlers ended the same way, in states that agree; the mixer of
    part_001 is still there. *)
Definition agree_outcome (c : PartC.Outcome) (b : Outcome) : Prop :=
  match c, b with
  | PartC.Done c', Done b' => agree c' b' /\ mixerRef b' = true
  | PartC.Thrown c', Thrown b' => agree c' b' /\ mixerRef b' = true
  | _, _ => False
  end.

(** The callbacks of the second component, as the event loop delivers
    them. *)
Inductive CallbackC :=
| StartClickedC
| MediaGrantedC (stream : MediaStream)
| ConnectedC
| StartFailedC
| StopClickedC
| OpenedC (isMuted_of_render : bool)
| ReceivedC (now currentTime : Z) (m : LiveServerMessage)
| FailedC
| ClosedC
| FrameCapturedC (inputData : list Q)
| MuteClickedC
| SourceEndedC (id : nat).

(** One callback of the second component. *)
Definition dispatchC (decodeAudioData : Js.JsString -> option AudioBuffer)
    (cb : CallbackC) (s : PartC.State) : PartC.State :=
  match cb with
  | StartClickedC => PartC.handleStart_before_await s
  | MediaGrantedC stream => PartC.handleStart_granted stream s
  | ConnectedC => PartC.handleStart_connected s
  | StartFailedC => PartC.handleStart_failed s
  | StopClickedC => PartC.handleStop s
  | OpenedC muted => PartC.onopen muted s
  | ReceivedC now t m => PartC.state_of (PartC.onmessage decodeAudioData now t m s)
  | FailedC => PartC.onerror s
  | ClosedC => PartC.onclose s
  | FrameCapturedC inputData => PartC.audioprocess inputData s
  | MuteClickedC => PartC.toggleMute s
  | SourceEndedC id => PartC.source_onended id s
  end.

(** A sequence of callbacks of the second component, in delivery order. *)
Definition deliverC (decodeAudioData : Js.JsString -> option AudioBuffer)
    (cbs : list CallbackC) (s : PartC.State) : PartC.State :=
  fold_left (fun st cb => dispatchC decodeAudioData cb st) cbs s.
(** ** The message handler around its await *)

(** The handler of [m], called in state [s] or resumed in state [s] after
    its [await], has run to its end and left [s']. *)
Definition ends_inA (now t : Z) (m : LiveServerMessage) (s s' : State) : Prop :=
  PartA.onmessage_before_await now t m s = Returned s'
  \/ exists buf, PartA.onmessage_after_await now m (Some buf) s = Done s'.

Definition ends_inB (now t : Z) (m : LiveServerMessage) (s s' : State) : Prop :=
  PartB.onmessage_before_await now t m s = Returned s'
  \/ exists buf, PartB.onmessage_after_await now m (Some buf) s = Done s'.

(** ** Messages and decodings in any order *)

(** A handler suspended at its [await]: the message it was called with and
    the payload being decoded.  The two readings it made before the [await]
    are kept beside them for reference; the handler itself keeps neither. *)
Record PendingDecode := {
  awaiting_message : LiveServerMessage;
  awaiting_payload : Js.JsString;
  read_currentTime : Z;
  found_clock : Z
}.

(** What the event loop delivers to the message handlers: a message, or the
    settling of the [i]-th of the pending decodings (they need not settle in
    the order they were started). *)
Inductive Delivery :=
| Arrives (now t : Z) (m : LiveServerMessage)
| DecodeSettles (i : nat) (now : Z).

Definition remove_nth {A : Type} (i : nat) (l : list A) : list A :=
  firstn i l ++ skipn (S i) l.

Section Deliveries.

Variable before_await : Z -> Z -> LiveServerMessage -> State -> Suspension.
Variable after_await : Z -> LiveServerMessage -> option AudioBuffer -> State -> Outcome.
Variable decodeAudioData : Js.JsString -> option AudioBuffer.

Definition deliver_one (ev : Delivery) (x : State * list PendingDecode)
  : State * list PendingDecode :=
  match ev with
  | Arrives now t m =>
      match before_await now t m (fst x) with
      | Returned s' => (s', snd x)
      | Awaiting b64 s' =>
          (s', snd x ++ [{| awaiting_message := m; awaiting_payload := b64;
                            read_currentTime := t;
                            found_clock := nextStartTimeRef (fst x) |}])
      end
  | DecodeSettles i now =>
      match nth_error (snd x) i with
      | Some p =>
          (state_of (after_await now (awaiting_message p)
                       (decodeAudioData (awaiting_payload p)) (fst x)),
           remove_nth i (snd x))
      | None => x
      end
  end.

Definition deliveries (evs : list Delivery) (x : State * list PendingDecode)
  : State * list PendingDecode :=
  fold_left (fun y ev => deliver_one ev y) evs x.

(** The times passed to [source.start] while [evs] were delivered. *)
Definition starts_of (evs : list Delivery) (x : State * list PendingDecode) : list Z :=
  skipn (List.length (scheduled_starts (trace (fst x))))
        (scheduled_starts (trace (fst (deliveries evs x)))).

End Deliveries.

Definition deliveriesA := deliveries PartA.onmessage_before_await PartA.onmessage_after_await.

Definition deliveriesB := deliveries PartB.onmessage_before_await PartB.onmessage_after_await.

Definition startsA := starts_of PartA.onmessage_before_await PartA.onmessage_after_await.

Definition startsB := starts_of PartB.onmessage_before_await PartB.onmessage_after_await.

(** The schedule in which every handler has run to its end before the next
    message is delivered: each arrival is followed at once by the settling
    of its own decoding, if it started one. *)
Definition one_at_a_time (cs : list (Z * Z * LiveServerMessage)) : list Delivery :=
  flat_map (fun c => [Arrives (fst (fst c)) (currentTime_of c) (message_of c);
                      DecodeSettles 0 (fst (fst c))]) cs.

(** The clock covers what the pending handlers read: none of them carries
    an interruption, and the clock is not below the [currentTime] any of
    them read nor below the clock it found. *)
Definition clock_covers (x : State * list PendingDecode) : Prop :=
  Forall (fun p => interrupted (awaiting_message p) = false
                   /\ read_currentTime p <= nextStartTimeRef (fst x)
                   /\ found_clock p <= nextStartTimeRef (fst x)) (snd x).

Definition no_interruption (ev : Delivery) : bool :=
  match ev with
  | Arrives _ _ m => negb (interrupted m)
  | DecodeSettles _ _ => true
  end.

(** Two chunks of one second; the second arrives, 2.5 s into the call,
    while the first is still being decoded. *)
Definition overlapping_chunks : list Delivery :=
  [Arrives 0 0 (audio_message "A"); Arrives 0 60000 (audio_message "B");
   DecodeSettles 0 0; DecodeSettles 0 0].

(** A chunk that arrives 2.5 s into the call and a barge-in notice handled
    while the chunk is being decoded. *)
Definition barge_in_during_decode : list Delivery :=
  [Arrives 0 60000 (audio_message "A"); Arrives 1 60000 barge_in; DecodeSettles 0 1].

(** A turn-complete message with a payload that does not decode. *)
Definition garbled_turn_end : LiveServerMessage :=
  {| parts := [{| inlineData := Some (Some (Js.of_string "!")) |}];
     interrupted := false; inputTranscription := None; outputTranscription := None;
     turnComplete := true |}.

(** A call in which both buffers hold whitespace only. *)
Definition blank_buffersA : State :=
  PartA.run sample_decoder
    [(5, 0, control_message false false (Some "  "%string) (Some " "%string))] connectedA.

Definition blank_buffersB : State :=
  runB sample_decoder
    [(5, 0, control_message false false (Some "  "%string) (Some " "%string))] connectedB.

(** A call in the middle of a turn: both buffers hold text. *)
Definition mid_turnA : State := PartA.run sample_decoder agent_first_turn connectedA.

(** The message whose decoding is pending after the two arrivals of
    [overlapping_chunks]. *)
Definition second_chunk_pending : PendingDecode :=
  {| awaiting_message := audio_message "B"; awaiting_payload := Js.of_string "B";
     read_currentTime := 60000; found_clock := 0 |}.

(** One message handled alone: its decoding settles before anything else is
    delivered. *)
Definition handled_alone (now t : Z) (m : LiveServerMessage) : list Delivery :=
  [Arrives now t m; DecodeSettles 0 now].

(** The call of [before_barge_in] after a barge-in notice whose payload does
    not decode. *)
Definition after_garbled_barge_in : State :=
  fst (deliveriesA sample_decoder (handled_alone 1 12000 garbled_barge_in)
         (before_barge_in, [])).

(** A first call on part_001, stopped before its recorder has delivered its
    last blob. *)
Definition first_call_stopped : State :=
  deliver (dispatchB sample_decoder)
    [StartClicked; StartResumed false (Some microphone); Opened; PromiseFulfilled;
     RecorderData [Byte.x07]; StopClicked] init.

(** A second call, after the click on start: the last blob of the first
    call's recorder is delivered, then the call connects, records one blob
    and is stopped. *)
Definition restart_with_late_blob : list Callback :=
  [RecorderData [Byte.x09]; StartResumed false (Some microphone); Opened; PromiseFulfilled;
   RecorderData [Byte.x01]; StopClicked].

(** A barge-in notice that carries a chunk of its own. *)
Definition barge_in_with_audio : LiveServerMessage :=
  {| parts := [{| inlineData := Some (Some (Js.of_string "C")) |}];
     interrupted := true; inputTranscription := None; outputTranscription := None;
     turnComplete := false |}.

(** * Properties *)

(** ** The capture conversion *)

Lemma wrap16_in_range (n : Z) : -32768 <= n <= 32767 -> Js.wrap16 n = n.
Proof.
  intros Hn. unfold Js.wrap16.
  rewrite Z.mod_small by lia. lia.
Qed.

Lemma trunc_scaled (p : Z) (q : positive) :
  Js.trunc ((p # q) * 32768) = Z.quot (p * 32768) (Zpos q).
Proof.
  unfold Js.trunc. simpl. now rewrite Pos.mul_1_r.
Qed.

Lemma trunc_scaled_bounds (x : Q) :
  (-1 <= x)%Q -> (x < 1)%Q -> -32768 <= Js.trunc (x * 32768) <= 32767.
Proof.
  destruct x as [p q]. unfold Qle, Qlt. simpl. intros Hlo Hhi.
  rewrite trunc_scaled.
  destruct (Z_lt_le_dec p 0) as [Hneg | Hpos].
  - replace (p * 32768) with (- (- p * 32768)) by lia.
    rewrite Z.quot_opp_l by lia.
    assert (0 <= Z.quot (- p * 32768) (Zpos q)) by (apply Z.quot_pos; lia).
    assert (Z.quot (- p * 32768) (Zpos q) <= 32768)
      by (apply Z.quot_le_upper_bound; lia).
    lia.
  - assert (0 <= Z.quot (p * 32768) (Zpos q)) by (apply Z.quot_pos; lia).
    assert (Z.quot (p * 32768) (Zpos q) < 32768)
      by (apply Z.quot_lt_upper_bound; lia).
    lia.
Qed.

Lemma store_minus_one (x : Q) : (x == -1)%Q -> Js.Int16Array_store (x * 32768) = -32768.
Proof.
  destruct x as [p q]. unfold Qeq. simpl. intros H.
  unfold Js.Int16Array_store. rewrite trunc_scaled.
  replace (p * 32768) with (- (32768 * Zpos q)) by lia.
  rewrite Z.quot_opp_l by lia.
  rewrite Z.quot_mul by lia. reflexivity.
Qed.

Lemma store_zero (x : Q) : (x == 0)%Q -> Js.Int16Array_store (x * 32768) = 0.
Proof.
  destruct x as [p q]. unfold Qeq. simpl. intros H.
  unfold Js.Int16Array_store. rewrite trunc_scaled.
  replace p with 0 by lia. reflexivity.
Qed.

(** C3, as the code has it: every sample [x] of a captured frame is stored
    as [x * 32768] truncated toward zero (not rounded); for [-1 <= x < 1]
    that value lies in the int16 range and is stored as it is; [-1.0] is
    stored as [-32768] and [0.0] as [0].  The frame keeps its length. *)
Theorem C3_conversion_truncates (inputData : list Q) :
  List.length (int16_of_frame inputData) = List.length inputData
  /\ forall (i : nat) (x : Q),
       nth_error inputData i = Some x ->
       (exists y, nth_error (int16_of_frame inputData) i = Some y
          /\ ((-1 <= x)%Q -> (x < 1)%Q ->
                y = Js.trunc (x * 32768) /\ -32768 <= y <= 32767)
          /\ ((x == -1)%Q -> y = -32768)
          /\ ((x == 0)%Q -> y = 0)).
Proof.
  split.
  - unfold int16_of_frame. apply length_map.
  - intros i x Hx.
    exists (Js.Int16Array_store (x * 32768)). split.
    + unfold int16_of_frame. rewrite nth_error_map, Hx. reflexivity.
    + split; [| split].
      * intros Hlo Hhi.
        pose proof (trunc_scaled_bounds x Hlo Hhi) as Hb.
        unfold Js.Int16Array_store. rewrite wrap16_in_range by exact Hb.
        split; [reflexivity | exact Hb].
      * apply store_minus_one.
      * apply store_zero.
Qed.

Lemma C3_conversion_truncates_witness :
  exists y, nth_error (int16_of_frame [(-3 # 4)%Q; (-1)%Q; 0%Q]) 0 = Some y
    /\ y = -24576.
Proof.
  destruct (C3_conversion_truncates [(-3 # 4)%Q; (-1)%Q; 0%Q]) as [_ H].
  destruct (H 0%nat (-3 # 4)%Q eq_refl) as [y [Hy [Hrange _]]].
  exists y. split; [exact Hy |].
  destruct Hrange as [Heq _].
  - unfold Qle. simpl. lia.
  - unfold Qlt. simpl. lia.
  - rewrite Heq. reflexivity.
Defined.

(** C3, as the spec words it, fails: [0.75 / 32768] is stored as [0] where
    rounding gives [1], and [1.0] is stored as [-32768] where clamping
    gives [32767]. *)
Lemma C3_counterexample :
  int16_of_frame [(3 # 131072)%Q; 1%Q] = [0; -32768]
  /\ map spec_sample_conversion [(3 # 131072)%Q; 1%Q] = [1; 32767].
Proof. split; reflexivity. Qed.

(** ** The trace and the microtask checkpoint *)

Lemma emits_app (a b : list Event) (s : State) : emits (a ++ b) s = emits b (emits a s).
Proof.
  unfold emits, with_log. simpl.
  now rewrite rev_app_distr, app_assoc.
Qed.

Lemma run_continuation_emits (k : Continuation) (s : State) :
  run_continuation k s = emits (continuation_events (isClosingRef s) k) s.
Proof.
  destruct k; simpl; try reflexivity.
  destruct (isClosingRef s); [destruct s |]; reflexivity.
Qed.

Lemma isClosingRef_emits (es : list Event) (s : State) :
  isClosingRef (emits es s) = isClosingRef s.
Proof. reflexivity. Qed.

Lemma reactions_emits (es : list Event) (s : State) :
  reactions (emits es s) = reactions s.
Proof. reflexivity. Qed.

Lemma fold_run_emits (ks : list Continuation) :
  forall s : State,
    fold_left (fun st k => run_continuation k st) ks s
    = emits (flat_map (continuation_events (isClosingRef s)) ks) s.
Proof.
  induction ks as [| k ks IH]; intros s; simpl.
  - destruct s; reflexivity.
  - rewrite IH, run_continuation_emits, emits_app, isClosingRef_emits. reflexivity.
Qed.

(** The checkpoint empties the microtask queue and adds to the log the
    calls of the queued reactions. *)
Lemma drain_emits (s : State) :
  drain s
  = with_log (rev (flat_map (continuation_events (isClosingRef s)) (microtasks s)) ++ log s)
             (with_microtasks [] s).
Proof. unfold drain. now rewrite fold_run_emits. Qed.

Lemma drain_quiescent (s : State) : microtasks s = [] -> drain s = s.
Proof.
  intros H. rewrite drain_emits, H.
  destruct s; simpl in *; subst; reflexivity.
Qed.

Lemma microtasks_drain (s : State) : microtasks (drain s) = [].
Proof. now rewrite drain_emits. Qed.

Lemma isClosingRef_drain (s : State) : isClosingRef (drain s) = isClosingRef s.
Proof. now rewrite drain_emits. Qed.

Lemma drain_drain (s : State) : drain (drain s) = drain s.
Proof. apply drain_quiescent, microtasks_drain. Qed.

(** ** Teardown *)

Lemma handleStopA_closing (b : bool) (s : State) :
  isClosingRef s = true -> PartA.handleStop b s = s.
Proof. intros H. unfold PartA.handleStop. now rewrite H. Qed.

(** Splitting of conjunctions only. *)
Ltac split_all := repeat match goal with |- _ /\ _ => split end.

(** Case analysis on the references a teardown tests. *)
Ltac destruct_refs s :=
  destruct s as [? ? ? ? ? ? ? [[| |]|] ? ? [?|] [|] [[| |]|] ? ? ? [|] [?|] [|] ? ? ? ? ?].

Lemma isClosingRef_handleStopA (b : bool) (s : State) :
  isClosingRef (PartA.handleStop b s) = true.
Proof. destruct_refs s; vm_compute; reflexivity. Qed.

Lemma stopA_twice (b1 b2 : bool) (s : State) :
  task (PartA.handleStop b2) (task (PartA.handleStop b1) s) = task (PartA.handleStop b1) s.
Proof.
  unfold task.
  rewrite (handleStopA_closing b2)
    by (rewrite isClosingRef_drain; apply isClosingRef_handleStopA).
  apply drain_drain.
Qed.

Lemma oncloseA_closing (s : State) : isClosingRef s = true -> PartA.onclose s = s.
Proof. intros H. unfold PartA.onclose. now rewrite H. Qed.

Lemma stopA_then_onclose (b : bool) (s : State) :
  task PartA.onclose (task (PartA.handleStop b) s) = task (PartA.handleStop b) s.
Proof.
  unfold task.
  rewrite oncloseA_closing
    by (rewrite isClosingRef_drain; apply isClosingRef_handleStopA).
  apply drain_drain.
Qed.

Lemma stopB_twice (s : State) :
  task PartB.handleStop (task PartB.handleStop s)
  = emits [SetState sv_status; SetState sv_isProcessing] (task PartB.handleStop s).
Proof.
  unfold task. rewrite !drain_emits.
  destruct s as [? ? ? ? ? ? ? [[| |]|] ? ? [?|] ? [[| |]|] ? ? ? [|] [?|] ? ? ? ? ? ?];
    vm_compute; reflexivity.
Qed.

(** ** The release calls of a stop *)

Lemma filter_release_tracks (l : list nat) :
  filter is_release (map TrackStop l) = map TrackStop l.
Proof. induction l as [| t l IH]; simpl; [reflexivity | now rewrite IH]. Qed.

Lemma filter_release_sources (l : list Source) :
  filter is_release (map (fun src => SourceStop (src_id src)) l)
  = map (fun src => SourceStop (src_id src)) l.
Proof. induction l as [| t l IH]; simpl; [reflexivity | now rewrite IH]. Qed.

(** Replaces a term by its value, list operations left folded. *)
Ltac evaluate T :=
  let R := eval cbv - [rev app map filter flat_map List.concat List.length skipn firstn
                       Z.max Z.add Z.mul Z.of_nat] in T in
  replace T with R by (vm_compute; reflexivity).

Ltac normalise_releases :=
  repeat progress
    (rewrite ?filter_app, ?filter_rev, ?filter_release_tracks, ?filter_release_sources;
     cbn [filter is_release app rev map]);
  rewrite ?rev_app_distr; cbn [rev app];
  rewrite <- ?app_assoc; cbn [app];
  rewrite ?app_nil_r.

Ltac evaluate_stopA :=
  match goal with
  | |- context [microtasks (PartA.handleStop ?b ?X)] => evaluate (microtasks (PartA.handleStop b X))
  end;
  match goal with
  | |- context [log (PartA.handleStop ?b ?X)] => evaluate (log (PartA.handleStop b X))
  end;
  match goal with
  | |- context [releases_dueA ?X] => evaluate (releases_dueA X)
  end.

Lemma handleStopA_releases (b : bool) (s : State) :
  isClosingRef s = false ->
  microtasks s = [] ->
  filter is_release (log (task (PartA.handleStop b) s))
  = rev (releases_dueA s) ++ filter is_release (log s).
Proof.
  intros Hc Hm. unfold task. rewrite drain_emits. cbn [log with_log].
  rewrite isClosingRef_handleStopA.
  destruct_refs s; simpl in Hc, Hm; try discriminate Hc; subst.
  all: evaluate_stopA.
  all: cbn [flat_map continuation_events app rev].
  all: normalise_releases.
  all: reflexivity.
Qed.

Ltac evaluate_stopB :=
  match goal with
  | |- context [microtasks (PartB.handleStop ?X)] => evaluate (microtasks (PartB.handleStop X))
  end;
  match goal with
  | |- context [log (PartB.handleStop ?X)] => evaluate (log (PartB.handleStop X))
  end;
  match goal with
  | |- context [releases_dueB ?X] => evaluate (releases_dueB X)
  end.

Lemma handleStopB_releases (s : State) :
  microtasks s = [] ->
  filter is_release (log (task PartB.handleStop s))
  = rev (releases_dueB s) ++ filter is_release (log s).
Proof.
  intros Hm. unfold task. rewrite drain_emits. cbn [log with_log].
  destruct_refs s; simpl in Hm; subst.
  all: evaluate_stopB.
  all: cbn [flat_map continuation_events app rev].
  all: normalise_releases.
  all: reflexivity.
Qed.

Ltac reduce_reactions := cbn [sessionPromiseRef reactions].

Lemma handleStopA_torn_down (b : bool) (s : State) :
  isClosingRef s = false ->
  microtasks s = [] ->
  torn_down (task (PartA.handleStop b) s)
  /\ micToMixerNodeRef (task (PartA.handleStop b) s) = false
  /\ reactions (task (PartA.handleStop b) s)
     = reactions s ++ match sessionPromiseRef s with
                      | Some Pending => [ThenClose]
                      | _ => []
                      end.
Proof.
  intros Hc Hm. unfold torn_down.
  destruct_refs s; simpl in Hc, Hm; try discriminate Hc; subst.
  all: split_all; try discriminate; try (vm_compute; reflexivity).
  all: reduce_reactions; rewrite ?app_nil_r; vm_compute; reflexivity.
Qed.

Lemma handleStopB_torn_down (s : State) :
  microtasks s = [] ->
  torn_down (task PartB.handleStop s)
  /\ reactions (task PartB.handleStop s)
     = reactions s ++ match sessionPromiseRef s with
                      | Some Pending => [ThenClose]
                      | _ => []
                      end.
Proof.
  intros Hm. unfold torn_down.
  destruct_refs s; simpl in Hm; subst.
  all: split_all; try discriminate; try (vm_compute; reflexivity).
  all: reduce_reactions; rewrite ?app_nil_r; vm_compute; reflexivity.
Qed.

Lemma filter_trace (f : Event -> bool) (s : State) :
  filter f (trace s) = rev (filter f (log s)).
Proof. unfold trace. apply filter_rev. Qed.

(** C2, as the code has it.  Over two stops in immediate succession (or a
    stop and a remote close queued behind it) every release is made exactly
    once: the release calls seen after the second stop are those seen before
    the first, followed by one call for each resource the component held,
    every cell is clear, and the close of a connection that is still being
    made is queued once.  In part_000 the guard makes the second call
    change nothing at all: the guard is set by the first call and a call
    that finds it set returns at once.  part_001 has no guard: there the
    second stop runs the body again, finds every reference released by the
    first call, and only repeats the two React setters. *)
Theorem C2_stop_twice_releases_once :
  (forall (b1 b2 : bool) (s : State),
      task (PartA.handleStop b2) (task (PartA.handleStop b1) s)
      = task (PartA.handleStop b1) s)
  /\ (forall (b : bool) (s : State),
        task PartA.onclose (task (PartA.handleStop b) s) = task (PartA.handleStop b) s)
  /\ (forall (b : bool) (s : State), isClosingRef (task (PartA.handleStop b) s) = true)
  /\ (forall (b : bool) (s : State), isClosingRef s = true -> PartA.handleStop b s = s)
  /\ (forall s : State,
        task PartB.handleStop (task PartB.handleStop s)
        = emits [SetState sv_status; SetState sv_isProcessing] (task PartB.handleStop s))
  /\ (forall (b1 b2 : bool) (s : State),
        isClosingRef s = false ->
        microtasks s = [] ->
        filter is_release (trace (task (PartA.handleStop b2) (task (PartA.handleStop b1) s)))
        = filter is_release (trace s) ++ releases_dueA s
        /\ filter is_release (trace (task PartA.onclose (task (PartA.handleStop b1) s)))
           = filter is_release (trace s) ++ releases_dueA s
        /\ torn_down (task (PartA.handleStop b2) (task (PartA.handleStop b1) s))
        /\ reactions (task (PartA.handleStop b2) (task (PartA.handleStop b1) s))
           = reactions s ++ match sessionPromiseRef s with
                            | Some Pending => [ThenClose]
                            | _ => []
                            end)
  /\ (forall s : State,
        microtasks s = [] ->
        filter is_release (trace (task PartB.handleStop (task PartB.handleStop s)))
        = filter is_release (trace s) ++ releases_dueB s
        /\ torn_down (task PartB.handleStop (task PartB.handleStop s))
        /\ reactions (task PartB.handleStop (task PartB.handleStop s))
           = reactions s ++ match sessionPromiseRef s with
                            | Some Pending => [ThenClose]
                            | _ => []
                            end).
Proof.
  split; [exact stopA_twice |].
  split; [exact stopA_then_onclose |].
  split; [intros b s; unfold task; rewrite isClosingRef_drain; apply isClosingRef_handleStopA |].
  split; [exact handleStopA_closing |].
  split; [exact stopB_twice |].
  split.
  - intros b1 b2 s Hc Hm.
    rewrite stopA_twice, stopA_then_onclose.
    rewrite filter_trace, (handleStopA_releases b1 s Hc Hm), rev_app_distr, rev_involutive.
    rewrite <- filter_trace.
    destruct (handleStopA_torn_down b1 s Hc Hm) as (Ht & _ & Hq).
    split; [reflexivity |]. split; [reflexivity |]. split; [exact Ht | exact Hq].
  - intros s Hm.
    assert (Hm1 : microtasks (task PartB.handleStop s) = [])
      by (unfold task; apply microtasks_drain).
    destruct (handleStopB_torn_down s Hm) as (Ht & Hq).
    destruct (handleStopB_torn_down (task PartB.handleStop s) Hm1) as (Ht2 & _).
    split; [| split; [exact Ht2 | rewrite stopB_twice, reactions_emits; exact Hq]].
    rewrite filter_trace, (handleStopB_releases _ Hm1).
    replace (releases_dueB (task PartB.handleStop s)) with (@nil Event).
    + cbn [rev app]. rewrite (handleStopB_releases s Hm), rev_app_distr, rev_involutive.
      now rewrite <- filter_trace.
    + destruct Ht as (H1 & H2 & H3 & H4 & H5 & _ & _ & H8 & H9).
      unfold releases_dueB, tracks_held. rewrite H1, H2, H3, H4, H5.
      destruct (recorderRef (task PartB.handleStop s)) as [[| |] |]; try reflexivity;
        congruence.
Qed.

Lemma C2_stop_twice_releases_once_witness :
  PartA.handleStop true (task (PartA.handleStop false) connectedA)
  = task (PartA.handleStop false) connectedA
  /\ filter is_release
       (trace (task (PartA.handleStop true) (task (PartA.handleStop false) before_barge_in)))
     = [RecorderStop; NodeDisconnect processorNode; NodeDisconnect sourceNode;
        NodeDisconnect micToMixerNode; TrackStop 0; SourceStop 0; SourceStop 1; SessionClose]
  /\ filter is_release (trace (task PartB.handleStop (task PartB.handleStop connectedB)))
     = [RecorderStop; NodeDisconnect processorNode; NodeDisconnect sourceNode;
        TrackStop 0; SessionClose].
Proof.
  destruct C2_stop_twice_releases_once as (_ & _ & _ & H4 & _ & H6 & H7).
  split_all.
  - apply H4. vm_compute. reflexivity.
  - destruct (H6 false true before_barge_in) as [H _].
    + vm_compute. reflexivity.
    + vm_compute. reflexivity.
    + rewrite H. vm_compute. reflexivity.
  - destruct (H7 connectedB) as [H _].
    + vm_compute. reflexivity.
    + rewrite H. vm_compute. reflexivity.
Defined.

(** C2, as stated, fails on part_001: there is no guard to set, and the
    second stop does not return at once (it calls the React setters
    again). *)
Lemma C2_counterexample :
  isClosingRef (task PartB.handleStop connectedB) = false
  /\ trace (task PartB.handleStop (task PartB.handleStop connectedB))
     = trace (task PartB.handleStop connectedB)
       ++ [SetState sv_status; SetState sv_isProcessing]
  /\ task PartB.handleStop (task PartB.handleStop connectedB)
     <> task PartB.handleStop connectedB.
Proof.
  split; [vm_compute; reflexivity |].
  split; [vm_compute; reflexivity |].
  intros H. apply (f_equal log) in H. vm_compute in H. discriminate H.
Qed.

(** ** Status after a stop, an error and a remote close *)

Lemma status_drain (s : State) : status (drain s) = status s.
Proof. now rewrite drain_emits. Qed.

Lemma errorMessage_drain (s : State) : errorMessage (drain s) = errorMessage s.
Proof. now rewrite drain_emits. Qed.

Lemma status_handleStopA (b : bool) (s : State) :
  isClosingRef s = false -> status (PartA.handleStop b s) = if b then ERROR else IDLE.
Proof.
  intros H. destruct_refs s; simpl in H; try discriminate H; destruct b; vm_compute; reflexivity.
Qed.

Lemma errorMessage_handleStopA (b : bool) (s : State) :
  errorMessage (PartA.handleStop b s) = errorMessage s.
Proof. destruct_refs s; vm_compute; reflexivity. Qed.

Lemma onerrorA_open (s : State) :
  isClosingRef s = false ->
  status (PartA.onerror s) = ERROR
  /\ errorMessage (PartA.onerror s) = Some "Line unstable. Resetting connection..."%string.
Proof.
  intros H. destruct_refs s; simpl in H; try discriminate H; split; vm_compute; reflexivity.
Qed.

Lemma onerrorA_closing (s : State) :
  isClosingRef s = true -> PartA.onerror s = emit ConsoleError s.
Proof. intros H. unfold PartA.onerror. simpl. now rewrite H. Qed.

Lemma status_handleStopB (s : State) : status (PartB.handleStop s) = IDLE.
Proof.
  destruct s as [? ? ? ? ? ? ? [[| |]|] ? ? [?|] ? [[| |]|] ? ? ? [|] [?|] ? ? ? ? ? ?];
    vm_compute; reflexivity.
Qed.

Lemma errorMessage_handleStopB (s : State) :
  errorMessage (PartB.handleStop s) = errorMessage s.
Proof.
  destruct s as [? ? ? ? ? ? ? [[| |]|] ? ? [?|] ? [[| |]|] ? ? ? [|] [?|] ? ? ? ? ? ?];
    vm_compute; reflexivity.
Qed.

(** C7, as the code has it.  In part_000 a stop that does not find the
    guard set ends in ERROR when called with the error flag and in IDLE
    otherwise; a connection error that does not find the guard set puts up
    the "line unstable" message and ends in ERROR; a remote close that does
    not find it set ends in IDLE and leaves the message alone; with the
    guard set all three leave status and message as they were.  In part_001
    [handleStop] has no error flag: a connection error puts up its message
    and ends in IDLE, as does a remote close, silently. *)
Theorem C7_status_after_stop :
  (forall (b : bool) (s : State),
      isClosingRef s = false ->
      status (task (PartA.handleStop b) s) = if b then ERROR else IDLE)
  /\ (forall s : State,
        isClosingRef s = false ->
        status (task PartA.onerror s) = ERROR
        /\ errorMessage (task PartA.onerror s)
           = Some "Line unstable. Resetting connection..."%string)
  /\ (forall s : State,
        isClosingRef s = false ->
        status (task PartA.onclose s) = IDLE
        /\ errorMessage (task PartA.onclose s) = errorMessage s)
  /\ (forall (b : bool) (s : State),
        isClosingRef s = true ->
        (status (task (PartA.handleStop b) s) = status s
         /\ errorMessage (task (PartA.handleStop b) s) = errorMessage s)
        /\ (status (task PartA.onerror s) = status s
            /\ errorMessage (task PartA.onerror s) = errorMessage s)
        /\ (status (task PartA.onclose s) = status s
            /\ errorMessage (task PartA.onclose s) = errorMessage s))
  /\ (forall s : State,
        status (task PartB.onerror s) = IDLE
        /\ errorMessage (task PartB.onerror s) = Some "Network issue. Reconnecting..."%string)
  /\ (forall s : State,
        status (task PartB.onclose s) = IDLE
        /\ errorMessage (task PartB.onclose s) = errorMessage s).
Proof.
  unfold task.
  split_all; intros; split_all; rewrite ?status_drain, ?errorMessage_drain.
  - now apply status_handleStopA.
  - now apply onerrorA_open.
  - now apply onerrorA_open.
  - unfold PartA.onclose. rewrite H. now apply status_handleStopA.
  - unfold PartA.onclose. rewrite H. apply errorMessage_handleStopA.
  - now rewrite handleStopA_closing.
  - now rewrite handleStopA_closing.
  - now rewrite onerrorA_closing.
  - now rewrite onerrorA_closing.
  - now rewrite oncloseA_closing.
  - now rewrite oncloseA_closing.
  - unfold PartB.onerror. apply status_handleStopB.
  - unfold PartB.onerror. now rewrite errorMessage_handleStopB.
  - apply status_handleStopB.
  - apply errorMessage_handleStopB.
Qed.

Lemma C7_status_after_stop_witness :
  status (task (PartA.handleStop true) connectedA) = ERROR
  /\ status (task PartA.onerror connectedA) = ERROR
  /\ status (task PartA.onclose connectedA) = IDLE
  /\ status (task PartA.onerror (task (PartA.handleStop false) connectedA)) = IDLE.
Proof.
  destruct C7_status_after_stop as [Hstop [Herr [Hclose [Hguard _]]]].
  split; [apply (Hstop true connectedA); vm_compute; reflexivity |].
  split; [apply (Herr connectedA); vm_compute; reflexivity |].
  split; [apply (Hclose connectedA); vm_compute; reflexivity |].
  destruct (Hguard true (task (PartA.handleStop false) connectedA)) as [_ [[H _] _]].
  - vm_compute. reflexivity.
  - rewrite H. vm_compute. reflexivity.
Defined.

(** C7, as stated, fails: on part_001 a connection error during a call ends
    in IDLE, not ERROR; on part_000 a connection error that arrives while
    the guard is set (here right after a user stop) puts up no message and
    leaves the status at IDLE. *)
Lemma C7_counterexample :
  status (task PartB.onerror connectedB) = IDLE
  /\ errorMessage (task PartA.onerror (task (PartA.handleStop false) connectedA)) = None
  /\ status (task PartA.onerror (task (PartA.handleStop false) connectedA)) = IDLE
  /\ status (task (PartA.handleStop true) (task (PartA.handleStop false) connectedA)) = IDLE.
Proof. split_all; vm_compute; reflexivity. Qed.

(** ** Stop without a session *)

Ltac open_idle H :=
  destruct H as [[? [? [? [? [? [? ?]]]]]] [? [? [? ?]]]].

Lemma stopA_idle_and_empty (s : State) :
  idle_and_empty s -> idle_and_empty (task (PartA.handleStop false) s).
Proof.
  intros H. open_idle H.
  unfold task. rewrite drain_emits.
  destruct s as [? ? ? ? ? ? ? ? ? ? ? [|] ? ? ? ? ? ? ? ? ? ? ? ?];
    simpl in * |-; subst; unfold idle_and_empty, nothing_held;
    split_all; vm_compute; solve [reflexivity | assumption].
Qed.

Lemma stopB_idle_and_empty (s : State) :
  idle_and_empty s -> idle_and_empty (task PartB.handleStop s).
Proof.
  intros H. open_idle H.
  unfold task. rewrite drain_emits.
  destruct s; simpl in * |-; subst; unfold idle_and_empty, nothing_held;
    split_all; vm_compute; solve [reflexivity | assumption].
Qed.

Lemma toggleMute_idle_and_empty (s : State) :
  idle_and_empty s -> idle_and_empty (toggleMute s).
Proof.
  intros H. open_idle H.
  unfold idle_and_empty, nothing_held, toggleMute. simpl.
  split_all; assumption.
Qed.

Lemma init_idle_and_empty : idle_and_empty init.
Proof. unfold idle_and_empty, nothing_held. simpl. split_all; reflexivity. Qed.

Lemma never_startedA_idle (s : State) : never_startedA s -> idle_and_empty s.
Proof.
  induction 1 as [| s _ IH | s _ IH | s _ IH].
  - exact init_idle_and_empty.
  - now apply stopA_idle_and_empty.
  - open_idle IH. unfold idle_and_empty, nothing_held, PartA.closing_timeout. simpl.
    split_all; assumption.
  - now apply toggleMute_idle_and_empty.
Qed.

Lemma never_startedB_idle (s : State) : never_startedB s -> idle_and_empty s.
Proof.
  induction 1 as [| s _ IH | s _ IH].
  - exact init_idle_and_empty.
  - now apply stopB_idle_and_empty.
  - now apply toggleMute_idle_and_empty.
Qed.

(** C10: on a component whose [handleStart] never ran, every session
    reference is null and no source is active, and a stop (total, as every
    handler of the model) makes no release call, leaves the playback clock
    at 0 and the status at IDLE, on both front-ends. *)
Theorem C10_stop_without_session :
  (forall s : State,
      never_startedA s ->
      nothing_held s
      /\ filter is_release (log (task (PartA.handleStop false) s)) = []
      /\ nextStartTimeRef (task (PartA.handleStop false) s) = 0
      /\ status (task (PartA.handleStop false) s) = IDLE)
  /\ (forall s : State,
        never_startedB s ->
        nothing_held s
        /\ filter is_release (log (task PartB.handleStop s)) = []
        /\ nextStartTimeRef (task PartB.handleStop s) = 0
        /\ status (task PartB.handleStop s) = IDLE).
Proof.
  split; intros s Hs.
  - pose proof (never_startedA_idle s Hs) as Hi.
    pose proof (stopA_idle_and_empty s Hi) as Hi'.
    destruct Hi as [Hheld _]. destruct Hi' as [_ [Hst [Hclk [Hlog _]]]].
    split_all; try assumption; apply Hheld.
  - pose proof (never_startedB_idle s Hs) as Hi.
    pose proof (stopB_idle_and_empty s Hi) as Hi'.
    destruct Hi as [Hheld _]. destruct Hi' as [_ [Hst [Hclk [Hlog _]]]].
    split_all; try assumption; apply Hheld.
Qed.

Lemma C10_stop_without_session_witness :
  (trace (task (PartA.handleStop false) init)
   = [SetState sv_status; SetState sv_isProcessing; SetTimeout 500]
   /\ status (task (PartA.handleStop false) init) = IDLE)
  /\ (trace (task PartB.handleStop init) = [SetState sv_status; SetState sv_isProcessing]
      /\ status (task PartB.handleStop init) = IDLE).
Proof.
  destruct C10_stop_without_session as [HA HB].
  split.
  - destruct (HA init nsA_init) as [_ [_ [_ Hst]]].
    split; [vm_compute; reflexivity | exact Hst].
  - destruct (HB init nsB_init) as [_ [_ [_ Hst]]].
    split; [vm_compute; reflexivity | exact Hst].
Defined.

(** ** Mute and the capture callback *)

(** The capture callback never reads the state variable [isMuted]: setting
    it before a frame or after it makes no difference. *)
Lemma onaudioprocess_ignores_state_variable (p : Processor) (inputData : list Q)
    (v : bool) (s : State) :
  PartA.onaudioprocess p inputData (setIsMuted v s)
  = setIsMuted v (PartA.onaudioprocess p inputData s)
  /\ PartB.onaudioprocess p inputData (setIsMuted v s)
     = setIsMuted v (PartB.onaudioprocess p inputData s).
Proof.
  unfold PartA.onaudioprocess, PartB.onaudioprocess.
  change (isClosingRef (setIsMuted v s)) with (isClosingRef s).
  change (sessionPromiseRef (setIsMuted v s)) with (sessionPromiseRef s).
  destruct (closure_isMuted p), (isClosingRef s), (sessionPromiseRef s) as [[| |] |];
    split; reflexivity.
Qed.

(** C5 at its failing input: a call started unmuted, then muted.  The mute
    button sets the state variable, the indicator reads "muted", and the
    next captured frame is sent all the same, on both front-ends; and a
    call started while the variable was set sends nothing after the user
    unmutes. *)
Theorem C5_mute_toggle_does_not_gate_sending :
  isMuted (toggleMute connectedA) = true
  /\ sent_packets (trace (PartA.audioprocess frame_example (toggleMute connectedA)))
     = [pcmBlob frame_example]
  /\ isMuted (toggleMute connectedB) = true
  /\ sent_packets (trace (PartB.audioprocess frame_example (toggleMute connectedB)))
     = [pcmBlob frame_example]
  /\ isMuted (toggleMute recalled_while_mutedA) = false
  /\ isClosingRef (toggleMute recalled_while_mutedA) = false
  /\ sessionPromiseRef (toggleMute recalled_while_mutedA) = Some Fulfilled
  /\ sent_packets (trace (PartA.audioprocess frame_example (toggleMute recalled_while_mutedA)))
     = [].
Proof. split_all; vm_compute; reflexivity. Qed.

(** ** The recording artifact *)

Lemma recorder_onstop_sets_flag (s : State) :
  hasAudioData (recorder_onstop s) = true
  /\ audioUrlRef (recorder_onstop s) = Some (List.concat (recordedChunksRef s)).
Proof. split; reflexivity. Qed.

(** C8 at its failing input: a call stopped before the recorder delivered
    any data.  The final [dataavailable] event carries an empty blob, which
    is not kept; [onstop] then builds an empty artifact and sets the ready
    flag all the same, on both front-ends. *)
Theorem C8_ready_flag_set_on_empty_recording :
  recordedChunksRef stopped_at_onceA = []
  /\ audioUrlRef (recorder_onstop stopped_at_onceA) = Some []
  /\ hasAudioData (recorder_onstop stopped_at_onceA) = true
  /\ recordedChunksRef stopped_at_onceB = []
  /\ audioUrlRef (recorder_onstop stopped_at_onceB) = Some []
  /\ hasAudioData (recorder_onstop stopped_at_onceB) = true.
Proof. split_all; vm_compute; reflexivity. Qed.
(** ** The audio block in one piece, written out *)

Section OnePiece.

Variable decodeAudioData : Js.JsString -> option AudioBuffer.

Lemma schedule_audioA_unfold (t : Z) (m : LiveServerMessage) (s : State) :
  PartA.schedule_audio decodeAudioData t m s
  = match PartA.base64Audio m with
    | Some b64 =>
        if Js.truthy b64 && outputAudioContextRef s then
          let s := setIsProcessing false s in
          let s := with_nextStartTimeRef (Z.max (nextStartTimeRef s) t) s in
          match decodeAudioData b64 with
          | None => Thrown s
          | Some buf =>
              let source := {| src_id := sourcesCreated s; buffer := buf |} in
              let s := with_sourcesCreated (S (sourcesCreated s)) s in
              let s := emit (SourceConnect (src_id source) speakers) s in
              let s := if mixerRef s then emit (SourceConnect (src_id source) mixer) s else s in
              let s := emit (SourceStart (src_id source) (nextStartTimeRef s)) s in
              let s := with_nextStartTimeRef (nextStartTimeRef s + duration buf) s in
              Done (with_activeSourcesRef (activeSourcesRef s ++ [source]) s)
          end
        else Done s
    | None => Done s
    end.
Proof.
  unfold PartA.schedule_audio, PartA.audio_before_await, PartA.audio_after_await.
  destruct (PartA.base64Audio m) as [b64 |]; [| reflexivity].
  destruct (Js.truthy b64 && outputAudioContextRef s); reflexivity.
Qed.

Lemma schedule_audioB_unfold (t : Z) (m : LiveServerMessage) (s : State) :
  PartB.schedule_audio decodeAudioData t m s
  = match PartB.base64Audio m with
    | Some b64 =>
        if Js.truthy b64 && outputAudioContextRef s then
          let s := setIsProcessing false s in
          let s := with_nextStartTimeRef (Z.max (nextStartTimeRef s) t) s in
          match decodeAudioData b64 with
          | None => Thrown s
          | Some buf =>
              let source := {| src_id := sourcesCreated s; buffer := buf |} in
              let s := with_sourcesCreated (S (sourcesCreated s)) s in
              let s := emit (SourceConnect (src_id source) speakers) s in
              if mixerRef s then
                let s := emit (SourceConnect (src_id source) mixer) s in
                let s := emit (SourceStart (src_id source) (nextStartTimeRef s)) s in
                let s := with_nextStartTimeRef (nextStartTimeRef s + duration buf) s in
                Done (with_activeSourcesRef (activeSourcesRef s ++ [source]) s)
              else Thrown s
          end
        else Done s
    | None => Done s
    end.
Proof.
  unfold PartB.schedule_audio, PartB.audio_before_await, PartB.audio_after_await.
  destruct (PartB.base64Audio m) as [b64 |]; [| reflexivity].
  destruct (Js.truthy b64 && outputAudioContextRef s); reflexivity.
Qed.

Lemma schedule_audioC_unfold (t : Z) (m : LiveServerMessage) (s : PartC.State) :
  PartC.schedule_audio decodeAudioData t m s
  = match PartC.base64Audio m with
    | Some b64 =>
        if Js.truthy b64 && PartC.outputAudioContextRef s then
          let s := PartC.with_nextStartTimeRef (Z.max (PartC.nextStartTimeRef s) t) s in
          match decodeAudioData b64 with
          | None => PartC.Thrown s
          | Some buf =>
              let source := {| src_id := PartC.sourcesCreated s; buffer := buf |} in
              let s := PartC.with_sourcesCreated (S (PartC.sourcesCreated s)) s in
              let s := PartC.emit (SourceConnect (src_id source) speakers) s in
              let s := PartC.emit (SourceStart (src_id source) (PartC.nextStartTimeRef s)) s in
              let s := PartC.with_nextStartTimeRef (PartC.nextStartTimeRef s + duration buf) s in
              PartC.Done (PartC.with_activeSourcesRef (PartC.activeSourcesRef s ++ [source]) s)
          end
        else PartC.Done s
    | None => PartC.Done s
    end.
Proof.
  unfold PartC.schedule_audio, PartC.audio_before_await, PartC.audio_after_await.
  destruct (PartC.base64Audio m) as [b64 |]; [| reflexivity].
  destruct (Js.truthy b64 && PartC.outputAudioContextRef s); reflexivity.
Qed.

(** The halves of [onmessage], written out. *)
Lemma onmessage_before_awaitA_unfold (now t : Z) (m : LiveServerMessage) (s : State) :
  PartA.onmessage_before_await now t m s
  = match PartA.base64Audio m with
    | Some b64 =>
        if Js.truthy b64 && outputAudioContextRef s then
          let s := setIsProcessing false s in
          Awaiting b64 (with_nextStartTimeRef (Z.max (nextStartTimeRef s) t) s)
        else Returned (after_audio now m s)
    | None => Returned (after_audio now m s)
    end.
Proof.
  unfold PartA.onmessage_before_await, PartA.audio_before_await.
  destruct (PartA.base64Audio m) as [b64 |]; [| reflexivity].
  destruct (Js.truthy b64 && outputAudioContextRef s); reflexivity.
Qed.

Lemma onmessage_before_awaitB_unfold (now t : Z) (m : LiveServerMessage) (s : State) :
  PartB.onmessage_before_await now t m s
  = match PartB.base64Audio m with
    | Some b64 =>
        if Js.truthy b64 && outputAudioContextRef s then
          let s := setIsProcessing false s in
          Awaiting b64 (with_nextStartTimeRef (Z.max (nextStartTimeRef s) t) s)
        else Returned (after_audio now m s)
    | None => Returned (after_audio now m s)
    end.
Proof.
  unfold PartB.onmessage_before_await, PartB.audio_before_await.
  destruct (PartB.base64Audio m) as [b64 |]; [| reflexivity].
  destruct (Js.truthy b64 && outputAudioContextRef s); reflexivity.
Qed.

Lemma onmessage_after_awaitA_unfold (now : Z) (m : LiveServerMessage)
    (decoded : option AudioBuffer) (s : State) :
  PartA.onmessage_after_await now m decoded s
  = match decoded with
    | None => Thrown s
    | Some buf =>
        let source := {| src_id := sourcesCreated s; buffer := buf |} in
        let s := with_sourcesCreated (S (sourcesCreated s)) s in
        let s := emit (SourceConnect (src_id source) speakers) s in
        let s := if mixerRef s then emit (SourceConnect (src_id source) mixer) s else s in
        let s := emit (SourceStart (src_id source) (nextStartTimeRef s)) s in
        let s := with_nextStartTimeRef (nextStartTimeRef s + duration buf) s in
        let s := with_activeSourcesRef (activeSourcesRef s ++ [source]) s in
        Done (after_audio now m s)
    end.
Proof.
  unfold PartA.onmessage_after_await, PartA.audio_after_await.
  destruct decoded; reflexivity.
Qed.

Lemma onmessage_after_awaitB_unfold (now : Z) (m : LiveServerMessage)
    (decoded : option AudioBuffer) (s : State) :
  PartB.onmessage_after_await now m decoded s
  = match decoded with
    | None => Thrown s
    | Some buf =>
        let source := {| src_id := sourcesCreated s; buffer := buf |} in
        let s := with_sourcesCreated (S (sourcesCreated s)) s in
        let s := emit (SourceConnect (src_id source) speakers) s in
        if mixerRef s then
          let s := emit (SourceConnect (src_id source) mixer) s in
          let s := emit (SourceStart (src_id source) (nextStartTimeRef s)) s in
          let s := with_nextStartTimeRef (nextStartTimeRef s + duration buf) s in
          let s := with_activeSourcesRef (activeSourcesRef s ++ [source]) s in
          Done (after_audio now m s)
        else Thrown s
    end.
Proof.
  unfold PartB.onmessage_after_await, PartB.audio_after_await.
  destruct decoded as [buf |]; [| reflexivity].
  cbv zeta.
  change (mixerRef (emit ?e (with_sourcesCreated ?n s))) with (mixerRef s).
  destruct (mixerRef s); reflexivity.
Qed.

End OnePiece.


(** ** The message handler, block by block *)

Lemma trace_emit (e : Event) (s : State) : trace (emit e s) = trace s ++ [e].
Proof. reflexivity. Qed.

Lemma trace_emits (es : list Event) (s : State) : trace (emits es s) = trace s ++ es.
Proof. unfold trace, emits. simpl. now rewrite rev_app_distr, rev_involutive. Qed.

Lemma scheduled_starts_app (a b : list Event) :
  scheduled_starts (a ++ b) = scheduled_starts a ++ scheduled_starts b.
Proof. apply flat_map_app. Qed.

Lemma scheduled_starts_stops (l : list Source) :
  scheduled_starts (map (fun src => SourceStop (src_id src)) l) = [].
Proof. induction l as [| x l IH]; simpl; [reflexivity | exact IH]. Qed.

Lemma base64AudioA_truthy (m : LiveServerMessage) (b64 : Js.JsString) :
  PartA.base64Audio m = Some b64 -> Js.truthy b64 = true.
Proof.
  unfold PartA.base64Audio.
  destruct (find _ (parts m)) as [p |] eqn:Hfind; [| discriminate].
  apply find_some in Hfind. destruct Hfind as [_ Hp].
  destruct (inlineData p) as [[d |] |]; try discriminate.
  intros H. injection H as <-. exact Hp.
Qed.

(** The effect of the interruption block. *)
Lemma on_interrupted_effect (s : State) :
  activeSourcesRef (on_interrupted s) = []
  /\ nextStartTimeRef (on_interrupted s) = 0
  /\ outputAudioContextRef (on_interrupted s) = outputAudioContextRef s
  /\ transcriptions (on_interrupted s) = transcriptions s
  /\ transcriptionBufferRef (on_interrupted s) = transcriptionBufferRef s
  /\ scheduled_starts (trace (on_interrupted s)) = scheduled_starts (trace s).
Proof.
  split_all; try reflexivity.
  unfold on_interrupted, setIsProcessing, stop_sources. cbv zeta.
  change (trace (with_isProcessing ?b ?x)) with (trace x).
  rewrite trace_emit.
  change (trace (with_nextStartTimeRef ?b ?x)) with (trace x).
  change (trace (with_activeSourcesRef ?b ?x)) with (trace x).
  rewrite trace_emits, !scheduled_starts_app, scheduled_starts_stops.
  simpl. now rewrite !app_nil_r.
Qed.

(** The effect of the turn-complete block. *)
Lemma turn_complete_effect (now : Z) (s : State) :
  transcriptions (turn_complete now s)
  = transcriptions s
    ++ entry_if user (Js.trim (user_text (transcriptionBufferRef s))) now
    ++ entry_if agent (Js.trim (agent_text (transcriptionBufferRef s))) now
  /\ transcriptionBufferRef (turn_complete now s) = {| user_text := []; agent_text := [] |}
  /\ nextStartTimeRef (turn_complete now s) = nextStartTimeRef s
  /\ activeSourcesRef (turn_complete now s) = activeSourcesRef s
  /\ outputAudioContextRef (turn_complete now s) = outputAudioContextRef s
  /\ scheduled_starts (trace (turn_complete now s)) = scheduled_starts (trace s).
Proof.
  unfold turn_complete, entry_if. cbv zeta.
  destruct (Js.truthy (Js.trim (user_text (transcriptionBufferRef s))));
    destruct (Js.truthy (Js.trim (agent_text (transcriptionBufferRef s))));
    split_all; try reflexivity;
    unfold trace; simpl; rewrite ?app_nil_r, ?scheduled_starts_app; simpl;
    rewrite ?app_nil_r, <- ?app_assoc; reflexivity.
Qed.

(** The effect of the two transcription blocks. *)
Lemma on_transcriptions_effect (m : LiveServerMessage) (s : State) :
  transcriptionBufferRef (on_transcriptions m s)
  = {| user_text := pending_user m s; agent_text := pending_agent m s |}
  /\ nextStartTimeRef (on_transcriptions m s) = nextStartTimeRef s
  /\ activeSourcesRef (on_transcriptions m s) = activeSourcesRef s
  /\ outputAudioContextRef (on_transcriptions m s) = outputAudioContextRef s
  /\ transcriptions (on_transcriptions m s) = transcriptions s
  /\ scheduled_starts (trace (on_transcriptions m s)) = scheduled_starts (trace s).
Proof.
  unfold on_transcriptions, pending_user, pending_agent, input_delta, output_delta.
  cbv zeta.
  destruct (inputTranscription m) as [heard |], (outputTranscription m) as [said |];
    split_all; try reflexivity;
    unfold trace; simpl; rewrite ?app_nil_r, ?scheduled_starts_app; simpl;
    rewrite ?app_nil_r; try reflexivity;
    destruct (transcriptionBufferRef s); reflexivity.
Qed.

Lemma after_audio_effect (now : Z) (m : LiveServerMessage) (s : State) :
  nextStartTimeRef (after_audio now m s) = (if interrupted m then 0 else nextStartTimeRef s)
  /\ activeSourcesRef (after_audio now m s)
     = (if interrupted m then [] else activeSourcesRef s)
  /\ outputAudioContextRef (after_audio now m s) = outputAudioContextRef s
  /\ scheduled_starts (trace (after_audio now m s)) = scheduled_starts (trace s)
  /\ transcriptions (after_audio now m s)
     = (if turnComplete m
        then transcriptions s
             ++ entry_if user (Js.trim (pending_user m s)) now
             ++ entry_if agent (Js.trim (pending_agent m s)) now
        else transcriptions s)
  /\ transcriptionBufferRef (after_audio now m s)
     = (if turnComplete m
        then {| user_text := []; agent_text := [] |}
        else {| user_text := pending_user m s; agent_text := pending_agent m s |}).
Proof.
  unfold after_audio. cbv zeta.
  assert (Hpre : let x := if interrupted m then on_interrupted s else s in
                 nextStartTimeRef x = (if interrupted m then 0 else nextStartTimeRef s)
                 /\ activeSourcesRef x = (if interrupted m then [] else activeSourcesRef s)
                 /\ outputAudioContextRef x = outputAudioContextRef s
                 /\ scheduled_starts (trace x) = scheduled_starts (trace s)
                 /\ transcriptions x = transcriptions s
                 /\ transcriptionBufferRef x = transcriptionBufferRef s).
  { destruct (on_interrupted_effect s) as [Ha [Hn [Hc [Ht [Hb Hs]]]]].
    destruct (interrupted m); cbv zeta; split_all; try assumption; reflexivity. }
  cbv zeta in Hpre.
  set (x := if interrupted m then on_interrupted s else s) in *.
  destruct Hpre as [Xn [Xa [Xc [Xs [Xt Xb]]]]].
  destruct (on_transcriptions_effect m x) as [Yb [Yn [Ya [Yc [Yt Ys]]]]].
  assert (Hu : pending_user m x = pending_user m s)
    by (unfold pending_user; now rewrite Xb).
  assert (Hg : pending_agent m x = pending_agent m s)
    by (unfold pending_agent; now rewrite Xb).
  destruct (turnComplete m).
  - destruct (turn_complete_effect now (on_transcriptions m x))
      as [Tt [Tb [Tn [Ta [Tc Ts]]]]].
    rewrite Tt, Tb, Tn, Ta, Tc, Ts, Yb, Yn, Ya, Yc, Yt, Ys, Xn, Xa, Xc, Xs, Xt.
    simpl. rewrite Hu, Hg. split_all; reflexivity.
  - rewrite Yb, Yn, Ya, Yc, Yt, Ys, Xn, Xa, Xc, Xs, Xt, Hu, Hg.
    split_all; reflexivity.
Qed.

(** ** The audio block of part_000 *)

Section Scheduling.

Variable decodeAudioData : Js.JsString -> option AudioBuffer.

Lemma schedule_audioA_frame (t : Z) (m : LiveServerMessage) (s : State) :
  transcriptions (state_of (PartA.schedule_audio decodeAudioData t m s)) = transcriptions s
  /\ transcriptionBufferRef (state_of (PartA.schedule_audio decodeAudioData t m s))
     = transcriptionBufferRef s
  /\ outputAudioContextRef (state_of (PartA.schedule_audio decodeAudioData t m s))
     = outputAudioContextRef s.
Proof.
  rewrite !schedule_audioA_unfold.
  destruct (PartA.base64Audio m) as [b64 |]; [| split_all; reflexivity].
  destruct (Js.truthy b64 && outputAudioContextRef s); [| split_all; reflexivity].
  cbv zeta.
  destruct (decodeAudioData b64) as [buf |]; [| split_all; reflexivity].
  change (mixerRef (emit ?e (with_sourcesCreated ?n
           (with_nextStartTimeRef ?z (setIsProcessing ?b s))))) with (mixerRef s).
  destruct (mixerRef s); split_all; reflexivity.
Qed.

Lemma schedule_audioA_chunk (t : Z) (m : LiveServerMessage) (s : State)
    (b64 : Js.JsString) (buf : AudioBuffer) :
  PartA.base64Audio m = Some b64 ->
  decodeAudioData b64 = Some buf ->
  outputAudioContextRef s = true ->
  exists s',
    PartA.schedule_audio decodeAudioData t m s = Done s'
    /\ nextStartTimeRef s' = Z.max (nextStartTimeRef s) t + duration buf
    /\ activeSourcesRef s'
       = activeSourcesRef s ++ [{| src_id := sourcesCreated s; buffer := buf |}]
    /\ outputAudioContextRef s' = true
    /\ scheduled_starts (trace s')
       = scheduled_starts (trace s) ++ [Z.max (nextStartTimeRef s) t].
Proof.
  intros Hb Hd Hc.
  rewrite !schedule_audioA_unfold.
  rewrite Hb, (base64AudioA_truthy m b64 Hb), Hc. simpl andb. cbv iota zeta.
  rewrite Hd.
  change (mixerRef (emit ?e (with_sourcesCreated ?n
           (with_nextStartTimeRef ?z (setIsProcessing ?b s))))) with (mixerRef s).
  destruct (mixerRef s); eexists; (split; [reflexivity |]);
    split_all; try reflexivity; try exact Hc;
    unfold trace; simpl; rewrite !scheduled_starts_app; simpl;
    rewrite ?app_nil_r, <- ?app_assoc; reflexivity.
Qed.

End Scheduling.

(** ** The handler in one piece and in two *)

Section Uninterrupted.

Variable decodeAudioData : Js.JsString -> option AudioBuffer.

(** [PartA.onmessage] is the handler whose decoding settles before
    anything else runs. *)
Lemma onmessageA_uninterrupted (now t : Z) (m : LiveServerMessage) (s : State) :
  PartA.onmessage decodeAudioData now t m s
  = match PartA.onmessage_before_await now t m s with
    | Returned s' => Done s'
    | Awaiting b64 s' => PartA.onmessage_after_await now m (decodeAudioData b64) s'
    end.
Proof.
  unfold PartA.onmessage, PartA.schedule_audio, PartA.onmessage_before_await,
    PartA.onmessage_after_await.
  destruct (PartA.audio_before_await t m s) as [s' | b64 s']; reflexivity.
Qed.

Lemma onmessageB_uninterrupted (now t : Z) (m : LiveServerMessage) (s : State) :
  PartB.onmessage decodeAudioData now t m s
  = match PartB.onmessage_before_await now t m s with
    | Returned s' => Done s'
    | Awaiting b64 s' => PartB.onmessage_after_await now m (decodeAudioData b64) s'
    end.
Proof.
  unfold PartB.onmessage, PartB.schedule_audio, PartB.onmessage_before_await,
    PartB.onmessage_after_await.
  destruct (PartB.audio_before_await t m s) as [s' | b64 s']; reflexivity.
Qed.

Lemma onmessageC_uninterrupted (now t : Z) (m : LiveServerMessage) (s : PartC.State) :
  PartC.onmessage decodeAudioData now t m s
  = match PartC.onmessage_before_await now t m s with
    | PartC.Returned s' => PartC.Done s'
    | PartC.Awaiting b64 s' => PartC.onmessage_after_await now m (decodeAudioData b64) s'
    end.
Proof.
  unfold PartC.onmessage, PartC.schedule_audio, PartC.onmessage_before_await,
    PartC.onmessage_after_await.
  destruct (PartC.audio_before_await t m s) as [s' | b64 s']; reflexivity.
Qed.

Lemma deliveries_app (before_await : Z -> Z -> LiveServerMessage -> State -> Suspension)
    (after_await : Z -> LiveServerMessage -> option AudioBuffer -> State -> Outcome)
    (a b : list Delivery) (x : State * list PendingDecode) :
  deliveries before_await after_await decodeAudioData (a ++ b) x
  = deliveries before_await after_await decodeAudioData b
      (deliveries before_await after_await decodeAudioData a x).
Proof. unfold deliveries. apply fold_left_app. Qed.

(** One message delivered and resumed at once is one run of the handler
    in one piece. *)
Lemma one_messageA (now t : Z) (m : LiveServerMessage) (s : State) :
  deliveriesA decodeAudioData [Arrives now t m; DecodeSettles 0 now] (s, [])
  = (state_of (PartA.onmessage decodeAudioData now t m s), []).
Proof.
  rewrite onmessageA_uninterrupted.
  unfold deliveriesA, deliveries. cbn [fold_left deliver_one fst snd].
  destruct (PartA.onmessage_before_await now t m s) as [s' | b64 s']; reflexivity.
Qed.

Lemma one_messageB (now t : Z) (m : LiveServerMessage) (s : State) :
  deliveriesB decodeAudioData [Arrives now t m; DecodeSettles 0 now] (s, [])
  = (state_of (PartB.onmessage decodeAudioData now t m s), []).
Proof.
  rewrite onmessageB_uninterrupted.
  unfold deliveriesB, deliveries. cbn [fold_left deliver_one fst snd].
  destruct (PartB.onmessage_before_await now t m s) as [s' | b64 s']; reflexivity.
Qed.

Lemma one_at_a_timeA (cs : list (Z * Z * LiveServerMessage)) (s : State) :
  deliveriesA decodeAudioData (one_at_a_time cs) (s, [])
  = (PartA.run decodeAudioData cs s, []).
Proof.
  revert s. induction cs as [| [[now t] m] cs IH]; intros s; [reflexivity |].
  change (one_at_a_time ((now, t, m) :: cs))
    with ([Arrives now t m; DecodeSettles 0 now] ++ one_at_a_time cs).
  unfold deliveriesA in *. rewrite deliveries_app.
  fold (deliveriesA decodeAudioData [Arrives now t m; DecodeSettles 0 now] (s, [])).
  rewrite one_messageA. apply IH.
Qed.

Lemma one_at_a_timeB (cs : list (Z * Z * LiveServerMessage)) (s : State) :
  deliveriesB decodeAudioData (one_at_a_time cs) (s, [])
  = (runB decodeAudioData cs s, []).
Proof.
  revert s. induction cs as [| [[now t] m] cs IH]; intros s; [reflexivity |].
  change (one_at_a_time ((now, t, m) :: cs))
    with ([Arrives now t m; DecodeSettles 0 now] ++ one_at_a_time cs).
  unfold deliveriesB in *. rewrite deliveries_app.
  fold (deliveriesB decodeAudioData [Arrives now t m; DecodeSettles 0 now] (s, [])).
  rewrite one_messageB. apply IH.
Qed.

Lemma startsA_one_at_a_time (cs : list (Z * Z * LiveServerMessage)) (s : State) :
  startsA decodeAudioData (one_at_a_time cs) (s, []) = code_starts decodeAudioData cs s.
Proof.
  unfold startsA, starts_of, code_starts.
  fold (deliveriesA decodeAudioData (one_at_a_time cs) (s, [])).
  now rewrite one_at_a_timeA.
Qed.

End Uninterrupted.

(** ** What each half of the handler does to the clock and to the starts *)

Lemma Forall_remove_nth {A : Type} (P : A -> Prop) (i : nat) (l : list A) :
  Forall P l -> Forall P (remove_nth i l).
Proof.
  intros H. unfold remove_nth. apply Forall_app. split.
  - rewrite <- (firstn_skipn i l) in H. now apply Forall_app in H.
  - rewrite <- (firstn_skipn (S i) l) in H. now apply Forall_app in H.
Qed.

Section Halves.

Variable decodeAudioData : Js.JsString -> option AudioBuffer.

Lemma before_awaitA_effect (now t : Z) (m : LiveServerMessage) (s : State) :
  match PartA.onmessage_before_await now t m s with
  | Returned s' => s' = after_audio now m s
  | Awaiting b64 s' =>
      nextStartTimeRef s' = Z.max (nextStartTimeRef s) t
      /\ scheduled_starts (trace s') = scheduled_starts (trace s)
      /\ transcriptions s' = transcriptions s
      /\ transcriptionBufferRef s' = transcriptionBufferRef s
      /\ activeSourcesRef s' = activeSourcesRef s
      /\ outputAudioContextRef s' = outputAudioContextRef s
      /\ mixerRef s' = mixerRef s
  end.
Proof.
  rewrite onmessage_before_awaitA_unfold.
  destruct (PartA.base64Audio m) as [b64 |]; [| reflexivity].
  destruct (Js.truthy b64 && outputAudioContextRef s); [| reflexivity].
  cbv zeta. split_all; try reflexivity.
  unfold trace. simpl. rewrite scheduled_starts_app. simpl. now rewrite app_nil_r.
Qed.

Lemma before_awaitB_effect (now t : Z) (m : LiveServerMessage) (s : State) :
  match PartB.onmessage_before_await now t m s with
  | Returned s' => s' = after_audio now m s
  | Awaiting b64 s' =>
      nextStartTimeRef s' = Z.max (nextStartTimeRef s) t
      /\ scheduled_starts (trace s') = scheduled_starts (trace s)
      /\ transcriptions s' = transcriptions s
      /\ transcriptionBufferRef s' = transcriptionBufferRef s
      /\ activeSourcesRef s' = activeSourcesRef s
      /\ outputAudioContextRef s' = outputAudioContextRef s
      /\ mixerRef s' = mixerRef s
  end.
Proof.
  rewrite onmessage_before_awaitB_unfold.
  destruct (PartB.base64Audio m) as [b64 |]; [| reflexivity].
  destruct (Js.truthy b64 && outputAudioContextRef s); [| reflexivity].
  cbv zeta. split_all; try reflexivity.
  unfold trace. simpl. rewrite scheduled_starts_app. simpl. now rewrite app_nil_r.
Qed.

(** The state in which the resumed handler of part_000 reaches line 218. *)
Lemma after_awaitA_decoded (now : Z) (m : LiveServerMessage) (buf : AudioBuffer)
    (s : State) :
  exists s1,
    PartA.onmessage_after_await now m (Some buf) s = Done (after_audio now m s1)
    /\ nextStartTimeRef s1 = nextStartTimeRef s + duration buf
    /\ scheduled_starts (trace s1) = scheduled_starts (trace s) ++ [nextStartTimeRef s]
    /\ transcriptions s1 = transcriptions s
    /\ transcriptionBufferRef s1 = transcriptionBufferRef s
    /\ activeSourcesRef s1
       = activeSourcesRef s ++ [{| src_id := sourcesCreated s; buffer := buf |}]
    /\ outputAudioContextRef s1 = outputAudioContextRef s
    /\ mixerRef s1 = mixerRef s.
Proof.
  rewrite onmessage_after_awaitA_unfold. cbv zeta.
  change (mixerRef (emit ?e (with_sourcesCreated ?n s))) with (mixerRef s).
  destruct (mixerRef s) eqn:Hm; eexists; (split; [reflexivity |]);
    split_all; try reflexivity; try exact Hm;
    unfold trace; simpl; rewrite !scheduled_starts_app; simpl;
    rewrite ?app_nil_r, <- ?app_assoc; reflexivity.
Qed.

Lemma after_awaitB_decoded (now : Z) (m : LiveServerMessage) (buf : AudioBuffer)
    (s : State) :
  mixerRef s = true ->
  exists s1,
    PartB.onmessage_after_await now m (Some buf) s = Done (after_audio now m s1)
    /\ nextStartTimeRef s1 = nextStartTimeRef s + duration buf
    /\ scheduled_starts (trace s1) = scheduled_starts (trace s) ++ [nextStartTimeRef s]
    /\ transcriptions s1 = transcriptions s
    /\ transcriptionBufferRef s1 = transcriptionBufferRef s
    /\ activeSourcesRef s1
       = activeSourcesRef s ++ [{| src_id := sourcesCreated s; buffer := buf |}]
    /\ outputAudioContextRef s1 = outputAudioContextRef s
    /\ mixerRef s1 = true.
Proof.
  intros Hm. rewrite onmessage_after_awaitB_unfold. cbv zeta.
  change (mixerRef (emit ?e (with_sourcesCreated ?n s))) with (mixerRef s).
  rewrite Hm. eexists. split; [reflexivity |].
  split_all; try reflexivity; try exact Hm;
    unfold trace; simpl; rewrite !scheduled_starts_app; simpl;
    rewrite ?app_nil_r, <- ?app_assoc; reflexivity.
Qed.

(** Without a mixer the resumed handler of part_001 throws before it
    starts the source. *)
Lemma after_awaitB_no_mixer (now : Z) (m : LiveServerMessage) (buf : AudioBuffer)
    (s : State) :
  mixerRef s = false ->
  exists s1,
    PartB.onmessage_after_await now m (Some buf) s = Thrown s1
    /\ nextStartTimeRef s1 = nextStartTimeRef s
    /\ scheduled_starts (trace s1) = scheduled_starts (trace s)
    /\ transcriptions s1 = transcriptions s
    /\ transcriptionBufferRef s1 = transcriptionBufferRef s.
Proof.
  intros Hm. rewrite onmessage_after_awaitB_unfold. cbv zeta.
  change (mixerRef (emit ?e (with_sourcesCreated ?n s))) with (mixerRef s).
  rewrite Hm. eexists. split; [reflexivity |].
  split_all; try reflexivity.
  unfold trace; simpl; rewrite !scheduled_starts_app; simpl;
    rewrite ?app_nil_r, <- ?app_assoc; reflexivity.
Qed.

End Halves.

(** ** Handlers that run to their end *)

(** A handler that has run to its end has run lines 218-239 last, from a
    state with the transcript and the buffers it was called or resumed
    with. *)
Lemma ends_inA_after_audio (now t : Z) (m : LiveServerMessage) (s s' : State) :
  ends_inA now t m s s' ->
  exists s1,
    s' = after_audio now m s1
    /\ transcriptions s1 = transcriptions s
    /\ transcriptionBufferRef s1 = transcriptionBufferRef s
    /\ outputAudioContextRef s1 = outputAudioContextRef s.
Proof.
  intros [H | [buf H]].
  - pose proof (before_awaitA_effect now t m s) as E. rewrite H in E.
    exists s. now split_all.
  - destruct (after_awaitA_decoded now m buf s) as (s1 & E & _ & _ & Ht & Hb & _ & Hc & _).
    rewrite E in H. injection H as <-. exists s1. now split_all.
Qed.

Lemma ends_inB_after_audio (now t : Z) (m : LiveServerMessage) (s s' : State) :
  ends_inB now t m s s' ->
  exists s1,
    s' = after_audio now m s1
    /\ transcriptions s1 = transcriptions s
    /\ transcriptionBufferRef s1 = transcriptionBufferRef s
    /\ outputAudioContextRef s1 = outputAudioContextRef s.
Proof.
  intros [H | [buf H]].
  - pose proof (before_awaitB_effect now t m s) as E. rewrite H in E.
    exists s. now split_all.
  - destruct (mixerRef s) eqn:Hm.
    + destruct (after_awaitB_decoded now m buf s Hm)
        as (s1 & E & _ & _ & Ht & Hb & _ & Hc & _).
      rewrite E in H. injection H as <-. exists s1. now split_all.
    + destruct (after_awaitB_no_mixer now m buf s Hm) as (s1 & E & _).
      rewrite E in H. discriminate H.
Qed.

Lemma ends_in_transcript (now : Z) (m : LiveServerMessage) (s s1 : State) :
  transcriptions s1 = transcriptions s ->
  transcriptionBufferRef s1 = transcriptionBufferRef s ->
  transcriptions (after_audio now m s1)
  = (if turnComplete m
     then transcriptions s
          ++ entry_if user (Js.trim (pending_user m s)) now
          ++ entry_if agent (Js.trim (pending_agent m s)) now
     else transcriptions s)
  /\ transcriptionBufferRef (after_audio now m s1)
     = (if turnComplete m
        then empty_buffers
        else {| user_text := pending_user m s; agent_text := pending_agent m s |}).
Proof.
  intros Ht Hb.
  destruct (after_audio_effect now m s1) as (_ & _ & _ & _ & At & Ab).
  rewrite At, Ab. unfold pending_user, pending_agent. rewrite Ht, Hb. split; reflexivity.
Qed.

(** The sample decoder gives no negative duration. *)
Lemma sample_decoder_durations (b64 : Js.JsString) (buf : AudioBuffer) :
  sample_decoder b64 = Some buf -> 0 <= duration buf.
Proof.
  unfold sample_decoder. destruct (existsb (N.eqb 33) b64); [discriminate |].
  intros H.
  assert (E : buf = {| duration := 24000 * Z.of_nat (List.length b64) |}) by congruence.
  subst buf. cbn [duration]. lia.
Qed.


(** ** Gapless scheduling *)


Lemma spec_starts_snoc (tds : list (Z * Z)) :
  forall (ns t d : Z),
    spec_starts ns (tds ++ [(t, d)]) = spec_starts ns tds ++ [Z.max (spec_clock ns tds) t].
Proof.
  induction tds as [| [t0 d0] tds IH]; intros ns t d; simpl.
  - reflexivity.
  - now rewrite IH.
Qed.




Section Gapless.

Variable decodeAudioData : Js.JsString -> option AudioBuffer.

Lemma onmessageA_done (now t : Z) (m : LiveServerMessage) (s s' : State) :
  PartA.onmessage decodeAudioData now t m s = Done s' ->
  exists s1,
    PartA.schedule_audio decodeAudioData t m s = Done s1 /\ s' = after_audio now m s1.
Proof.
  unfold PartA.onmessage.
  destruct (PartA.schedule_audio decodeAudioData t m s) as [s1 | s1]; [| discriminate].
  intros H. injection H as <-. now exists s1.
Qed.

Lemma onmessageA_audio (now t : Z) (m : LiveServerMessage) (s : State) (buf : AudioBuffer) :
  decoded decodeAudioData m = Some buf ->
  outputAudioContextRef s = true ->
  exists s',
    PartA.onmessage decodeAudioData now t m s = Done s'
    /\ nextStartTimeRef s'
       = (if interrupted m then 0 else Z.max (nextStartTimeRef s) t + duration buf)
    /\ outputAudioContextRef s' = true
    /\ scheduled_starts (trace s')
       = scheduled_starts (trace s) ++ [Z.max (nextStartTimeRef s) t].
Proof.
  unfold decoded. intros Hd Hc.
  destruct (PartA.base64Audio m) as [b64 |] eqn:Hb; [| discriminate].
  destruct (schedule_audioA_chunk decodeAudioData t m s b64 buf Hb Hd Hc)
    as [s1 [Hs1 [Hn [_ [Hc1 Hst]]]]].
  destruct (after_audio_effect now m s1) as [An [_ [Ac [As _]]]].
  exists (after_audio now m s1). unfold PartA.onmessage. rewrite Hs1.
  rewrite An, Ac, As, Hn, Hc1, Hst. split_all; reflexivity.
Qed.


Lemma runA_app (a b : list (Z * Z * LiveServerMessage)) :
  forall s : State,
    PartA.run decodeAudioData (a ++ b) s
    = PartA.run decodeAudioData b (PartA.run decodeAudioData a s).
Proof.
  induction a as [| [[now t] m] a IH]; intros s; simpl; [reflexivity | apply IH].
Qed.






End Gapless.


(** ** Interruption *)

Section Interruption.

Variable decodeAudioData : Js.JsString -> option AudioBuffer.

Lemma onmessageA_quiet (now t : Z) (m : LiveServerMessage) (s : State) :
  no_audio m = true ->
  PartA.onmessage decodeAudioData now t m s = Done (after_audio now m s).
Proof.
  unfold no_audio, PartA.onmessage. rewrite !schedule_audioA_unfold.
  destruct (PartA.base64Audio m); [discriminate | reflexivity].
Qed.

(** Messages without audio leave a clock at 0 where it is and start no
    source. *)
Lemma runA_quiet (quiet : list (Z * Z * LiveServerMessage)) :
  forall s : State,
    Forall (fun c => no_audio (message_of c) = true) quiet ->
    nextStartTimeRef s = 0 ->
    nextStartTimeRef (PartA.run decodeAudioData quiet s) = 0
    /\ outputAudioContextRef (PartA.run decodeAudioData quiet s) = outputAudioContextRef s
    /\ scheduled_starts (trace (PartA.run decodeAudioData quiet s))
       = scheduled_starts (trace s).
Proof.
  induction quiet as [| [[now t] m] quiet IH]; intros s Hall Hn.
  - now split_all.
  - inversion Hall as [| c cs' Hm Hrest]; subst.
    simpl. rewrite (onmessageA_quiet now t m s Hm). simpl.
    destruct (after_audio_effect now m s) as [An [_ [Ac [As _]]]].
    destruct (IH (after_audio now m s) Hrest) as [IHn [IHc IHs]].
    + rewrite An, Hn. now destruct (interrupted m).
    + rewrite IHn, IHc, IHs, Ac, As. now split_all.
Qed.

(** From a clock at 0, messages without audio start nothing and the next
    chunk is started at its [currentTime]. *)
Lemma chunk_after_resetA (s : State) (quiet : list (Z * Z * LiveServerMessage))
    (now2 t2 : Z) (m2 : LiveServerMessage) :
  nextStartTimeRef s = 0 ->
  outputAudioContextRef s = true ->
  Forall (fun c => no_audio (message_of c) = true) quiet ->
  is_some (decoded decodeAudioData m2) = true ->
  0 <= t2 ->
  code_starts decodeAudioData (quiet ++ [(now2, t2, m2)]) s = [t2].
Proof.
  intros Hn Hctx Hquiet Hdec Ht2.
  destruct (runA_quiet quiet s Hquiet Hn) as [Qn [Qc Qs]].
  destruct (decoded decodeAudioData m2) as [buf |] eqn:Hbuf; [| discriminate].
  destruct (onmessageA_audio decodeAudioData now2 t2 m2
              (PartA.run decodeAudioData quiet s) buf Hbuf)
    as [s2 [Hs2 [_ [_ Hst]]]].
  { rewrite Qc. exact Hctx. }
  unfold code_starts. rewrite runA_app. simpl. rewrite Hs2. simpl.
  rewrite Hst, Qs, Qn, skipn_app, skipn_all, Nat.sub_diag. simpl.
  f_equal. lia.
Qed.

(** C4, as the code has it: when the handler of a message that carries
    the interrupted flag has run to its end (the message had nothing to
    decode, or its payload was decoded), no source is active and the clock
    is 0; if no decoding is pending then and the messages that follow are
    handled one at a time, then, whatever messages without audio come
    first, the next chunk is started at [currentTime] as read at its
    arrival. *)
Theorem C4_interruption_resets_clock (now t : Z) (m : LiveServerMessage) (s s' : State) :
  interrupted m = true ->
  ends_inA now t m s s' ->
  activeSourcesRef s' = []
  /\ nextStartTimeRef s' = 0
  /\ (forall (quiet : list (Z * Z * LiveServerMessage)) (now2 t2 : Z)
             (m2 : LiveServerMessage),
        outputAudioContextRef s = true ->
        Forall (fun c => no_audio (message_of c) = true) quiet ->
        is_some (decoded decodeAudioData m2) = true ->
        0 <= t2 ->
        startsA decodeAudioData (one_at_a_time (quiet ++ [(now2, t2, m2)])) (s', [])
        = [t2]).
Proof.
  intros Hi Hend.
  destruct (ends_inA_after_audio now t m s s' Hend) as (s1 & -> & _ & _ & Hc).
  destruct (after_audio_effect now m s1) as [An [Aa [Ac _]]].
  rewrite Hi in An, Aa.
  split; [exact Aa |]. split; [exact An |].
  intros quiet now2 t2 m2 Hctx Hquiet Hdec Ht2.
  rewrite startsA_one_at_a_time.
  apply chunk_after_resetA; try assumption.
  now rewrite Ac, Hc.
Qed.

End Interruption.

(** ** Transcript *)

Lemma trimStart_whitespace (t : Js.JsString) : whitespace_only t -> Js.trimStart t = [].
Proof.
  induction 1 as [| c t Hc _ IH]; simpl; [reflexivity | now rewrite Hc].
Qed.

Lemma trim_whitespace (t : Js.JsString) : whitespace_only t -> Js.trim t = [].
Proof.
  intros H. unfold Js.trim. now rewrite (trimStart_whitespace t H).
Qed.

Lemma entry_if_empty (r : Role) (now : Z) : entry_if r [] now = [].
Proof. reflexivity. Qed.

(** ** What [trim] strips *)

Lemma trimStart_spec (t : Js.JsString) :
  exists lead,
    t = lead ++ Js.trimStart t
    /\ whitespace_only lead
    /\ (forall c r, Js.trimStart t = c :: r -> Js.isWhiteSpace c = false).
Proof.
  induction t as [| c t (lead & Ht & Hl & Hc)].
  - exists []. split_all; [reflexivity | constructor | discriminate].
  - cbn [Js.trimStart]. destruct (Js.isWhiteSpace c) eqn:Hw.
    + exists (c :: lead). split_all.
      * cbn. now rewrite <- Ht.
      * now constructor.
      * exact Hc.
    + exists []. split_all; [reflexivity | constructor |].
      intros c' r E. injection E as <- _. exact Hw.
Qed.

Lemma trimEnd_spec (t : Js.JsString) :
  exists trail,
    t = Js.trimEnd t ++ trail
    /\ whitespace_only trail
    /\ (forall c r, Js.trimEnd t = r ++ [c] -> Js.isWhiteSpace c = false).
Proof.
  destruct (trimStart_spec (rev t)) as (lead & Ht & Hl & Hc).
  exists (rev lead). unfold Js.trimEnd. split_all.
  - rewrite <- rev_app_distr, <- Ht. now rewrite rev_involutive.
  - now apply Forall_rev.
  - intros c r E. apply (f_equal (@rev N)) in E.
    rewrite rev_involutive, rev_app_distr in E. cbn in E. now apply (Hc c (rev r)).
Qed.

Lemma trim_spec (t : Js.JsString) :
  exists lead trail,
    t = lead ++ Js.trim t ++ trail
    /\ whitespace_only lead
    /\ whitespace_only trail
    /\ (forall c r, Js.trim t = c :: r -> Js.isWhiteSpace c = false)
    /\ (forall c r, Js.trim t = r ++ [c] -> Js.isWhiteSpace c = false).
Proof.
  destruct (trimStart_spec t) as (lead & Ht & Hl & Hc).
  destruct (trimEnd_spec (Js.trimStart t)) as (trail & Hu & Htr & Hd).
  exists lead, trail. unfold Js.trim. split_all; try assumption.
  - now rewrite <- Hu.
  - intros c r E. rewrite E in Hu. apply (Hc c (r ++ trail)). exact Hu.
Qed.

Section Transcript.

Variable decodeAudioData : Js.JsString -> option AudioBuffer.

Lemma schedule_audioB_frame (t : Z) (m : LiveServerMessage) (s : State) :
  transcriptions (state_of (PartB.schedule_audio decodeAudioData t m s)) = transcriptions s
  /\ transcriptionBufferRef (state_of (PartB.schedule_audio decodeAudioData t m s))
     = transcriptionBufferRef s.
Proof.
  rewrite !schedule_audioB_unfold.
  destruct (PartB.base64Audio m) as [b64 |]; [| split_all; reflexivity].
  destruct (Js.truthy b64 && outputAudioContextRef s); [| split_all; reflexivity].
  cbv zeta.
  destruct (decodeAudioData b64) as [buf |]; [| split_all; reflexivity].
  change (mixerRef (emit ?e (with_sourcesCreated ?n
           (with_nextStartTimeRef ?z (setIsProcessing ?b s))))) with (mixerRef s).
  destruct (mixerRef s); split_all; reflexivity.
Qed.

Lemma onmessageB_done (now t : Z) (m : LiveServerMessage) (s s' : State) :
  PartB.onmessage decodeAudioData now t m s = Done s' ->
  exists s1,
    PartB.schedule_audio decodeAudioData t m s = Done s1 /\ s' = after_audio now m s1.
Proof.
  unfold PartB.onmessage.
  destruct (PartB.schedule_audio decodeAudioData t m s) as [s1 | s1]; [| discriminate].
  intros H. injection H as <-. now exists s1.
Qed.

(** What a completed handler of part_000 does to the transcript. *)
Lemma onmessageA_transcript (now t : Z) (m : LiveServerMessage) (s s' : State) :
  PartA.onmessage decodeAudioData now t m s = Done s' ->
  transcriptions s'
  = (if turnComplete m
     then transcriptions s
          ++ entry_if user (Js.trim (pending_user m s)) now
          ++ entry_if agent (Js.trim (pending_agent m s)) now
     else transcriptions s)
  /\ transcriptionBufferRef s'
     = (if turnComplete m
        then empty_buffers
        else {| user_text := pending_user m s; agent_text := pending_agent m s |}).
Proof.
  intros Hdone.
  destruct (onmessageA_done decodeAudioData now t m s s' Hdone) as [s1 [Hs1 ->]].
  destruct (schedule_audioA_frame decodeAudioData t m s) as [Ft [Fb _]].
  rewrite Hs1 in Ft, Fb. simpl in Ft, Fb.
  destruct (after_audio_effect now m s1) as [_ [_ [_ [_ [At Ab]]]]].
  rewrite At, Ab. unfold pending_user, pending_agent. rewrite Ft, Fb.
  split; reflexivity.
Qed.

(** The same on part_001. *)
Lemma onmessageB_transcript (now t : Z) (m : LiveServerMessage) (s s' : State) :
  PartB.onmessage decodeAudioData now t m s = Done s' ->
  transcriptions s'
  = (if turnComplete m
     then transcriptions s
          ++ entry_if user (Js.trim (pending_user m s)) now
          ++ entry_if agent (Js.trim (pending_agent m s)) now
     else transcriptions s)
  /\ transcriptionBufferRef s'
     = (if turnComplete m
        then empty_buffers
        else {| user_text := pending_user m s; agent_text := pending_agent m s |}).
Proof.
  intros Hdone.
  destruct (onmessageB_done now t m s s' Hdone) as [s1 [Hs1 ->]].
  destruct (schedule_audioB_frame t m s) as [Ft Fb].
  rewrite Hs1 in Ft, Fb. simpl in Ft, Fb.
  destruct (after_audio_effect now m s1) as [_ [_ [_ [_ [At Ab]]]]].
  rewrite At, Ab. unfold pending_user, pending_agent. rewrite Ft, Fb.
  split; reflexivity.
Qed.

(** On part_000 the handler runs to its end unless a payload fails to
    decode. *)
Lemma onmessageA_completes (now t : Z) (m : LiveServerMessage) (s : State) :
  audio_ok decodeAudioData m = true ->
  exists s', PartA.onmessage decodeAudioData now t m s = Done s'.
Proof.
  unfold audio_ok, PartA.onmessage. rewrite !schedule_audioA_unfold.
  destruct (PartA.base64Audio m) as [b64 |]; [| intros _; eexists; reflexivity].
  destruct (Js.truthy b64 && outputAudioContextRef s); [| intros _; eexists; reflexivity].
  cbv zeta.
  destruct (decodeAudioData b64) as [buf |]; [| discriminate].
  intros _. eexists. reflexivity.
Qed.

(** Inside a turn the transcript stays as it is and each buffer grows by
    the deltas of its own role, in arrival order. *)
Lemma runA_turn (turn : list (Z * Z * LiveServerMessage)) :
  forall s : State,
    Forall (fun c => within_turn decodeAudioData (message_of c) = true) turn ->
    transcriptions (PartA.run decodeAudioData turn s) = transcriptions s
    /\ transcriptionBufferRef (PartA.run decodeAudioData turn s)
       = {| user_text := user_text (transcriptionBufferRef s) ++ heard turn;
            agent_text := agent_text (transcriptionBufferRef s) ++ said turn |}.
Proof.
  induction turn as [| [[now t] m] turn IH]; intros s Hall.
  - unfold heard, said. simpl. rewrite !app_nil_r.
    destruct (transcriptionBufferRef s). now split.
  - inversion Hall as [| c cs' Hm Hrest]; subst.
    unfold within_turn, message_of in Hm. simpl in Hm.
    apply andb_prop in Hm. destruct Hm as [Htc Hok].
    apply negb_true_iff in Htc.
    destruct (onmessageA_completes now t m s Hok) as [s1 Hs1].
    destruct (onmessageA_transcript now t m s s1 Hs1) as [Ht Hb].
    rewrite Htc in Ht, Hb.
    destruct (IH s1 Hrest) as [IHt IHb].
    simpl. rewrite Hs1. simpl. rewrite IHt, IHb, Ht, Hb. simpl.
    unfold pending_user, pending_agent, heard, said, message_of. simpl.
    rewrite <- !app_assoc. now split.
Qed.

(** C6, as the code has it: when the handler of a turn-complete message
    has run to its end (the message had nothing to decode, or its payload
    was decoded), the transcript has grown by the entry of the user, if
    the trimmed user buffer is not empty, then by the entry of the agent,
    if the trimmed agent buffer is not empty, both stamped with the clock
    reading of the commit, and both buffers are empty.  The trimmed text
    is the text without its leading and trailing whitespace.  Over a whole
    turn that starts with empty buffers and is handled one message at a
    time, each buffer is the concatenation of the deltas of its own role,
    so that with two non-empty texts the transcript grows by the user
    entry followed by the agent entry, however the partial events of the
    two roles were interleaved. *)
Theorem C6_turn_complete_commits_user_first :
  (forall (now t : Z) (m : LiveServerMessage) (s s' : State),
      turnComplete m = true ->
      ends_inA now t m s s' ->
      transcriptions s'
      = transcriptions s
        ++ entry_if user (Js.trim (pending_user m s)) now
        ++ entry_if agent (Js.trim (pending_agent m s)) now
      /\ transcriptionBufferRef s' = empty_buffers)
  /\ (forall text : Js.JsString,
        exists lead trail,
          text = lead ++ Js.trim text ++ trail
          /\ whitespace_only lead
          /\ whitespace_only trail
          /\ (forall c r, Js.trim text = c :: r -> Js.isWhiteSpace c = false)
          /\ (forall c r, Js.trim text = r ++ [c] -> Js.isWhiteSpace c = false))
  /\ (forall (turn : list (Z * Z * LiveServerMessage)) (now t : Z)
             (m : LiveServerMessage) (s : State),
        transcriptionBufferRef s = empty_buffers ->
        Forall (fun c => within_turn decodeAudioData (message_of c) = true) turn ->
        turnComplete m = true ->
        audio_ok decodeAudioData m = true ->
        Js.truthy (Js.trim (heard (turn ++ [(now, t, m)]))) = true ->
        Js.truthy (Js.trim (said (turn ++ [(now, t, m)]))) = true ->
        transcriptions
          (fst (deliveriesA decodeAudioData (one_at_a_time (turn ++ [(now, t, m)]))
                  (s, [])))
        = transcriptions s
          ++ [{| type := user; text := Js.trim (heard (turn ++ [(now, t, m)]));
                 timestamp := now |};
              {| type := agent; text := Js.trim (said (turn ++ [(now, t, m)]));
                 timestamp := now |}]).
Proof.
  split_all.
  - intros now t m s s' Htc Hend.
    destruct (ends_inA_after_audio now t m s s' Hend) as (s1 & -> & Ht & Hb & _).
    destruct (ends_in_transcript now m s s1 Ht Hb) as [Et Eb].
    rewrite Htc in Et, Eb. now split.
  - apply trim_spec.
  - intros turn now t m s Hempty Hturn Htc Hok Hheard Hsaid.
    rewrite one_at_a_timeA. cbn [fst]. rewrite runA_app. cbn [PartA.run].
    destruct (onmessageA_completes now t m
                (PartA.run decodeAudioData turn s) Hok) as [s' Hdone].
    rewrite Hdone. cbn [state_of].
    destruct (onmessageA_transcript now t m _ s' Hdone) as [Ht _].
    destruct (runA_turn turn s Hturn) as [Rt Rb].
    rewrite Htc, Rt in Ht. rewrite Ht.
    unfold pending_user, pending_agent. rewrite Rb, Hempty. simpl.
    assert (Eh : heard turn ++ input_delta m = heard (turn ++ [(now, t, m)])).
    { unfold heard. rewrite map_app, concat_app. simpl. now rewrite app_nil_r. }
    assert (Es : said turn ++ output_delta m = said (turn ++ [(now, t, m)])).
    { unfold said. rewrite map_app, concat_app. simpl. now rewrite app_nil_r. }
    rewrite Eh, Es. unfold entry_if. rewrite Hheard, Hsaid. reflexivity.
Qed.

(** C9, as the code has it: a turn-complete message whose two buffers, as
    the turn-complete test would find them, hold nothing but whitespace
    leaves the transcript as it was, however its handler ends; both
    buffers are empty when the handler has run to its end, and are left
    as they were when the decoding of its payload fails.  On both
    front-ends. *)
Theorem C9_blank_turn_commits_nothing (now t : Z) (m : LiveServerMessage) (s : State) :
  turnComplete m = true ->
  whitespace_only (pending_user m s) ->
  whitespace_only (pending_agent m s) ->
  (forall s' : State,
      ends_inA now t m s s' ->
      transcriptions s' = transcriptions s /\ transcriptionBufferRef s' = empty_buffers)
  /\ (forall s' : State,
        ends_inB now t m s s' ->
        transcriptions s' = transcriptions s /\ transcriptionBufferRef s' = empty_buffers)
  /\ (forall decoded : option AudioBuffer,
        transcriptions (state_of (PartA.onmessage_after_await now m decoded s))
        = transcriptions s)
  /\ (forall decoded : option AudioBuffer,
        transcriptions (state_of (PartB.onmessage_after_await now m decoded s))
        = transcriptions s)
  /\ transcriptionBufferRef (state_of (PartA.onmessage_after_await now m None s))
     = transcriptionBufferRef s
  /\ transcriptionBufferRef (state_of (PartB.onmessage_after_await now m None s))
     = transcriptionBufferRef s.
Proof.
  intros Htc Hu Ha.
  assert (HA : forall s' : State,
             ends_inA now t m s s' ->
             transcriptions s' = transcriptions s
             /\ transcriptionBufferRef s' = empty_buffers).
  { intros s' Hend.
    destruct (ends_inA_after_audio now t m s s' Hend) as (s1 & -> & Ht & Hb & _).
    destruct (ends_in_transcript now m s s1 Ht Hb) as [Et Eb].
    rewrite Htc in Et, Eb.
    rewrite (trim_whitespace _ Hu), (trim_whitespace _ Ha), !entry_if_empty in Et.
    rewrite !app_nil_r in Et. now split. }
  assert (HB : forall s' : State,
             ends_inB now t m s s' ->
             transcriptions s' = transcriptions s
             /\ transcriptionBufferRef s' = empty_buffers).
  { intros s' Hend.
    destruct (ends_inB_after_audio now t m s s' Hend) as (s1 & -> & Ht & Hb & _).
    destruct (ends_in_transcript now m s s1 Ht Hb) as [Et Eb].
    rewrite Htc in Et, Eb.
    rewrite (trim_whitespace _ Hu), (trim_whitespace _ Ha), !entry_if_empty in Et.
    rewrite !app_nil_r in Et. now split. }
  split_all; try reflexivity; try assumption.
  - intros [buf |]; [| reflexivity].
    destruct (after_awaitA_decoded now m buf s) as (s1 & E & _).
    apply (HA (state_of (PartA.onmessage_after_await now m (Some buf) s))).
    right. exists buf. rewrite E. reflexivity.
  - intros [buf |]; [| reflexivity].
    destruct (mixerRef s) eqn:Hm.
    + destruct (after_awaitB_decoded now m buf s Hm) as (s1 & E & _).
      apply (HB (state_of (PartB.onmessage_after_await now m (Some buf) s))).
      right. exists buf. rewrite E. reflexivity.
    + destruct (after_awaitB_no_mixer now m buf s Hm) as (s1 & E & _ & _ & Ht & _).
      rewrite E. exact Ht.
Qed.

End Transcript.

(** ** The scenarios of the spec, run on the code *)

Example three_chunks_schedule :
  code_starts sample_decoder three_chunks connectedA = [0; 24000; 48000]
  /\ nextStartTimeRef (PartA.run sample_decoder three_chunks connectedA) = 72000.
Proof. split; vm_compute; reflexivity. Qed.

Example barge_in_schedule :
  List.length (activeSourcesRef before_barge_in) = 2%nat
  /\ nextStartTimeRef before_barge_in = 48000
  /\ activeSourcesRef after_barge_in = []
  /\ nextStartTimeRef after_barge_in = 0
  /\ code_starts sample_decoder [(2, 30000, audio_message "C")] after_barge_in = [30000].
Proof. split_all; vm_compute; reflexivity. Qed.

(** The full-scale positive sample: stored as [-32768], where the spec's
    formula gives [32767]. *)
Example full_scale_sample_wraps :
  int16_of_frame [1%Q] = [-32768] /\ spec_sample_conversion 1 = 32767.
Proof. split; reflexivity. Qed.




Lemma C4_interruption_resets_clock_witness :
  (activeSourcesRef after_barge_in = []
   /\ nextStartTimeRef after_barge_in = 0
   /\ startsA sample_decoder
        (one_at_a_time ([(2, 20000, control_message false false (Some "wait"%string) None)]
                        ++ [(3, 30000, audio_message "C")])) (after_barge_in, [])
      = [30000])
  /\ (activeSourcesRef
        (fst (deliveriesA sample_decoder (handled_alone 1 12000 barge_in_with_audio)
                (before_barge_in, []))) = []
      /\ nextStartTimeRef
           (fst (deliveriesA sample_decoder (handled_alone 1 12000 barge_in_with_audio)
                   (before_barge_in, []))) = 0).
Proof.
  split.
  - assert (Hend : ends_inA 1 12000 barge_in before_barge_in after_barge_in)
      by (left; vm_compute; reflexivity).
    destruct (C4_interruption_resets_clock sample_decoder 1 12000 barge_in
                before_barge_in after_barge_in eq_refl Hend) as [Ha [Hn Hnext]].
    split; [exact Ha |]. split; [exact Hn |].
    apply Hnext.
    + vm_compute. reflexivity.
    + repeat constructor.
    + vm_compute. reflexivity.
    + lia.
  - assert (Hend : ends_inA 1 12000 barge_in_with_audio
                     (fst (deliveriesA sample_decoder [Arrives 1 12000 barge_in_with_audio]
                             (before_barge_in, [])))
                     (fst (deliveriesA sample_decoder
                             (handled_alone 1 12000 barge_in_with_audio)
                             (before_barge_in, [])))).
    { right. exists {| duration := 24000 |}. vm_compute. reflexivity. }
    destruct (C4_interruption_resets_clock sample_decoder 1 12000 barge_in_with_audio
                _ _ eq_refl Hend) as [Ha [Hn _]].
    split; [exact Ha | exact Hn].
Defined.

(** C4, as stated, fails on the code: a barge-in notice whose payload does
    not decode ends its handler at the [await]; the two sources stay in the
    set, the clock stays at 2 s, and the next chunk, arriving at 1.25 s, is
    started at 2 s. *)
Lemma C4_counterexample :
  interrupted garbled_barge_in = true
  /\ snd (deliveriesA sample_decoder (handled_alone 1 12000 garbled_barge_in)
            (before_barge_in, [])) = []
  /\ List.length (activeSourcesRef after_garbled_barge_in) = 2%nat
  /\ activeSourcesRef after_garbled_barge_in <> []
  /\ nextStartTimeRef after_garbled_barge_in = 48000
  /\ nextStartTimeRef after_garbled_barge_in <> 0
  /\ startsA sample_decoder (one_at_a_time [(2, 30000, audio_message "C")])
       (after_garbled_barge_in, []) = [48000].
Proof.
  split_all; try (vm_compute; reflexivity).
  - intros H. vm_compute in H. discriminate H.
  - intros H. vm_compute in H. discriminate H.
Qed.

Lemma C6_turn_complete_commits_user_first_witness :
  transcriptions
    (fst (deliveriesA sample_decoder (one_at_a_time (agent_first_turn ++ [(7, 0, turn_end)]))
            (connectedA, [])))
  = transcriptions connectedA
    ++ [{| type := user; text := Js.trim (heard (agent_first_turn ++ [(7, 0, turn_end)]));
           timestamp := 7 |};
        {| type := agent; text := Js.trim (said (agent_first_turn ++ [(7, 0, turn_end)]));
           timestamp := 7 |}].
Proof.
  destruct (C6_turn_complete_commits_user_first sample_decoder) as (_ & _ & Hturn).
  apply Hturn.
  - vm_compute. reflexivity.
  - repeat constructor.
  - reflexivity.
  - vm_compute. reflexivity.
  - vm_compute. reflexivity.
  - vm_compute. reflexivity.
Defined.

(** C6, as stated, fails on the code: a turn-complete message whose payload
    does not decode ends its handler at the [await]; nothing is committed
    and the buffers keep their text. *)
Lemma C6_counterexample :
  turnComplete garbled_turn_end = true
  /\ Js.trim (user_text (transcriptionBufferRef mid_turnA)) = Js.of_string "hello"
  /\ Js.trim (agent_text (transcriptionBufferRef mid_turnA)) = Js.of_string "Hi"
  /\ snd (deliveriesA sample_decoder (handled_alone 7 0 garbled_turn_end) (mid_turnA, []))
     = []
  /\ transcriptions
       (fst (deliveriesA sample_decoder (handled_alone 7 0 garbled_turn_end) (mid_turnA, [])))
     = transcriptions mid_turnA
  /\ transcriptionBufferRef
       (fst (deliveriesA sample_decoder (handled_alone 7 0 garbled_turn_end) (mid_turnA, [])))
     = transcriptionBufferRef mid_turnA
  /\ transcriptionBufferRef
       (fst (deliveriesA sample_decoder (handled_alone 7 0 garbled_turn_end) (mid_turnA, [])))
     <> empty_buffers.
Proof.
  split_all; try (vm_compute; reflexivity).
  intros H. vm_compute in H. discriminate H.
Qed.

Example agent_first_turn_transcript :
  transcriptions
    (PartA.run sample_decoder (agent_first_turn ++ [(7, 0, turn_end)]) connectedA)
  = [{| type := user; text := Js.of_string "hello"; timestamp := 7 |};
     {| type := agent; text := Js.of_string "Hi"; timestamp := 7 |}].
Proof. vm_compute. reflexivity. Qed.

Lemma C9_blank_turn_commits_nothing_witness :
  (transcriptions (state_of (PartA.onmessage sample_decoder 7 0 blank_turn_end connectedA))
   = transcriptions connectedA
   /\ transcriptionBufferRef
        (state_of (PartA.onmessage sample_decoder 7 0 blank_turn_end connectedA))
      = empty_buffers)
  /\ (transcriptions (state_of (PartB.onmessage sample_decoder 7 0 blank_turn_end connectedB))
      = transcriptions connectedB
      /\ transcriptionBufferRef
           (state_of (PartB.onmessage sample_decoder 7 0 blank_turn_end connectedB))
         = empty_buffers).
Proof.
  assert (Hu : whitespace_only (pending_user blank_turn_end connectedA))
    by (vm_compute; repeat constructor).
  assert (Ha : whitespace_only (pending_agent blank_turn_end connectedA))
    by (vm_compute; repeat constructor).
  assert (Hu' : whitespace_only (pending_user blank_turn_end connectedB))
    by (vm_compute; repeat constructor).
  assert (Ha' : whitespace_only (pending_agent blank_turn_end connectedB))
    by (vm_compute; repeat constructor).
  destruct (C9_blank_turn_commits_nothing 7 0 blank_turn_end connectedA
              eq_refl Hu Ha) as (HA & _).
  destruct (C9_blank_turn_commits_nothing 7 0 blank_turn_end connectedB
              eq_refl Hu' Ha') as (_ & HB & _).
  split.
  - apply HA. left. vm_compute. reflexivity.
  - apply HB. left. vm_compute. reflexivity.
Defined.

(** C9, as stated, fails on the code: when the payload of the turn-complete
    message does not decode, the handler ends at the [await] and the two
    whitespace-only buffers are left as they were, on both front-ends. *)
Lemma C9_counterexample :
  turnComplete garbled_turn_end = true
  /\ whitespace_only (pending_user garbled_turn_end blank_buffersA)
  /\ whitespace_only (pending_agent garbled_turn_end blank_buffersA)
  /\ snd (deliveriesA sample_decoder (handled_alone 7 0 garbled_turn_end)
            (blank_buffersA, [])) = []
  /\ transcriptionBufferRef
       (fst (deliveriesA sample_decoder (handled_alone 7 0 garbled_turn_end)
               (blank_buffersA, [])))
     = {| user_text := Js.of_string "  "; agent_text := Js.of_string " " |}
  /\ transcriptionBufferRef
       (fst (deliveriesA sample_decoder (handled_alone 7 0 garbled_turn_end)
               (blank_buffersA, [])))
     <> empty_buffers
  /\ transcriptionBufferRef
       (fst (deliveriesB sample_decoder (handled_alone 7 0 garbled_turn_end)
               (blank_buffersB, [])))
     = {| user_text := Js.of_string "  "; agent_text := Js.of_string " " |}
  /\ transcriptionBufferRef
       (fst (deliveriesB sample_decoder (handled_alone 7 0 garbled_turn_end)
               (blank_buffersB, [])))
     <> empty_buffers.
Proof.
  split_all; try (vm_compute; reflexivity); try (vm_compute; repeat constructor).
  - intros H. vm_compute in H. discriminate H.
  - intros H. vm_compute in H. discriminate H.
Qed.

(** ** A payload that fails to decode *)

(** The awaited decoding is not guarded: when it rejects, the handler of
    part_000 stops there.  The clock keeps the maximum taken before the
    [await]; the blocks after the audio block are skipped, so that an
    interruption or a turn-complete carried by the same message is not acted
    upon. *)
Lemma undecodable_payload_skips_rest (decodeAudioData : Js.JsString -> option AudioBuffer)
    (now t : Z) (m : LiveServerMessage) (s : State) (b64 : Js.JsString) :
  PartA.base64Audio m = Some b64 ->
  decodeAudioData b64 = None ->
  outputAudioContextRef s = true ->
  PartA.onmessage decodeAudioData now t m s
  = Thrown (with_nextStartTimeRef (Z.max (nextStartTimeRef s) t) (setIsProcessing false s)).
Proof.
  intros Hb Hd Hc.
  unfold PartA.onmessage. rewrite !schedule_audioA_unfold.
  rewrite Hb, (base64AudioA_truthy m b64 Hb), Hc. simpl andb. cbv iota zeta.
  rewrite Hd. reflexivity.
Qed.

(** * Further properties of the handlers *)

(** ** Starting a call *)

(** Case analysis on the cells [handleStart] tests. *)
Ltac destruct_start s :=
  destruct s as [? ? ? ? ? ? ? ? ? ? ? [|] ? ? ? [?|] ? ? ? ? ? ? ? ?].

Lemma handleStartA_split (media : option MediaStream) (s : State) :
  PartA.handleStart media s
  = match handleStartA_before_await s with
    | Some s1 => handleStartA_after_await (isMuted s) media s1
    | None => s
    end.
Proof. destruct media; destruct_start s; vm_compute; reflexivity. Qed.

Lemma handleStartB_split (media : option MediaStream) (s : State) :
  PartB.handleStart media s
  = handleStartB_after_await (isMuted s) media (handleStartB_before_await s).
Proof. destruct media; destruct_start s; vm_compute; reflexivity. Qed.

Lemma handleStartA_closing (media : option MediaStream) (s : State) :
  isClosingRef s = true -> PartA.handleStart media s = s.
Proof. intros H. unfold PartA.handleStart. now rewrite H. Qed.

Lemma handleStartA_granted (stream : MediaStream) (s : State) :
  isClosingRef s = false ->
  status (task (PartA.handleStart (Some stream)) s) = CONNECTING
  /\ streamRef (task (PartA.handleStart (Some stream)) s) = Some stream
  /\ sessionPromiseRef (task (PartA.handleStart (Some stream)) s) = Some Pending
  /\ processorNodeRef (task (PartA.handleStart (Some stream)) s)
     = Some {| closure_isMuted := isMuted s |}.
Proof.
  intros H. unfold task. rewrite drain_emits.
  destruct_start s; simpl in H; try discriminate H; split_all; vm_compute; reflexivity.
Qed.

(** X1: on part_000 a start that follows a stop before the guard timer has
    fired does nothing at all; once the timer has fired, a start with a
    granted microphone proceeds to CONNECTING and holds the stream and a
    pending connection. *)
Theorem start_waits_for_guard_timer :
  (forall (b : bool) (media : option MediaStream) (s : State),
      task (PartA.handleStart media) (task (PartA.handleStop b) s)
      = task (PartA.handleStop b) s)
  /\ (forall (b : bool) (stream : MediaStream) (s : State),
        status (task (PartA.handleStart (Some stream))
                  (PartA.closing_timeout (task (PartA.handleStop b) s))) = CONNECTING
        /\ streamRef (task (PartA.handleStart (Some stream))
                        (PartA.closing_timeout (task (PartA.handleStop b) s))) = Some stream
        /\ sessionPromiseRef (task (PartA.handleStart (Some stream))
                                (PartA.closing_timeout (task (PartA.handleStop b) s)))
           = Some Pending).
Proof.
  split.
  - intros b media s. unfold task at 1.
    rewrite handleStartA_closing.
    + apply drain_quiescent. unfold task. apply microtasks_drain.
    + unfold task. rewrite isClosingRef_drain. apply isClosingRef_handleStopA.
  - intros b stream s.
    destruct (handleStartA_granted stream
                (PartA.closing_timeout (task (PartA.handleStop b) s)) eq_refl)
      as [H1 [H2 [H3 _]]].
    now split_all.
Qed.



(** ** Capture after a stop *)

Lemma onaudioprocessA_idle (p : Processor) (inputData : list Q) (s : State) :
  isClosingRef s = true \/ sessionPromiseRef s = None ->
  PartA.onaudioprocess p inputData s = s.
Proof.
  unfold PartA.onaudioprocess. intros [H | H]; rewrite H.
  - now rewrite orb_true_r.
  - simpl. now rewrite orb_true_r.
Qed.

Lemma onaudioprocessB_idle (p : Processor) (inputData : list Q) (s : State) :
  sessionPromiseRef s = None -> PartB.onaudioprocess p inputData s = s.
Proof.
  unfold PartB.onaudioprocess. intros H. rewrite H. now destruct (closure_isMuted p).
Qed.

Lemma sessionPromiseRef_handleStopA (b : bool) (s : State) :
  isClosingRef s = false -> sessionPromiseRef (PartA.handleStop b s) = None.
Proof. intros H. destruct_refs s; simpl in H; try discriminate H; vm_compute; reflexivity. Qed.

Lemma sessionPromiseRef_handleStopB (s : State) :
  sessionPromiseRef (PartB.handleStop s) = None.
Proof.
  destruct s as [? ? ? ? ? ? ? [[| |]|] ? ? [?|] ? [[| |]|] ? ? ? [|] [?|] ? ? ? ? ? ?];
    vm_compute; reflexivity.
Qed.

Lemma sessionPromiseRef_drain (s : State) : sessionPromiseRef (drain s) = sessionPromiseRef s.
Proof. now rewrite drain_emits. Qed.

(** X7: once a stop has run, a frame handed to the capture callback is
    neither sent nor queued, although the callback may still fire: on
    part_000 while the guard is set and, after the guard timer, because the
    connection cell is null; on part_001 because the connection cell is
    null. *)
Theorem no_frame_is_sent_after_stop (p : Processor) (inputData : list Q) :
  (forall (b : bool) (s : State),
      task (PartA.onaudioprocess p inputData) (task (PartA.handleStop b) s)
      = task (PartA.handleStop b) s)
  /\ (forall (b : bool) (s : State),
        isClosingRef s = false ->
        task (PartA.onaudioprocess p inputData)
          (PartA.closing_timeout (task (PartA.handleStop b) s))
        = PartA.closing_timeout (task (PartA.handleStop b) s))
  /\ (forall s : State,
        task (PartB.onaudioprocess p inputData) (task PartB.handleStop s)
        = task PartB.handleStop s).
Proof.
  split; [| split].
  - intros b s. unfold task at 1. rewrite onaudioprocessA_idle.
    + apply drain_quiescent. unfold task. apply microtasks_drain.
    + left. unfold task. rewrite isClosingRef_drain. apply isClosingRef_handleStopA.
  - intros b s H. unfold task at 1. rewrite onaudioprocessA_idle.
    + apply drain_quiescent. unfold task. now rewrite drain_emits.
    + right. unfold task. rewrite drain_emits. simpl.
      now apply sessionPromiseRef_handleStopA.
  - intros s. unfold task at 1. rewrite onaudioprocessB_idle.
    + apply drain_quiescent. unfold task. apply microtasks_drain.
    + unfold task. rewrite sessionPromiseRef_drain. apply sessionPromiseRef_handleStopB.
Qed.

Lemma no_frame_is_sent_after_stop_witness :
  task (PartA.onaudioprocess {| closure_isMuted := false |} frame_example)
    (PartA.closing_timeout (task (PartA.handleStop false) connectedA))
  = PartA.closing_timeout (task (PartA.handleStop false) connectedA).
Proof.
  destruct (no_frame_is_sent_after_stop {| closure_isMuted := false |} frame_example)
    as (_ & H & _).
  apply H. vm_compute. reflexivity.
Defined.

(** ** Samples beyond full scale *)

Lemma wrap16_above (n : Z) : 32768 <= n <= 65535 -> Js.wrap16 n = n - 65536.
Proof.
  intros H. unfold Js.wrap16.
  replace (n + 32768) with ((n - 32768) + 1 * 65536) by lia.
  rewrite Z.mod_add by lia. rewrite Z.mod_small by lia. lia.
Qed.

Lemma wrap16_below (n : Z) : -65535 <= n <= -32769 -> Js.wrap16 n = n + 65536.
Proof.
  intros H. unfold Js.wrap16.
  replace (n + 32768) with ((n + 32768 + 65536) + (-1) * 65536) by lia.
  rewrite Z.mod_add by lia. rewrite Z.mod_small by lia. lia.
Qed.

Lemma trunc_scaled_above (x : Q) :
  (1 <= x)%Q -> (x < 2)%Q -> 32768 <= Js.trunc (x * 32768) <= 65535.
Proof.
  destruct x as [p q]. unfold Qle, Qlt. simpl. intros Hlo Hhi.
  rewrite trunc_scaled.
  assert (32768 <= Z.quot (p * 32768) (Zpos q))
    by (apply Z.quot_le_lower_bound; lia).
  assert (Z.quot (p * 32768) (Zpos q) < 65536)
    by (apply Z.quot_lt_upper_bound; lia).
  lia.
Qed.

Lemma trunc_scaled_below (x : Q) :
  (-2 < x)%Q -> (x < -1)%Q -> -65535 <= Js.trunc (x * 32768) <= -32768.
Proof.
  destruct x as [p q]. unfold Qle, Qlt. simpl. intros Hlo Hhi.
  rewrite trunc_scaled.
  replace (p * 32768) with (- (- p * 32768)) by lia.
  rewrite Z.quot_opp_l by lia.
  assert (32768 <= Z.quot (- p * 32768) (Zpos q))
    by (apply Z.quot_le_lower_bound; lia).
  assert (Z.quot (- p * 32768) (Zpos q) < 65536)
    by (apply Z.quot_lt_upper_bound; lia).
  lia.
Qed.

Lemma trunc_scaled_well_below (x : Q) :
  (-2 < x)%Q -> (x <= -32769 # 32768)%Q -> -65535 <= Js.trunc (x * 32768) <= -32769.
Proof.
  destruct x as [p q]. unfold Qle, Qlt. simpl. intros Hlo Hhi.
  rewrite trunc_scaled.
  replace (p * 32768) with (- (- p * 32768)) by lia.
  rewrite Z.quot_opp_l by lia.
  assert (32769 <= Z.quot (- p * 32768) (Zpos q))
    by (apply Z.quot_le_lower_bound; lia).
  assert (Z.quot (- p * 32768) (Zpos q) < 65536)
    by (apply Z.quot_lt_upper_bound; lia).
  lia.
Qed.

(** X8: the conversion does not saturate.  A sample [x] with [1 <= x < 2]
    is stored as a negative value, [trunc(x * 32768) - 65536]; a sample
    with [-2 < x <= -32769/32768] is stored as a positive value,
    [trunc(x * 32768) + 65536]. *)
Theorem conversion_wraps_beyond_full_scale (inputData : list Q) (i : nat) (x : Q) :
  nth_error inputData i = Some x ->
  ((1 <= x)%Q -> (x < 2)%Q ->
     nth_error (int16_of_frame inputData) i = Some (Js.trunc (x * 32768) - 65536)
     /\ -32768 <= Js.trunc (x * 32768) - 65536 < 0)
  /\ ((-2 < x)%Q -> (x <= -32769 # 32768)%Q ->
        nth_error (int16_of_frame inputData) i = Some (Js.trunc (x * 32768) + 65536)
        /\ 0 < Js.trunc (x * 32768) + 65536 <= 32767).
Proof.
  intros Hx.
  assert (Hy : nth_error (int16_of_frame inputData) i
               = Some (Js.Int16Array_store (x * 32768)))
    by (unfold int16_of_frame; now rewrite nth_error_map, Hx).
  split; intros Hlo Hhi; rewrite Hy; unfold Js.Int16Array_store.
  - pose proof (trunc_scaled_above x Hlo Hhi) as Hb.
    rewrite wrap16_above by exact Hb. split; [reflexivity | lia].
  - pose proof (trunc_scaled_well_below x Hlo Hhi) as Hb.
    rewrite wrap16_below by lia. split; [reflexivity | lia].
Qed.

Lemma conversion_wraps_beyond_full_scale_witness :
  nth_error (int16_of_frame [(3 # 2)%Q; (-3 # 2)%Q]) 0 = Some (-16384)
  /\ nth_error (int16_of_frame [(3 # 2)%Q; (-3 # 2)%Q]) 1 = Some 16384.
Proof.
  destruct (conversion_wraps_beyond_full_scale [(3 # 2)%Q; (-3 # 2)%Q] 0 (3 # 2)%Q eq_refl)
    as [Hup _].
  destruct (conversion_wraps_beyond_full_scale [(3 # 2)%Q; (-3 # 2)%Q] 1 (-3 # 2)%Q eq_refl)
    as [_ Hdown].
  split.
  - destruct Hup as [H _]; [unfold Qle; simpl; lia | unfold Qlt; simpl; lia |].
    rewrite H. reflexivity.
  - destruct Hdown as [H _]; [unfold Qlt; simpl; lia | unfold Qle; simpl; lia |].
    rewrite H. reflexivity.
Defined.

(** ** The audio part of a message on the two front-ends *)

Lemma find_first_inline (ps : list Part) (p : Part) (d : Js.JsString) :
  find (fun q => is_some (inlineData q)) ps = Some p ->
  inlineData p = Some (Some d) ->
  Js.truthy d = true ->
  find (fun q => match inlineData q with
                 | Some (Some e) => Js.truthy e
                 | _ => false
                 end) ps = Some p.
Proof.
  induction ps as [| q ps IH]; simpl; [discriminate |].
  destruct (inlineData q) as [[e |] |] eqn:Hq; simpl.
  - intros H Hp Hd. injection H as ->. rewrite Hq in Hp. injection Hp as ->.
    now rewrite Hd.
  - intros H Hp Hd. injection H as ->. rewrite Hq in Hp. discriminate Hp.
  - exact IH.
Qed.

(** X10: whenever part_001 finds a non-empty audio payload in a message,
    part_000 finds the same one.  Not the other way round: part_001 stops
    at the first part that has [inlineData], part_000 at the first one whose
    data is not empty, so there is a message in which part_000 finds a
    payload and part_001 none. *)
Theorem part_001_payload_is_part_000_payload :
  (forall (m : LiveServerMessage) (d : Js.JsString),
      PartB.base64Audio m = Some d ->
      Js.truthy d = true ->
      PartA.base64Audio m = Some d)
  /\ (exists (m : LiveServerMessage) (d : Js.JsString),
        PartA.base64Audio m = Some d
        /\ Js.truthy d = true
        /\ PartB.base64Audio m = None).
Proof.
  split.
  - intros m d. unfold PartB.base64Audio, PartA.base64Audio.
    destruct (find (fun p => is_some (inlineData p)) (parts m)) as [p |] eqn:Hfind;
      [| discriminate].
    destruct (inlineData p) as [[e |] |] eqn:Hp; try discriminate.
    intros H Hd. injection H as ->.
    rewrite (find_first_inline (parts m) p d Hfind Hp Hd), Hp. reflexivity.
  - exists {| parts := [{| inlineData := Some None |};
                        {| inlineData := Some (Some (Js.of_string "A")) |}];
              interrupted := false; inputTranscription := None;
              outputTranscription := None; turnComplete := false |},
           (Js.of_string "A").
    split_all; reflexivity.
Qed.

Example part_000_reads_past_an_empty_payload :
  PartB.base64Audio
    {| parts := [{| inlineData := Some None |};
                 {| inlineData := Some (Some (Js.of_string "A")) |}];
       interrupted := false; inputTranscription := None; outputTranscription := None;
       turnComplete := false |} = None
  /\ PartA.base64Audio
       {| parts := [{| inlineData := Some None |};
                    {| inlineData := Some (Some (Js.of_string "A")) |}];
          interrupted := false; inputTranscription := None; outputTranscription := None;
          turnComplete := false |} = Some (Js.of_string "A").
Proof. split; reflexivity. Qed.

Lemma part_001_payload_is_part_000_payload_witness :
  PartA.base64Audio (audio_message "A") = Some (Js.of_string "A").
Proof.
  destruct part_001_payload_is_part_000_payload as [H _].
  apply H; reflexivity.
Defined.

(** ** Starts in any order of arrivals and settlings *)

Lemma clock_covers_raise (s s' : State) (ps : list PendingDecode) :
  nextStartTimeRef s <= nextStartTimeRef s' ->
  clock_covers (s, ps) -> clock_covers (s', ps).
Proof.
  unfold clock_covers. cbn [fst snd]. intros Hle H.
  eapply Forall_impl; [| exact H]. cbn beta. intros p (Hi & Hr & Hf). split_all; [exact Hi | lia | lia].
Qed.

Section AnyOrder.

Variable decodeAudioData : Js.JsString -> option AudioBuffer.

Hypothesis durations : forall b64 buf, decodeAudioData b64 = Some buf -> 0 <= duration buf.

Lemma arrivalA_starts_nothing (now t : Z) (m : LiveServerMessage)
    (x : State * list PendingDecode) :
  scheduled_starts
    (trace (fst (deliver_one PartA.onmessage_before_await PartA.onmessage_after_await decodeAudioData
                   (Arrives now t m) x)))
  = scheduled_starts (trace (fst x)).
Proof.
  cbn [deliver_one].
  pose proof (before_awaitA_effect now t m (fst x)) as H.
  destruct (PartA.onmessage_before_await now t m (fst x)) as [s' | b64 s']; cbn [fst].
  - subst s'. now destruct (after_audio_effect now m (fst x)) as (_ & _ & _ & As & _).
  - now destruct H as (_ & Hs & _).
Qed.

Lemma arrivalB_starts_nothing (now t : Z) (m : LiveServerMessage)
    (x : State * list PendingDecode) :
  scheduled_starts
    (trace (fst (deliver_one PartB.onmessage_before_await PartB.onmessage_after_await decodeAudioData
                   (Arrives now t m) x)))
  = scheduled_starts (trace (fst x)).
Proof.
  cbn [deliver_one].
  pose proof (before_awaitB_effect now t m (fst x)) as H.
  destruct (PartB.onmessage_before_await now t m (fst x)) as [s' | b64 s']; cbn [fst].
  - subst s'. now destruct (after_audio_effect now m (fst x)) as (_ & _ & _ & As & _).
  - now destruct H as (_ & Hs & _).
Qed.

(** A settling starts at most one source, at the clock it finds. *)
Lemma settlingA_starts (i : nat) (now : Z) (x : State * list PendingDecode) :
  exists l,
    scheduled_starts
      (trace (fst (deliver_one PartA.onmessage_before_await PartA.onmessage_after_await
                     decodeAudioData (DecodeSettles i now) x)))
    = scheduled_starts (trace (fst x)) ++ l
    /\ (l = [] \/ l = [nextStartTimeRef (fst x)]).
Proof.
  cbn [deliver_one].
  destruct (nth_error (snd x) i) as [p |];
    [| exists []; rewrite app_nil_r; split; [reflexivity | now left]].
  cbn [fst].
  destruct (decodeAudioData (awaiting_payload p)) as [buf |].
  - destruct (after_awaitA_decoded now (awaiting_message p) buf (fst x))
      as (s1 & -> & _ & Hs & _).
    cbn [state_of].
    destruct (after_audio_effect now (awaiting_message p) s1) as (_ & _ & _ & As & _).
    rewrite As, Hs. eexists. split; [reflexivity | now right].
  - exists []. rewrite app_nil_r. split; [reflexivity | now left].
Qed.

Lemma settlingB_starts (i : nat) (now : Z) (x : State * list PendingDecode) :
  exists l,
    scheduled_starts
      (trace (fst (deliver_one PartB.onmessage_before_await PartB.onmessage_after_await
                     decodeAudioData (DecodeSettles i now) x)))
    = scheduled_starts (trace (fst x)) ++ l
    /\ (l = [] \/ l = [nextStartTimeRef (fst x)]).
Proof.
  cbn [deliver_one].
  destruct (nth_error (snd x) i) as [p |];
    [| exists []; rewrite app_nil_r; split; [reflexivity | now left]].
  cbn [fst].
  destruct (decodeAudioData (awaiting_payload p)) as [buf |].
  - destruct (mixerRef (fst x)) eqn:Hm.
    + destruct (after_awaitB_decoded now (awaiting_message p) buf (fst x) Hm)
        as (s1 & -> & _ & Hs & _).
      cbn [state_of].
      destruct (after_audio_effect now (awaiting_message p) s1) as (_ & _ & _ & As & _).
      rewrite As, Hs. eexists. split; [reflexivity | now right].
    + destruct (after_awaitB_no_mixer now (awaiting_message p) buf (fst x) Hm)
        as (s1 & -> & _ & Hs & _).
      cbn [state_of]. rewrite Hs. exists []. rewrite app_nil_r.
      split; [reflexivity | now left].
  - exists []. rewrite app_nil_r. split; [reflexivity | now left].
Qed.

Lemma deliver_oneA_covers (ev : Delivery) (x : State * list PendingDecode) :
  no_interruption ev = true ->
  clock_covers x ->
  clock_covers (deliver_one PartA.onmessage_before_await PartA.onmessage_after_await decodeAudioData
                  ev x).
Proof.
  intros Hev Hx. destruct x as [s ps]. destruct ev as [now t m | i now]; cbn [deliver_one fst snd].
  - cbn [no_interruption] in Hev. apply negb_true_iff in Hev.
    pose proof (before_awaitA_effect now t m s) as H.
    destruct (PartA.onmessage_before_await now t m s) as [s' | b64 s'].
    + subst s'. apply (clock_covers_raise s); [| exact Hx].
      destruct (after_audio_effect now m s) as (An & _). rewrite An, Hev. lia.
    + destruct H as (Hn & _).
      unfold clock_covers. cbn [fst snd]. apply Forall_app. split.
      * apply (clock_covers_raise s s' ps); [rewrite Hn; lia | exact Hx].
      * constructor; [| constructor]. cbn. rewrite Hn. split_all; [exact Hev | lia | lia].
  - destruct (nth_error ps i) as [p |] eqn:Hp; [| exact Hx].
    assert (Hpi : interrupted (awaiting_message p) = false).
    { unfold clock_covers in Hx. cbn [snd] in Hx. rewrite Forall_forall in Hx.
      apply (Hx p). eapply nth_error_In. exact Hp. }
    assert (Hrest : clock_covers (s, remove_nth i ps))
      by (now apply Forall_remove_nth).
    destruct (decodeAudioData (awaiting_payload p)) as [buf |] eqn:Hd.
    + destruct (after_awaitA_decoded now (awaiting_message p) buf s)
        as (s1 & -> & Hn & _).
      cbn [state_of].
      apply (clock_covers_raise s); [| exact Hrest].
      destruct (after_audio_effect now (awaiting_message p) s1) as (An & _).
      rewrite An, Hpi, Hn. pose proof (durations _ _ Hd). lia.
    + exact Hrest.
Qed.

Lemma deliver_oneB_covers (ev : Delivery) (x : State * list PendingDecode) :
  no_interruption ev = true ->
  clock_covers x ->
  clock_covers (deliver_one PartB.onmessage_before_await PartB.onmessage_after_await decodeAudioData
                  ev x).
Proof.
  intros Hev Hx. destruct x as [s ps]. destruct ev as [now t m | i now]; cbn [deliver_one fst snd].
  - cbn [no_interruption] in Hev. apply negb_true_iff in Hev.
    pose proof (before_awaitB_effect now t m s) as H.
    destruct (PartB.onmessage_before_await now t m s) as [s' | b64 s'].
    + subst s'. apply (clock_covers_raise s); [| exact Hx].
      destruct (after_audio_effect now m s) as (An & _). rewrite An, Hev. lia.
    + destruct H as (Hn & _).
      unfold clock_covers. cbn [fst snd]. apply Forall_app. split.
      * apply (clock_covers_raise s s' ps); [rewrite Hn; lia | exact Hx].
      * constructor; [| constructor]. cbn. rewrite Hn. split_all; [exact Hev | lia | lia].
  - destruct (nth_error ps i) as [p |] eqn:Hp; [| exact Hx].
    assert (Hpi : interrupted (awaiting_message p) = false).
    { unfold clock_covers in Hx. cbn [snd] in Hx. rewrite Forall_forall in Hx.
      apply (Hx p). eapply nth_error_In. exact Hp. }
    assert (Hrest : clock_covers (s, remove_nth i ps))
      by (now apply Forall_remove_nth).
    destruct (decodeAudioData (awaiting_payload p)) as [buf |] eqn:Hd.
    + destruct (mixerRef s) eqn:Hm.
      * destruct (after_awaitB_decoded now (awaiting_message p) buf s Hm)
          as (s1 & -> & Hn & _).
        cbn [state_of].
        apply (clock_covers_raise s); [| exact Hrest].
        destruct (after_audio_effect now (awaiting_message p) s1) as (An & _).
        rewrite An, Hpi, Hn. pose proof (durations _ _ Hd). lia.
      * destruct (after_awaitB_no_mixer now (awaiting_message p) buf s Hm)
          as (s1 & -> & Hn & _).
        cbn [state_of]. apply (clock_covers_raise s); [rewrite Hn; lia | exact Hrest].
    + exact Hrest.
Qed.

Lemma deliveriesA_cover (evs : list Delivery) (x : State * list PendingDecode) :
  forallb no_interruption evs = true ->
  clock_covers x ->
  clock_covers (deliveriesA decodeAudioData evs x).
Proof.
  revert x. induction evs as [| ev evs IH]; intros x Hevs Hx; [exact Hx |].
  cbn [forallb] in Hevs. apply andb_prop in Hevs. destruct Hevs as [Hev Hevs].
  unfold deliveriesA, deliveries. cbn [fold_left].
  apply (IH _ Hevs). now apply deliver_oneA_covers.
Qed.

Lemma deliveriesB_cover (evs : list Delivery) (x : State * list PendingDecode) :
  forallb no_interruption evs = true ->
  clock_covers x ->
  clock_covers (deliveriesB decodeAudioData evs x).
Proof.
  revert x. induction evs as [| ev evs IH]; intros x Hevs Hx; [exact Hx |].
  cbn [forallb] in Hevs. apply andb_prop in Hevs. destruct Hevs as [Hev Hevs].
  unfold deliveriesB, deliveries. cbn [fold_left].
  apply (IH _ Hevs). now apply deliver_oneB_covers.
Qed.

(** X9: in any order of message arrivals and decode settlings in which no
    message carries an interruption, and with a decoder that gives no
    negative duration, the settling of a pending decoding starts at most
    one source, and never before [currentTime] as read at the arrival of
    its message nor before the clock that arrival found; an arrival starts
    nothing.  On both front-ends. *)
Theorem never_scheduled_in_the_past (evs : list Delivery)
    (x : State * list PendingDecode) :
  clock_covers x ->
  forallb no_interruption evs = true ->
  (forall (i : nat) (now : Z) (p : PendingDecode),
      nth_error (snd (deliveriesA decodeAudioData evs x)) i = Some p ->
      exists l,
        scheduled_starts
          (trace (fst (deliver_one PartA.onmessage_before_await PartA.onmessage_after_await
                         decodeAudioData (DecodeSettles i now)
                         (deliveriesA decodeAudioData evs x))))
        = scheduled_starts (trace (fst (deliveriesA decodeAudioData evs x))) ++ l
        /\ (List.length l <= 1)%nat
        /\ Forall (fun w => read_currentTime p <= w /\ found_clock p <= w) l)
  /\ (forall (i : nat) (now : Z) (p : PendingDecode),
        nth_error (snd (deliveriesB decodeAudioData evs x)) i = Some p ->
        exists l,
          scheduled_starts
            (trace (fst (deliver_one PartB.onmessage_before_await PartB.onmessage_after_await
                           decodeAudioData (DecodeSettles i now)
                           (deliveriesB decodeAudioData evs x))))
          = scheduled_starts (trace (fst (deliveriesB decodeAudioData evs x))) ++ l
          /\ (List.length l <= 1)%nat
          /\ Forall (fun w => read_currentTime p <= w /\ found_clock p <= w) l)
  /\ (forall (now t : Z) (m : LiveServerMessage) (y : State * list PendingDecode),
        scheduled_starts
          (trace (fst (deliver_one PartA.onmessage_before_await PartA.onmessage_after_await
                         decodeAudioData (Arrives now t m) y)))
        = scheduled_starts (trace (fst y))
        /\ scheduled_starts
             (trace (fst (deliver_one PartB.onmessage_before_await PartB.onmessage_after_await
                            decodeAudioData (Arrives now t m) y)))
           = scheduled_starts (trace (fst y))).
Proof.
  intros Hx Hevs. split_all.
  - intros i now p Hp.
    pose proof (deliveriesA_cover evs x Hevs Hx) as Hc.
    destruct (settlingA_starts i now (deliveriesA decodeAudioData evs x))
      as (l & Hl & Hcase).
    exists l. split; [exact Hl |].
    unfold clock_covers in Hc. rewrite Forall_forall in Hc.
    destruct (Hc p (nth_error_In _ _ Hp)) as (_ & Hr & Hf).
    destruct Hcase as [-> | ->]; split; cbn; try lia; repeat constructor; assumption.
  - intros i now p Hp.
    pose proof (deliveriesB_cover evs x Hevs Hx) as Hc.
    destruct (settlingB_starts i now (deliveriesB decodeAudioData evs x))
      as (l & Hl & Hcase).
    exists l. split; [exact Hl |].
    unfold clock_covers in Hc. rewrite Forall_forall in Hc.
    destruct (Hc p (nth_error_In _ _ Hp)) as (_ & Hr & Hf).
    destruct Hcase as [-> | ->]; split; cbn; try lia; repeat constructor; assumption.
  - intros now t m y. split; [apply arrivalA_starts_nothing | apply arrivalB_starts_nothing].
Qed.

End AnyOrder.

Lemma never_scheduled_in_the_past_witness :
  exists l,
    scheduled_starts
      (trace (fst (deliver_one PartA.onmessage_before_await PartA.onmessage_after_await
                     sample_decoder (DecodeSettles 1 0)
                     (deliveriesA sample_decoder (firstn 2 overlapping_chunks)
                        (connectedA, [])))))
    = scheduled_starts
        (trace (fst (deliveriesA sample_decoder (firstn 2 overlapping_chunks)
                       (connectedA, [])))) ++ l
    /\ (List.length l <= 1)%nat
    /\ Forall (fun w => 60000 <= w /\ 0 <= w) l.
Proof.
  assert (Hc : clock_covers (connectedA, [])) by constructor.
  assert (He : forallb no_interruption (firstn 2 overlapping_chunks) = true)
    by (vm_compute; reflexivity).
  assert (Hp : nth_error (snd (deliveriesA sample_decoder (firstn 2 overlapping_chunks)
                                 (connectedA, []))) 1 = Some second_chunk_pending)
    by (vm_compute; reflexivity).
  destruct (never_scheduled_in_the_past sample_decoder sample_decoder_durations
              (firstn 2 overlapping_chunks) (connectedA, []) Hc He) as (HA & _).
  exact (HA 1%nat 0 second_chunk_pending Hp).
Defined.

(** With an interruption handled while a chunk is being decoded the chunk
    is started at 0, before the [currentTime] (2.5 s) read at its arrival,
    and is left playing in the set the interruption had cleared. *)
Example interrupted_decode_starts_in_the_past :
  startsA sample_decoder barge_in_during_decode (connectedA, []) = [0]
  /\ startsB sample_decoder barge_in_during_decode (connectedB, []) = [0]
  /\ List.length
       (activeSourcesRef (fst (deliveriesA sample_decoder barge_in_during_decode
                                 (connectedA, [])))) = 1%nat.
Proof. split_all; vm_compute; reflexivity. Qed.


(** ** What the callbacks leave alone *)

(** Case analysis on every cell a handler tests. *)
Ltac destruct_cells s :=
  destruct s as [? ? ? ? ? ? ? [[| |]|] ? ? [?|] [|] [[| |]|] ? ? [?|] [|] [?|] [|] ? ? ? ? ?].

Lemma same_cells_refl (s : State) : same_cells s s.
Proof. unfold same_cells. split_all; reflexivity. Qed.

Lemma same_cells_drain (s : State) : same_cells s (drain s).
Proof. rewrite drain_emits. unfold same_cells. split_all; reflexivity. Qed.

Lemma same_cells_trans (s1 s2 s3 : State) :
  same_cells s1 s2 -> same_cells s2 s3 -> same_cells s1 s3.
Proof.
  unfold same_cells. intros [A1 [A2 [A3 A4]]] [B1 [B2 [B3 B4]]].
  split_all; congruence.
Qed.

Lemma same_cells_task (h : State -> State) (s : State) :
  same_cells s (h s) -> same_cells s (task h s).
Proof. intros H. eapply same_cells_trans; [exact H | apply same_cells_drain]. Qed.

Lemma after_audio_untouched (now : Z) (m : LiveServerMessage) (s : State) :
  recordedChunksRef (after_audio now m s) = recordedChunksRef s
  /\ hasAudioData (after_audio now m s) = hasAudioData s
  /\ audioUrlRef (after_audio now m s) = audioUrlRef s
  /\ microtasks (after_audio now m s) = microtasks s.
Proof.
  unfold after_audio, on_transcriptions, turn_complete. cbv zeta.
  destruct (interrupted m), (inputTranscription m), (outputTranscription m), (turnComplete m);
    repeat match goal with
           | |- context [if Js.truthy ?c then _ else _] => destruct (Js.truthy c)
           end;
    split_all; reflexivity.
Qed.

Lemma handleStopA_same (b : bool) (s : State) : same_cells s (PartA.handleStop b s).
Proof. unfold same_cells. destruct_cells s; split_all; vm_compute; reflexivity. Qed.

Lemma handleStopB_same (s : State) : same_cells s (PartB.handleStop s).
Proof. unfold same_cells. destruct_cells s; split_all; vm_compute; reflexivity. Qed.

Lemma onopenA_same (s : State) : same_cells s (PartA.onopen s).
Proof. unfold same_cells. split_all; reflexivity. Qed.

Lemma onopenB_same (s : State) : same_cells s (PartB.onopen s).
Proof. unfold same_cells. split_all; reflexivity. Qed.

Lemma onerrorA_same (s : State) : same_cells s (PartA.onerror s).
Proof. unfold same_cells. destruct_cells s; split_all; vm_compute; reflexivity. Qed.

Lemma onerrorB_same (s : State) : same_cells s (PartB.onerror s).
Proof. unfold same_cells. destruct_cells s; split_all; vm_compute; reflexivity. Qed.

Lemma oncloseA_same (s : State) : same_cells s (PartA.onclose s).
Proof. unfold same_cells. destruct_cells s; split_all; vm_compute; reflexivity. Qed.

Lemma settle_same (s : State) :
  same_cells s (sessionPromise_fulfilled s) /\ same_cells s (sessionPromise_rejected s).
Proof.
  unfold sessionPromise_fulfilled, sessionPromise_rejected. cbv zeta.
  rewrite drain_emits. unfold same_cells.
  destruct (sessionPromiseRef s) as [[| |] |]; split_all; reflexivity.
Qed.

Lemma audioprocessA_same (inputData : list Q) (s : State) :
  same_cells s (PartA.audioprocess inputData s).
Proof.
  unfold PartA.audioprocess.
  destruct (processorNodeRef s) as [p |]; [| apply same_cells_refl].
  apply same_cells_task. unfold PartA.onaudioprocess, same_cells.
  destruct (closure_isMuted p || isClosingRef s || negb (is_some (sessionPromiseRef s)));
    [split_all; reflexivity |].
  destruct (sessionPromiseRef s) as [[| |] |]; split_all; reflexivity.
Qed.

Lemma audioprocessB_same (inputData : list Q) (s : State) :
  same_cells s (PartB.audioprocess inputData s).
Proof.
  unfold PartB.audioprocess.
  destruct (processorNodeRef s) as [p |]; [| apply same_cells_refl].
  apply same_cells_task. unfold PartB.onaudioprocess, same_cells.
  destruct (closure_isMuted p); [split_all; reflexivity |].
  destruct (sessionPromiseRef s) as [[| |] |]; split_all; reflexivity.
Qed.

Lemma after_awaitA_same (muted : bool) (media : option MediaStream) (s : State) :
  same_cells s (handleStartA_after_await muted media s).
Proof. unfold same_cells. destruct media; split_all; reflexivity. Qed.

Lemma after_awaitB_same (muted : bool) (media : option MediaStream) (s : State) :
  same_cells s (handleStartB_after_await muted media s).
Proof. unfold same_cells. destruct media; split_all; reflexivity. Qed.

Section Bystanders.

Variable decodeAudioData : Js.JsString -> option AudioBuffer.

Lemma dispatchA_bystander (cb : Callback) (s : State) :
  is_bystander cb = true -> same_cells s (dispatchA decodeAudioData cb s).
Proof.
  destruct cb; simpl; intros H; try discriminate H.
  - apply after_awaitA_same.
  - apply same_cells_task, handleStopA_same.
  - unfold same_cells, toggleMute. split_all; reflexivity.
  - apply same_cells_task, onopenA_same.
  - apply same_cells_task, onerrorA_same.
  - apply same_cells_task, oncloseA_same.
  - apply settle_same.
  - apply settle_same.
  - unfold same_cells. split_all; reflexivity.
  - apply audioprocessA_same.
  - unfold same_cells. split_all; reflexivity.
Qed.

Lemma dispatchB_bystander (cb : Callback) (s : State) :
  is_bystander cb = true -> same_cells s (dispatchB decodeAudioData cb s).
Proof.
  destruct cb; simpl; intros H; try discriminate H.
  - apply after_awaitB_same.
  - apply same_cells_task, handleStopB_same.
  - unfold same_cells, toggleMute. split_all; reflexivity.
  - apply same_cells_task, onopenB_same.
  - apply same_cells_task, onerrorB_same.
  - apply same_cells_task. unfold PartB.onclose. apply handleStopB_same.
  - apply settle_same.
  - apply settle_same.
  - apply same_cells_refl.
  - apply audioprocessB_same.
  - unfold same_cells. split_all; reflexivity.
Qed.

End Bystanders.

(** ** The transcript and the recording over any sequence of callbacks *)

Lemma concat_nonempty (bs : list Blob) :
  List.concat (filter nonempty_blob bs) = List.concat bs.
Proof.
  induction bs as [| b bs IH]; simpl; [reflexivity |].
  destruct b; simpl; [exact IH | now rewrite IH].
Qed.

Lemma deliver_cons (dispatch : Callback -> State -> State) (cb : Callback)
    (cbs : list Callback) (s : State) :
  deliver dispatch (cb :: cbs) s = deliver dispatch cbs (dispatch cb s).
Proof. reflexivity. Qed.

Section Sequences.

Variable decodeAudioData : Js.JsString -> option AudioBuffer.

Lemma schedule_audioA_recording (t : Z) (m : LiveServerMessage) (s : State) :
  recordedChunksRef (state_of (PartA.schedule_audio decodeAudioData t m s))
  = recordedChunksRef s
  /\ hasAudioData (state_of (PartA.schedule_audio decodeAudioData t m s)) = hasAudioData s
  /\ audioUrlRef (state_of (PartA.schedule_audio decodeAudioData t m s)) = audioUrlRef s
  /\ microtasks (state_of (PartA.schedule_audio decodeAudioData t m s)) = microtasks s.
Proof.
  rewrite !schedule_audioA_unfold.
  destruct (PartA.base64Audio m) as [b64 |]; [| split_all; reflexivity].
  destruct (Js.truthy b64 && outputAudioContextRef s); [| split_all; reflexivity].
  cbv zeta.
  destruct (decodeAudioData b64) as [buf |]; [| split_all; reflexivity].
  change (mixerRef (emit ?e (with_sourcesCreated ?n
           (with_nextStartTimeRef ?z (setIsProcessing ?b s))))) with (mixerRef s).
  destruct (mixerRef s); split_all; reflexivity.
Qed.

Lemma schedule_audioB_recording (t : Z) (m : LiveServerMessage) (s : State) :
  recordedChunksRef (state_of (PartB.schedule_audio decodeAudioData t m s))
  = recordedChunksRef s
  /\ hasAudioData (state_of (PartB.schedule_audio decodeAudioData t m s)) = hasAudioData s
  /\ audioUrlRef (state_of (PartB.schedule_audio decodeAudioData t m s)) = audioUrlRef s
  /\ microtasks (state_of (PartB.schedule_audio decodeAudioData t m s)) = microtasks s.
Proof.
  rewrite !schedule_audioB_unfold.
  destruct (PartB.base64Audio m) as [b64 |]; [| split_all; reflexivity].
  destruct (Js.truthy b64 && outputAudioContextRef s); [| split_all; reflexivity].
  cbv zeta.
  destruct (decodeAudioData b64) as [buf |]; [| split_all; reflexivity].
  change (mixerRef (emit ?e (with_sourcesCreated ?n
           (with_nextStartTimeRef ?z (setIsProcessing ?b s))))) with (mixerRef s).
  destruct (mixerRef s); split_all; reflexivity.
Qed.

(** A message changes the transcript by appending to it, if at all, and
    leaves the recording cells alone. *)
Lemma onmessageA_appends (now t : Z) (m : LiveServerMessage) (s : State) :
  (exists added,
      transcriptions (state_of (PartA.onmessage decodeAudioData now t m s))
      = transcriptions s ++ added)
  /\ recordedChunksRef (state_of (PartA.onmessage decodeAudioData now t m s))
     = recordedChunksRef s
  /\ hasAudioData (state_of (PartA.onmessage decodeAudioData now t m s)) = hasAudioData s
  /\ audioUrlRef (state_of (PartA.onmessage decodeAudioData now t m s)) = audioUrlRef s.
Proof.
  destruct (schedule_audioA_frame decodeAudioData t m s) as [Ft _].
  destruct (schedule_audioA_recording t m s) as [Fr [Fh [Fu _]]].
  unfold PartA.onmessage.
  destruct (PartA.schedule_audio decodeAudioData t m s) as [s1 | s1]; simpl in *.
  - destruct (after_audio_effect now m s1) as [_ [_ [_ [_ [At _]]]]].
    destruct (after_audio_untouched now m s1) as [Ar [Ah [Au _]]].
    rewrite At, Ar, Ah, Au, Ft, Fr, Fh, Fu. split_all; try reflexivity.
    destruct (turnComplete m); eexists; [reflexivity | now rewrite app_nil_r].
  - rewrite Ft, Fr, Fh, Fu. split_all; try reflexivity.
    exists []. now rewrite app_nil_r.
Qed.

Lemma onmessageB_appends (now t : Z) (m : LiveServerMessage) (s : State) :
  (exists added,
      transcriptions (state_of (PartB.onmessage decodeAudioData now t m s))
      = transcriptions s ++ added)
  /\ recordedChunksRef (state_of (PartB.onmessage decodeAudioData now t m s))
     = recordedChunksRef s
  /\ hasAudioData (state_of (PartB.onmessage decodeAudioData now t m s)) = hasAudioData s
  /\ audioUrlRef (state_of (PartB.onmessage decodeAudioData now t m s)) = audioUrlRef s.
Proof.
  destruct (schedule_audioB_frame decodeAudioData t m s) as [Ft _].
  destruct (schedule_audioB_recording t m s) as [Fr [Fh [Fu _]]].
  unfold PartB.onmessage.
  destruct (PartB.schedule_audio decodeAudioData t m s) as [s1 | s1]; simpl in *.
  - destruct (after_audio_effect now m s1) as [_ [_ [_ [_ [At _]]]]].
    destruct (after_audio_untouched now m s1) as [Ar [Ah [Au _]]].
    rewrite At, Ar, Ah, Au, Ft, Fr, Fh, Fu. split_all; try reflexivity.
    destruct (turnComplete m); eexists; [reflexivity | now rewrite app_nil_r].
  - rewrite Ft, Fr, Fh, Fu. split_all; try reflexivity.
    exists []. now rewrite app_nil_r.
Qed.

Lemma before_awaitA_cells (s s0 : State) :
  handleStartA_before_await s = Some s0 ->
  transcriptions s0 = transcriptions s /\ recordedChunksRef s0 = []
  /\ hasAudioData s0 = false /\ audioUrlRef s0 = None.
Proof.
  unfold handleStartA_before_await.
  destruct (isClosingRef s); [discriminate |].
  intros H. injection H as <-. cbv zeta.
  change (audioUrlRef (setHasAudioData false (setErrorMessage None s)))
    with (audioUrlRef s).
  destruct (audioUrlRef s); split_all; reflexivity.
Qed.

Lemma before_awaitB_cells (s : State) :
  transcriptions (handleStartB_before_await s) = transcriptions s
  /\ recordedChunksRef (handleStartB_before_await s) = []
  /\ hasAudioData (handleStartB_before_await s) = false
  /\ audioUrlRef (handleStartB_before_await s) = None.
Proof.
  unfold handleStartB_before_await. cbv zeta.
  change (audioUrlRef (setHasAudioData false (setErrorMessage None s)))
    with (audioUrlRef s).
  destruct (audioUrlRef s); split_all; reflexivity.
Qed.

Lemma dispatchA_transcript (cb : Callback) (s : State) :
  exists added,
    transcriptions (dispatchA decodeAudioData cb s) = transcriptions s ++ added.
Proof.
  destruct (is_bystander cb) eqn:Hb.
  - destruct (dispatchA_bystander decodeAudioData cb s Hb) as [H _].
    exists []. now rewrite app_nil_r.
  - destruct cb; try discriminate Hb; simpl.
    + destruct (handleStartA_before_await s) as [s0 |] eqn:H0.
      * destruct (before_awaitA_cells s s0 H0) as [H _].
        exists []. now rewrite app_nil_r.
      * exists []. now rewrite app_nil_r.
    + apply onmessageA_appends.
    + exists []. rewrite app_nil_r. now destruct e_data.
    + exists []. now rewrite app_nil_r.
Qed.

Lemma dispatchB_transcript (cb : Callback) (s : State) :
  exists added,
    transcriptions (dispatchB decodeAudioData cb s) = transcriptions s ++ added.
Proof.
  destruct (is_bystander cb) eqn:Hb.
  - destruct (dispatchB_bystander decodeAudioData cb s Hb) as [H _].
    exists []. now rewrite app_nil_r.
  - destruct cb; try discriminate Hb; simpl.
    + destruct (before_awaitB_cells s) as [H _].
      exists []. now rewrite app_nil_r.
    + apply onmessageB_appends.
    + exists []. rewrite app_nil_r. now destruct e_data.
    + exists []. now rewrite app_nil_r.
Qed.

(** X12: no callback, in any order and number, removes, changes or
    reorders an entry of the transcript: the transcript after any sequence
    of callbacks is the one before it followed by what was appended.  A
    new start does not clear it. *)
Theorem transcript_only_grows (cbs : list Callback) (s : State) :
  (exists added,
      transcriptions (deliver (dispatchA decodeAudioData) cbs s) = transcriptions s ++ added)
  /\ (exists added,
        transcriptions (deliver (dispatchB decodeAudioData) cbs s)
        = transcriptions s ++ added).
Proof.
  split; revert s; induction cbs as [| cb cbs IH]; intros s.
  - exists []. now rewrite app_nil_r.
  - rewrite deliver_cons.
    destruct (dispatchA_transcript cb s) as [a Ha].
    destruct (IH (dispatchA decodeAudioData cb s)) as [b Hb].
    exists (a ++ b). now rewrite Hb, Ha, app_assoc.
  - exists []. now rewrite app_nil_r.
  - rewrite deliver_cons.
    destruct (dispatchB_transcript cb s) as [a Ha].
    destruct (IH (dispatchB decodeAudioData cb s)) as [b Hb].
    exists (a ++ b). now rewrite Hb, Ha, app_assoc.
Qed.

End Sequences.

Section Recording.

Variable decodeAudioData : Js.JsString -> option AudioBuffer.

Lemma dispatchA_button (cb : Callback) (s : State) :
  recording_button_works s -> recording_button_works (dispatchA decodeAudioData cb s).
Proof.
  unfold recording_button_works. intros Hs.
  destruct (is_bystander cb) eqn:Hb.
  - destruct (dispatchA_bystander decodeAudioData cb s Hb) as [_ [_ [Hh Hu]]].
    now rewrite Hh, Hu.
  - destruct cb; try discriminate Hb; cbn [dispatchA dispatchB].
    + destruct (handleStartA_before_await s) as [s0 |] eqn:H0; [| exact Hs].
      destruct (before_awaitA_cells s s0 H0) as [_ [_ [Hh _]]].
      rewrite Hh. discriminate.
    + destruct (onmessageA_appends decodeAudioData now currentTime m s) as [_ [_ [Hh Hu]]].
      now rewrite Hh, Hu.
    + now destruct e_data.
    + intros _. discriminate.
Qed.

Lemma dispatchB_button (cb : Callback) (s : State) :
  recording_button_works s -> recording_button_works (dispatchB decodeAudioData cb s).
Proof.
  unfold recording_button_works. intros Hs.
  destruct (is_bystander cb) eqn:Hb.
  - destruct (dispatchB_bystander decodeAudioData cb s Hb) as [_ [_ [Hh Hu]]].
    now rewrite Hh, Hu.
  - destruct cb; try discriminate Hb; cbn [dispatchA dispatchB].
    + destruct (before_awaitB_cells s) as [_ [_ [Hh _]]].
      rewrite Hh. discriminate.
    + destruct (onmessageB_appends decodeAudioData now currentTime m s) as [_ [_ [Hh Hu]]].
      now rewrite Hh, Hu.
    + now destruct e_data.
    + intros _. discriminate.
Qed.

(** X14: whenever the recording button is enabled ([hasAudioData]) there
    is a URL for [downloadAudio] to use; no sequence of callbacks breaks
    that. *)
Theorem recording_button_always_works (cbs : list Callback) (s : State) :
  recording_button_works s ->
  recording_button_works (deliver (dispatchA decodeAudioData) cbs s)
  /\ recording_button_works (deliver (dispatchB decodeAudioData) cbs s).
Proof.
  intros Hs. split; revert s Hs; induction cbs as [| cb cbs IH]; intros s Hs;
    try exact Hs; rewrite deliver_cons; apply IH.
  - now apply dispatchA_button.
  - now apply dispatchB_button.
Qed.

(** The chunk list after callbacks among which no start was clicked. *)
Lemma dispatchA_chunks (cb : Callback) (s : State) :
  is_start_click cb = false ->
  recordedChunksRef (dispatchA decodeAudioData cb s)
  = recordedChunksRef s ++ filter nonempty_blob (delivered_data [cb]).
Proof.
  intros Hc.
  destruct (is_bystander cb) eqn:Hb.
  - destruct (dispatchA_bystander decodeAudioData cb s Hb) as [_ [Hr _]].
    rewrite Hr. destruct cb; try discriminate Hb; simpl; now rewrite app_nil_r.
  - destruct cb; try discriminate Hb; try discriminate Hc;
      cbn [dispatchA dispatchB delivered_data flat_map app filter nonempty_blob].
    + destruct (onmessageA_appends decodeAudioData now currentTime m s) as [_ [Hr _]].
      now rewrite Hr, app_nil_r.
    + destruct e_data; simpl; [now rewrite app_nil_r | reflexivity].
    + now rewrite app_nil_r.
Qed.

Lemma dispatchB_chunks (cb : Callback) (s : State) :
  is_start_click cb = false ->
  recordedChunksRef (dispatchB decodeAudioData cb s)
  = recordedChunksRef s ++ filter nonempty_blob (delivered_data [cb]).
Proof.
  intros Hc.
  destruct (is_bystander cb) eqn:Hb.
  - destruct (dispatchB_bystander decodeAudioData cb s Hb) as [_ [Hr _]].
    rewrite Hr. destruct cb; try discriminate Hb; simpl; now rewrite app_nil_r.
  - destruct cb; try discriminate Hb; try discriminate Hc;
      cbn [dispatchA dispatchB delivered_data flat_map app filter nonempty_blob].
    + destruct (onmessageB_appends decodeAudioData now currentTime m s) as [_ [Hr _]].
      now rewrite Hr, app_nil_r.
    + destruct e_data; simpl; [now rewrite app_nil_r | reflexivity].
    + now rewrite app_nil_r.
Qed.

Lemma delivered_data_cons (cb : Callback) (cbs : list Callback) :
  delivered_data (cb :: cbs) = delivered_data [cb] ++ delivered_data cbs.
Proof. unfold delivered_data. simpl. now rewrite app_nil_r. Qed.

Lemma deliverA_chunks (cbs : list Callback) :
  forall s : State,
    existsb is_start_click cbs = false ->
    recordedChunksRef (deliver (dispatchA decodeAudioData) cbs s)
    = recordedChunksRef s ++ filter nonempty_blob (delivered_data cbs).
Proof.
  induction cbs as [| cb cbs IH]; intros s H.
  - simpl. now rewrite app_nil_r.
  - simpl in H. apply orb_false_elim in H. destruct H as [Hc Hrest].
    rewrite deliver_cons, (IH _ Hrest), (dispatchA_chunks cb s Hc).
    rewrite (delivered_data_cons cb cbs), filter_app, app_assoc. reflexivity.
Qed.

Lemma deliverB_chunks (cbs : list Callback) :
  forall s : State,
    existsb is_start_click cbs = false ->
    recordedChunksRef (deliver (dispatchB decodeAudioData) cbs s)
    = recordedChunksRef s ++ filter nonempty_blob (delivered_data cbs).
Proof.
  induction cbs as [| cb cbs IH]; intros s H.
  - simpl. now rewrite app_nil_r.
  - simpl in H. apply orb_false_elim in H. destruct H as [Hc Hrest].
    rewrite deliver_cons, (IH _ Hrest), (dispatchB_chunks cb s Hc).
    rewrite (delivered_data_cons cb cbs), filter_app, app_assoc. reflexivity.
Qed.

(** X13: the artifact built by [recorder.onstop] is the concatenation, in
    delivery order, of the blobs delivered to [recorder.ondataavailable]
    since the start was clicked, whatever other callbacks ran in between:
    nothing delivered before the click is in it, and a blob that the
    recorder of an earlier call delivers after the click is. *)
Theorem recording_is_what_was_delivered_since_the_start (cbs : list Callback) (s : State) :
  existsb is_start_click cbs = false ->
  (isClosingRef s = false ->
   audioUrlRef (recorder_onstop
                  (deliver (dispatchA decodeAudioData) cbs
                     (dispatchA decodeAudioData StartClicked s)))
   = Some (List.concat (delivered_data cbs)))
  /\ audioUrlRef (recorder_onstop
                    (deliver (dispatchB decodeAudioData) cbs
                       (dispatchB decodeAudioData StartClicked s)))
     = Some (List.concat (delivered_data cbs)).
Proof.
  intros Hcbs. split.
  - intros Hc. cbn [dispatchA].
    destruct (handleStartA_before_await s) as [s0 |] eqn:H0.
    + destruct (before_awaitA_cells s s0 H0) as [_ [Hr _]].
      destruct (recorder_onstop_sets_flag
                  (deliver (dispatchA decodeAudioData) cbs s0)) as [_ Hu].
      rewrite Hu, (deliverA_chunks cbs s0 Hcbs), Hr. simpl.
      now rewrite concat_nonempty.
    + unfold handleStartA_before_await in H0. rewrite Hc in H0. discriminate H0.
  - cbn [dispatchB].
    destruct (before_awaitB_cells s) as [_ [Hr _]].
    destruct (recorder_onstop_sets_flag
                (deliver (dispatchB decodeAudioData) cbs (handleStartB_before_await s)))
      as [_ Hu].
    rewrite Hu, (deliverB_chunks cbs _ Hcbs), Hr. simpl.
    now rewrite concat_nonempty.
Qed.

End Recording.

(** The last blob of the previous call's recorder, delivered after the
    click that starts the next call, is in the next call's recording; the
    blob delivered before the click is not. *)
Example late_blob_of_the_previous_call_is_recorded :
  recordedChunksRef first_call_stopped = [[Byte.x07]]
  /\ delivered_data restart_with_late_blob = [[Byte.x09]; [Byte.x01]]
  /\ audioUrlRef (recorder_onstop
                    (deliver (dispatchB sample_decoder) restart_with_late_blob
                       (dispatchB sample_decoder StartClicked first_call_stopped)))
     = Some [Byte.x09; Byte.x01].
Proof. split_all; vm_compute; reflexivity. Qed.

Lemma recording_button_always_works_witness :
  hasAudioData (deliver (dispatchA sample_decoder) one_recorded_call init) = true
  /\ audioUrlRef (deliver (dispatchA sample_decoder) one_recorded_call init) <> None.
Proof.
  split; [vm_compute; reflexivity |].
  destruct (recording_button_always_works sample_decoder one_recorded_call init)
    as [H _].
  - intros H. vm_compute in H. discriminate H.
  - apply H. vm_compute. reflexivity.
Defined.

Lemma recording_is_what_was_delivered_since_the_start_witness :
  audioUrlRef (recorder_onstop
                 (deliver (dispatchA sample_decoder) one_call
                    (dispatchA sample_decoder StartClicked idle_after_callA)))
  = Some [Byte.x01; Byte.x02; Byte.x03].
Proof.
  destruct (recording_is_what_was_delivered_since_the_start sample_decoder one_call
              idle_after_callA) as [H _].
  - vm_compute. reflexivity.
  - apply H. vm_compute. reflexivity.
Defined.

(** ** What a stop releases *)

(** X4: a stop releases exactly what the component holds, each thing once
    and in a fixed order: the running recorder, the audio nodes, the tracks
    of the held stream, every active playback source, and last the session
    of a fulfilled connection; afterwards every cell is clear.  part_001
    never disconnects the microphone-to-mixer node. *)
Theorem stop_releases_exactly_what_is_held (b : bool) (s : State) :
  microtasks s = [] ->
  (isClosingRef s = false ->
   filter is_release (trace (task (PartA.handleStop b) s))
   = filter is_release (trace s) ++ releases_dueA s
   /\ torn_down (task (PartA.handleStop b) s)
   /\ micToMixerNodeRef (task (PartA.handleStop b) s) = false)
  /\ (filter is_release (trace (task PartB.handleStop s))
      = filter is_release (trace s) ++ releases_dueB s
      /\ torn_down (task PartB.handleStop s)).
Proof.
  intros Hm. split; [intros Hc |].
  - rewrite !filter_trace, (handleStopA_releases b s Hc Hm), rev_app_distr, rev_involutive.
    destruct (handleStopA_torn_down b s Hc Hm) as (Ht & Hx & _). auto.
  - rewrite !filter_trace, (handleStopB_releases s Hm), rev_app_distr, rev_involutive.
    destruct (handleStopB_torn_down s Hm) as (Ht & _). auto.
Qed.

Lemma stop_releases_exactly_what_is_held_witness :
  filter is_release (trace (task (PartA.handleStop false) before_barge_in))
  = [RecorderStop; NodeDisconnect processorNode; NodeDisconnect sourceNode;
     NodeDisconnect micToMixerNode; TrackStop 0; SourceStop 0; SourceStop 1; SessionClose]
  /\ filter is_release (trace (task PartB.handleStop connectedB))
     = [RecorderStop; NodeDisconnect processorNode; NodeDisconnect sourceNode;
        TrackStop 0; SessionClose].
Proof.
  split.
  - destruct (stop_releases_exactly_what_is_held false before_barge_in) as [HA _].
    + vm_compute. reflexivity.
    + destruct HA as [H _]; [vm_compute; reflexivity |].
      rewrite H. vm_compute. reflexivity.
  - destruct (stop_releases_exactly_what_is_held false connectedB) as [_ [H _]].
    + vm_compute. reflexivity.
    + rewrite H. vm_compute. reflexivity.
Defined.

(** ** Frames and stops while the connection is being made *)

Lemma fulfilled_trace (s : State) :
  trace (sessionPromise_fulfilled s)
  = trace s ++ flat_map (continuation_events (isClosingRef s)) (reactions s).
Proof.
  unfold sessionPromise_fulfilled.
  destruct s as [? ? ? ? ? ? ? [[| |]|] ? ? ? ? ? ? ? ? ? ? ? ? ? ? ? ?];
    rewrite drain_emits; unfold trace; simpl;
    now rewrite rev_app_distr, rev_involutive.
Qed.

Lemma guarded_sends_dropped (pkts : list MediaPacket) :
  flat_map (continuation_events true) (map ThenSendGuarded pkts) = [].
Proof. induction pkts as [| p pkts IH]; [reflexivity | exact IH]. Qed.

Lemma guarded_sends_made (pkts : list MediaPacket) :
  flat_map (continuation_events false) (map ThenSendGuarded pkts) = map SendRealtimeInput pkts.
Proof. induction pkts as [| p pkts IH]; [reflexivity | simpl; now rewrite IH]. Qed.

Lemma sends_made (closing : bool) (pkts : list MediaPacket) :
  flat_map (continuation_events closing) (map ThenSend pkts) = map SendRealtimeInput pkts.
Proof. induction pkts as [| p pkts IH]; [reflexivity | simpl; now rewrite IH]. Qed.

(** A frame captured while the connection is pending is queued on the
    promise and nothing is sent. *)
Lemma audioprocessA_pending (inputData : list Q) (s : State) :
  sessionPromiseRef s = Some Pending ->
  processorNodeRef s = Some {| closure_isMuted := false |} ->
  isClosingRef s = false ->
  microtasks s = [] ->
  PartA.audioprocess inputData s
  = with_reactions (reactions s ++ [ThenSendGuarded (pcmBlob inputData)]) s.
Proof.
  intros Hp Hn Hc Hm. unfold PartA.audioprocess. rewrite Hn.
  unfold task, PartA.onaudioprocess. rewrite Hp, Hc. cbn [closure_isMuted orb is_some negb then_].
  apply drain_quiescent. destruct s; simpl in *; assumption.
Qed.

Lemma audioprocessB_pending (inputData : list Q) (s : State) :
  sessionPromiseRef s = Some Pending ->
  processorNodeRef s = Some {| closure_isMuted := false |} ->
  microtasks s = [] ->
  PartB.audioprocess inputData s
  = with_reactions (reactions s ++ [ThenSend (pcmBlob inputData)]) s.
Proof.
  intros Hp Hn Hm. unfold PartB.audioprocess. rewrite Hn.
  unfold task, PartB.onaudioprocess. rewrite Hp. cbn [closure_isMuted then_].
  apply drain_quiescent. destruct s; simpl in *; assumption.
Qed.

Lemma framesA_pending (frames : list (list Q)) (s : State) :
  sessionPromiseRef s = Some Pending ->
  processorNodeRef s = Some {| closure_isMuted := false |} ->
  isClosingRef s = false ->
  microtasks s = [] ->
  fold_left (fun st f => PartA.audioprocess f st) frames s
  = with_reactions (reactions s ++ map (fun f => ThenSendGuarded (pcmBlob f)) frames) s.
Proof.
  revert s. induction frames as [| f frames IH]; intros s Hp Hn Hc Hm.
  - simpl. rewrite app_nil_r. now destruct s.
  - cbn [fold_left map]. rewrite (audioprocessA_pending f s Hp Hn Hc Hm).
    rewrite IH.
    + destruct s; unfold with_reactions; simpl. now rewrite <- app_assoc.
    + destruct s; simpl in *; assumption.
    + destruct s; simpl in *; assumption.
    + destruct s; simpl in *; assumption.
    + destruct s; simpl in *; assumption.
Qed.

Lemma framesB_pending (frames : list (list Q)) (s : State) :
  sessionPromiseRef s = Some Pending ->
  processorNodeRef s = Some {| closure_isMuted := false |} ->
  microtasks s = [] ->
  fold_left (fun st f => PartB.audioprocess f st) frames s
  = with_reactions (reactions s ++ map (fun f => ThenSend (pcmBlob f)) frames) s.
Proof.
  revert s. induction frames as [| f frames IH]; intros s Hp Hn Hm.
  - simpl. rewrite app_nil_r. now destruct s.
  - cbn [fold_left map]. rewrite (audioprocessB_pending f s Hp Hn Hm).
    rewrite IH.
    + destruct s; unfold with_reactions; simpl. now rewrite <- app_assoc.
    + destruct s; simpl in *; assumption.
    + destruct s; simpl in *; assumption.
    + destruct s; simpl in *; assumption.
Qed.

(** X6: frames captured while the connection is still being made are not
    sent and not dropped: they wait on the connection promise and are sent,
    in capture order, when it is fulfilled; when it is rejected they are
    never sent. *)
Theorem frames_captured_while_connecting_are_sent_on_connection
    (frames : list (list Q)) (s : State) :
  connecting s ->
  (trace (capture PartA.audioprocess frames s) = trace s
   /\ trace (sessionPromise_fulfilled (capture PartA.audioprocess frames s))
      = trace s ++ map (fun f => SendRealtimeInput (pcmBlob f)) frames
   /\ trace (sessionPromise_rejected (capture PartA.audioprocess frames s)) = trace s)
  /\ (trace (capture PartB.audioprocess frames s) = trace s
      /\ trace (sessionPromise_fulfilled (capture PartB.audioprocess frames s))
         = trace s ++ map (fun f => SendRealtimeInput (pcmBlob f)) frames
      /\ trace (sessionPromise_rejected (capture PartB.audioprocess frames s)) = trace s).
Proof.
  intros (Hp & Hn & Hc & Hm & Hr). unfold capture. split.
  - rewrite (framesA_pending frames s Hp Hn Hc Hm), Hr. cbn [app].
    split_all.
    + now destruct s.
    + rewrite fulfilled_trace.
      replace (isClosingRef (with_reactions _ s)) with false by (now destruct s; simpl in *).
      replace (reactions (with_reactions (map (fun f => ThenSendGuarded (pcmBlob f)) frames) s))
        with (map ThenSendGuarded (map pcmBlob frames))
        by (rewrite map_map; now destruct s).
      rewrite guarded_sends_made, map_map. now destruct s.
    + unfold sessionPromise_rejected.
      destruct s as [? ? ? ? ? ? ? [[| |]|] ? ? ? ? ? ? ? ? ? ? ? ? ? ? ? ?]; reflexivity.
  - rewrite (framesB_pending frames s Hp Hn Hm), Hr. cbn [app].
    split_all.
    + now destruct s.
    + rewrite fulfilled_trace.
      replace (reactions (with_reactions (map (fun f => ThenSend (pcmBlob f)) frames) s))
        with (map ThenSend (map pcmBlob frames))
        by (rewrite map_map; now destruct s).
      rewrite sends_made, map_map. now destruct s.
    + unfold sessionPromise_rejected.
      destruct s as [? ? ? ? ? ? ? [[| |]|] ? ? ? ? ? ? ? ? ? ? ? ? ? ? ? ?]; reflexivity.
Qed.

Lemma frames_captured_while_connecting_are_sent_on_connection_witness :
  trace (sessionPromise_fulfilled
           (capture PartA.audioprocess [frame_example; frame_example] connectingA))
  = trace connectingA
    ++ [SendRealtimeInput (pcmBlob frame_example); SendRealtimeInput (pcmBlob frame_example)].
Proof.
  destruct (frames_captured_while_connecting_are_sent_on_connection
              [frame_example; frame_example] connectingA) as [(_ & H & _) _].
  - unfold connecting. split_all; vm_compute; reflexivity.
  - exact H.
Defined.


Lemma capture_queuedA (frames : list (list Q)) (s : State) :
  connecting s -> queued ThenSendGuarded (map pcmBlob frames) (capture PartA.audioprocess frames s).
Proof.
  intros (Hp & Hn & Hc & Hm & Hr). unfold capture, queued.
  rewrite (framesA_pending frames s Hp Hn Hc Hm), Hr, map_map.
  destruct s; simpl in *. auto.
Qed.

Lemma capture_queuedB (frames : list (list Q)) (s : State) :
  connecting s -> queued ThenSend (map pcmBlob frames) (capture PartB.audioprocess frames s).
Proof.
  intros (Hp & Hn & Hc & Hm & Hr). unfold capture, queued.
  rewrite (framesB_pending frames s Hp Hn Hm), Hr, map_map.
  destruct s; simpl in *. auto.
Qed.

Lemma trace_closing_timeout (s : State) : trace (PartA.closing_timeout s) = trace s.
Proof. now destruct s. Qed.

(** While the connection is pending no close call is among the releases a
    stop has to make. *)
Lemma no_close_due_while_pending (s : State) :
  sessionPromiseRef s = Some Pending ->
  ~ In SessionClose (releases_dueA s) /\ ~ In SessionClose (releases_dueB s).
Proof.
  intros Hp. unfold releases_dueA, releases_dueB. rewrite Hp.
  split; intros Hin;
    repeat (apply in_app_or in Hin; destruct Hin as [Hin | Hin]);
    try (destruct (recorderRef s) as [[| |] |]; simpl in Hin;
         repeat (destruct Hin as [Hin | Hin]; try discriminate Hin); contradiction);
    try (destruct (is_some (processorNodeRef s)); simpl in Hin;
         repeat (destruct Hin as [Hin | Hin]; try discriminate Hin); contradiction);
    try (destruct (sourceNodeRef s); simpl in Hin;
         repeat (destruct Hin as [Hin | Hin]; try discriminate Hin); contradiction);
    try (destruct (micToMixerNodeRef s); simpl in Hin;
         repeat (destruct Hin as [Hin | Hin]; try discriminate Hin); contradiction);
    try (apply in_map_iff in Hin; destruct Hin as (x & Hx & _); discriminate Hx);
    try contradiction.
Qed.

(** X5: a stop issued while the connection is still being made makes no
    close call: the releases it makes are those of the resources held, and
    the close is not among them.  The close is made when the connection is
    established.  On part_000 the frames captured before the stop are
    dropped if that happens while the guard is set, and sent, before the
    close, if the guard timer has fired by then; on part_001 they are always
    sent before the close. *)
Theorem stop_while_connecting_closes_on_connection (b : bool) (pkts : list MediaPacket)
    (s : State) :
  (queued ThenSendGuarded pkts s ->
   trace (sessionPromise_fulfilled (task (PartA.handleStop b) s))
   = trace (task (PartA.handleStop b) s) ++ [SessionClose]
   /\ trace (sessionPromise_fulfilled (PartA.closing_timeout (task (PartA.handleStop b) s)))
      = trace (task (PartA.handleStop b) s) ++ map SendRealtimeInput pkts ++ [SessionClose]
   /\ filter is_release (trace (task (PartA.handleStop b) s))
      = filter is_release (trace s) ++ releases_dueA s
   /\ ~ In SessionClose (releases_dueA s))
  /\ (queued ThenSend pkts s ->
      trace (sessionPromise_fulfilled (task PartB.handleStop s))
      = trace (task PartB.handleStop s) ++ map SendRealtimeInput pkts ++ [SessionClose]
      /\ filter is_release (trace (task PartB.handleStop s))
         = filter is_release (trace s) ++ releases_dueB s
      /\ ~ In SessionClose (releases_dueB s)).
Proof.
  split.
  - intros (Hp & Hc & Hm & Hr).
    destruct (handleStopA_torn_down b s Hc Hm) as (_ & _ & Hq).
    destruct (no_close_due_while_pending s Hp) as [HnA _].
    rewrite Hp, Hr in Hq. split_all.
    + rewrite fulfilled_trace, Hq.
      unfold task at 2. rewrite isClosingRef_drain, isClosingRef_handleStopA.
      now rewrite flat_map_app, guarded_sends_dropped.
    + rewrite fulfilled_trace, trace_closing_timeout.
      replace (reactions (PartA.closing_timeout (task (PartA.handleStop b) s)))
        with (reactions (task (PartA.handleStop b) s))
        by (now destruct (task (PartA.handleStop b) s)).
      replace (isClosingRef (PartA.closing_timeout (task (PartA.handleStop b) s)))
        with false by (now destruct (task (PartA.handleStop b) s)).
      now rewrite Hq, flat_map_app, guarded_sends_made.
    + rewrite !filter_trace, (handleStopA_releases b s Hc Hm), rev_app_distr, rev_involutive.
      reflexivity.
    + exact HnA.
  - intros (Hp & Hc & Hm & Hr).
    destruct (handleStopB_torn_down s Hm) as (_ & Hq).
    destruct (no_close_due_while_pending s Hp) as [_ HnB].
    rewrite Hp, Hr in Hq. split_all.
    + now rewrite fulfilled_trace, Hq, flat_map_app, sends_made.
    + rewrite !filter_trace, (handleStopB_releases s Hm), rev_app_distr, rev_involutive.
      reflexivity.
    + exact HnB.
Qed.

Lemma stop_while_connecting_closes_on_connection_witness :
  trace (sessionPromise_fulfilled
           (task (PartA.handleStop false) (capture PartA.audioprocess [frame_example] connectingA)))
  = trace (task (PartA.handleStop false) (capture PartA.audioprocess [frame_example] connectingA))
    ++ [SessionClose]
  /\ trace (sessionPromise_fulfilled
              (task PartB.handleStop (capture PartB.audioprocess [frame_example] connectingB)))
     = trace (task PartB.handleStop (capture PartB.audioprocess [frame_example] connectingB))
       ++ [SendRealtimeInput (pcmBlob frame_example); SessionClose].
Proof.
  split.
  - destruct (stop_while_connecting_closes_on_connection false [pcmBlob frame_example]
                (capture PartA.audioprocess [frame_example] connectingA)) as [HA _].
    destruct HA as [H _]; [unfold queued; split_all; vm_compute; reflexivity | exact H].
  - destruct (stop_while_connecting_closes_on_connection false [pcmBlob frame_example]
                (capture PartB.audioprocess [frame_example] connectingB)) as [_ HB].
    destruct HB as [H _]; [unfold queued; split_all; vm_compute; reflexivity | exact H].
Defined.


(** ** A stop between the awaits of a start *)

Lemma after_awaitA_log (muted : bool) (stream : MediaStream) (s : State) :
  log (handleStartA_after_await muted (Some stream) s)
  = NodeConnect processorNode :: NodeConnect sourceNode :: LiveConnect
    :: NodeConnect micToMixerNode :: log s.
Proof. destruct s; vm_compute; reflexivity. Qed.

Lemma after_awaitB_log (muted : bool) (stream : MediaStream) (s : State) :
  log (handleStartB_after_await muted (Some stream) s)
  = NodeConnect processorNode :: NodeConnect sourceNode :: LiveConnect
    :: NodeConnect micToMixerNode :: log s.
Proof. destruct s; vm_compute; reflexivity. Qed.

Lemma after_awaitA_granted (muted : bool) (stream : MediaStream) (s : State) :
  status (handleStartA_after_await muted (Some stream) s) = status s
  /\ streamRef (handleStartA_after_await muted (Some stream) s) = Some stream
  /\ sessionPromiseRef (handleStartA_after_await muted (Some stream) s) = Some Pending
  /\ processorNodeRef (handleStartA_after_await muted (Some stream) s)
     = Some {| closure_isMuted := muted |}
  /\ isClosingRef (handleStartA_after_await muted (Some stream) s) = isClosingRef s
  /\ microtasks (handleStartA_after_await muted (Some stream) s) = microtasks s
  /\ reactions (handleStartA_after_await muted (Some stream) s) = reactions s
  /\ trace (handleStartA_after_await muted (Some stream) s)
     = trace s ++ [NodeConnect micToMixerNode; LiveConnect; NodeConnect sourceNode;
                   NodeConnect processorNode].
Proof.
  unfold trace. rewrite after_awaitA_log.
  destruct s; split_all; try (vm_compute; reflexivity).
  simpl. now rewrite <- !app_assoc.
Qed.

Lemma after_awaitB_granted (muted : bool) (stream : MediaStream) (s : State) :
  status (handleStartB_after_await muted (Some stream) s) = status s
  /\ streamRef (handleStartB_after_await muted (Some stream) s) = Some stream
  /\ sessionPromiseRef (handleStartB_after_await muted (Some stream) s) = Some Pending
  /\ processorNodeRef (handleStartB_after_await muted (Some stream) s)
     = Some {| closure_isMuted := muted |}
  /\ microtasks (handleStartB_after_await muted (Some stream) s) = microtasks s
  /\ reactions (handleStartB_after_await muted (Some stream) s) = reactions s
  /\ trace (handleStartB_after_await muted (Some stream) s)
     = trace s ++ [NodeConnect micToMixerNode; LiveConnect; NodeConnect sourceNode;
                   NodeConnect processorNode].
Proof.
  unfold trace. rewrite after_awaitB_log.
  destruct s; split_all; try (vm_compute; reflexivity).
  simpl. now rewrite <- !app_assoc.
Qed.

Lemma before_awaitA_open (s s0 : State) :
  handleStartA_before_await s = Some s0 ->
  isClosingRef s0 = false /\ microtasks s0 = microtasks s /\ reactions s0 = reactions s
  /\ sessionPromiseRef s0 = sessionPromiseRef s.
Proof.
  unfold handleStartA_before_await.
  destruct_start s; cbn [isClosingRef]; intros H; try discriminate H;
    injection H as <-; split_all; reflexivity.
Qed.

Lemma before_awaitB_open (s : State) :
  microtasks (handleStartB_before_await s) = microtasks s
  /\ reactions (handleStartB_before_await s) = reactions s
  /\ sessionPromiseRef (handleStartB_before_await s) = sessionPromiseRef s.
Proof. destruct_start s; split_all; reflexivity. Qed.

Lemma reactions_drain (s : State) : reactions (drain s) = reactions s.
Proof. now rewrite drain_emits. Qed.

(** X3: a stop clicked while [handleStart] is suspended at its awaits does
    not cancel the start: when the microphone is granted the handler
    resumes, keeps the stream, wires the nodes and requests the connection,
    under a status of IDLE, and nothing closes that connection when it is
    established. *)
Theorem stop_between_the_awaits_does_not_cancel_the_start
    (muted : bool) (stream : MediaStream) (s : State) :
  sessionPromiseRef s = None ->
  microtasks s = [] ->
  reactions s = [] ->
  (forall s0 : State,
      handleStartA_before_await s = Some s0 ->
      status (handleStartA_after_await muted (Some stream) (task (PartA.handleStop false) s0))
      = IDLE
      /\ streamRef (handleStartA_after_await muted (Some stream)
                      (task (PartA.handleStop false) s0)) = Some stream
      /\ sessionPromiseRef (handleStartA_after_await muted (Some stream)
                              (task (PartA.handleStop false) s0)) = Some Pending
      /\ trace (handleStartA_after_await muted (Some stream) (task (PartA.handleStop false) s0))
         = trace (task (PartA.handleStop false) s0)
           ++ [NodeConnect micToMixerNode; LiveConnect; NodeConnect sourceNode;
               NodeConnect processorNode]
      /\ trace (sessionPromise_fulfilled
                  (handleStartA_after_await muted (Some stream)
                     (task (PartA.handleStop false) s0)))
         = trace (handleStartA_after_await muted (Some stream)
                    (task (PartA.handleStop false) s0)))
  /\ (status (handleStartB_after_await muted (Some stream)
                (task PartB.handleStop (handleStartB_before_await s))) = IDLE
      /\ streamRef (handleStartB_after_await muted (Some stream)
                      (task PartB.handleStop (handleStartB_before_await s))) = Some stream
      /\ sessionPromiseRef (handleStartB_after_await muted (Some stream)
                              (task PartB.handleStop (handleStartB_before_await s)))
         = Some Pending
      /\ trace (handleStartB_after_await muted (Some stream)
                  (task PartB.handleStop (handleStartB_before_await s)))
         = trace (task PartB.handleStop (handleStartB_before_await s))
           ++ [NodeConnect micToMixerNode; LiveConnect; NodeConnect sourceNode;
               NodeConnect processorNode]
      /\ trace (sessionPromise_fulfilled
                  (handleStartB_after_await muted (Some stream)
                     (task PartB.handleStop (handleStartB_before_await s))))
         = trace (handleStartB_after_await muted (Some stream)
                    (task PartB.handleStop (handleStartB_before_await s)))).
Proof.
  intros Hp Hm Hr. split.
  - intros s0 H0.
    destruct (before_awaitA_open s s0 H0) as (Hc & Hm0 & Hr0 & Hp0).
    rewrite Hm in Hm0. rewrite Hr in Hr0. rewrite Hp in Hp0.
    destruct (after_awaitA_granted muted stream (task (PartA.handleStop false) s0))
      as (H1 & H2 & H3 & _ & _ & _ & H7 & H8).
    destruct (handleStopA_torn_down false s0 Hc Hm0) as (_ & _ & Hq).
    rewrite Hp0, Hr0 in Hq.
    split_all; try assumption.
    + rewrite H1. unfold task. rewrite status_drain. now apply status_handleStopA.
    + rewrite fulfilled_trace, H7, Hq. cbn [flat_map]. apply app_nil_r.
  - destruct (after_awaitB_granted muted stream
                (task PartB.handleStop (handleStartB_before_await s)))
      as (H1 & H2 & H3 & _ & _ & H7 & H8).
    destruct (before_awaitB_open s) as (Hm0 & Hr0 & Hp0).
    rewrite Hm in Hm0. rewrite Hr in Hr0. rewrite Hp in Hp0.
    destruct (handleStopB_torn_down (handleStartB_before_await s) Hm0) as (_ & Hq).
    rewrite Hp0, Hr0 in Hq.
    split_all; try assumption.
    + rewrite H1. unfold task. rewrite status_drain. apply status_handleStopB.
    + rewrite fulfilled_trace, H7, Hq. cbn [flat_map]. apply app_nil_r.
Qed.

Lemma stop_between_the_awaits_does_not_cancel_the_start_witness :
  exists s0 : State,
    handleStartA_before_await init = Some s0
    /\ status (handleStartA_after_await false (Some microphone)
                 (task (PartA.handleStop false) s0)) = IDLE
    /\ streamRef (handleStartA_after_await false (Some microphone)
                    (task (PartA.handleStop false) s0)) = Some microphone.
Proof.
  eexists. split; [vm_compute; reflexivity |].
  destruct (stop_between_the_awaits_does_not_cancel_the_start false microphone init
              eq_refl eq_refl eq_refl) as [HA _].
  destruct (HA _ eq_refl) as (H1 & H2 & _).
  split; [exact H1 | exact H2].
Defined.


(** ** A payload that fails to decode *)

Section Undecodable.

Variable decodeAudioData : Js.JsString -> option AudioBuffer.

Lemma undecodable_payloadB (now t : Z) (m : LiveServerMessage) (s : State)
    (b64 : Js.JsString) :
  PartB.base64Audio m = Some b64 ->
  Js.truthy b64 = true ->
  decodeAudioData b64 = None ->
  outputAudioContextRef s = true ->
  PartB.onmessage decodeAudioData now t m s
  = Thrown (with_nextStartTimeRef (Z.max (nextStartTimeRef s) t) (setIsProcessing false s)).
Proof.
  intros Hb Ht Hd Hc.
  unfold PartB.onmessage. rewrite !schedule_audioB_unfold.
  rewrite Hb, Ht, Hc. simpl andb. cbv iota zeta.
  rewrite Hd. reflexivity.
Qed.

Lemma thrown_cells (t : Z) (s : State) :
  transcriptions (with_nextStartTimeRef (Z.max (nextStartTimeRef s) t)
                    (setIsProcessing false s)) = transcriptions s
  /\ transcriptionBufferRef (with_nextStartTimeRef (Z.max (nextStartTimeRef s) t)
                               (setIsProcessing false s)) = transcriptionBufferRef s
  /\ activeSourcesRef (with_nextStartTimeRef (Z.max (nextStartTimeRef s) t)
                         (setIsProcessing false s)) = activeSourcesRef s
  /\ nextStartTimeRef (with_nextStartTimeRef (Z.max (nextStartTimeRef s) t)
                         (setIsProcessing false s)) = Z.max (nextStartTimeRef s) t
  /\ trace (with_nextStartTimeRef (Z.max (nextStartTimeRef s) t)
              (setIsProcessing false s)) = trace s ++ [SetState sv_isProcessing].
Proof. destruct s; split_all; reflexivity. Qed.

(** X11: when the payload of a message fails to decode, nothing else in
    the message is acted upon on either front-end: the transcript, the
    buffers and the active sources stay as they were even if the message
    carries an interruption, text or a turn-complete; only the processing
    flag is cleared and the clock raised to the current time. *)
Theorem undecodable_payload_drops_the_rest_of_the_message
    (now t : Z) (m : LiveServerMessage) (s : State) (b64 : Js.JsString) :
  decodeAudioData b64 = None ->
  outputAudioContextRef s = true ->
  (PartA.base64Audio m = Some b64 ->
   transcriptions (state_of (PartA.onmessage decodeAudioData now t m s)) = transcriptions s
   /\ transcriptionBufferRef (state_of (PartA.onmessage decodeAudioData now t m s))
      = transcriptionBufferRef s
   /\ activeSourcesRef (state_of (PartA.onmessage decodeAudioData now t m s))
      = activeSourcesRef s
   /\ nextStartTimeRef (state_of (PartA.onmessage decodeAudioData now t m s))
      = Z.max (nextStartTimeRef s) t
   /\ trace (state_of (PartA.onmessage decodeAudioData now t m s))
      = trace s ++ [SetState sv_isProcessing])
  /\ (PartB.base64Audio m = Some b64 ->
      Js.truthy b64 = true ->
      transcriptions (state_of (PartB.onmessage decodeAudioData now t m s)) = transcriptions s
      /\ transcriptionBufferRef (state_of (PartB.onmessage decodeAudioData now t m s))
         = transcriptionBufferRef s
      /\ activeSourcesRef (state_of (PartB.onmessage decodeAudioData now t m s))
         = activeSourcesRef s
      /\ nextStartTimeRef (state_of (PartB.onmessage decodeAudioData now t m s))
         = Z.max (nextStartTimeRef s) t
      /\ trace (state_of (PartB.onmessage decodeAudioData now t m s))
         = trace s ++ [SetState sv_isProcessing]).
Proof.
  intros Hd Hc. split.
  - intros Hb. rewrite (undecodable_payload_skips_rest decodeAudioData now t m s b64 Hb Hd Hc).
    apply thrown_cells.
  - intros Hb Ht. rewrite (undecodable_payloadB now t m s b64 Hb Ht Hd Hc). apply thrown_cells.
Qed.

End Undecodable.

Lemma undecodable_payload_drops_the_rest_of_the_message_witness :
  activeSourcesRef (state_of (PartA.onmessage sample_decoder 1 12000 garbled_barge_in
                                before_barge_in))
  = activeSourcesRef before_barge_in
  /\ List.length (activeSourcesRef before_barge_in) = 2%nat.
Proof.
  split; [| vm_compute; reflexivity].
  destruct (undecodable_payload_drops_the_rest_of_the_message sample_decoder 1 12000
              garbled_barge_in before_barge_in (Js.of_string "!")) as [HA _].
  - vm_compute. reflexivity.
  - vm_compute. reflexivity.
  - destruct HA as (_ & _ & H & _); [vm_compute; reflexivity | exact H].
Defined.


(** * The second component of part_000 *)

(** Case analysis on the cells [PartC.handleStop] tests. *)
Ltac destruct_refsC s :=
  destruct s as [? ? ? ? ? ? [|] ? ? [?|] [?|] [|] ? ? ?].

Ltac evaluate_stopC :=
  match goal with
  | |- context [PartC.log (PartC.handleStop ?X)] => evaluate (PartC.log (PartC.handleStop X))
  end;
  match goal with
  | |- context [PartC.releases_due ?X] => evaluate (PartC.releases_due X)
  end.

Lemma handleStopC_releases (s : PartC.State) :
  filter is_release (PartC.log (PartC.handleStop s))
  = rev (PartC.releases_due s) ++ filter is_release (PartC.log s).
Proof.
  destruct_refsC s.
  all: evaluate_stopC.
  all: cbn [PartC.log].
  all: normalise_releases.
  all: reflexivity.
Qed.

Lemma handleStopC_torn_down (s : PartC.State) :
  PartC.torn_down (PartC.handleStop s) /\ PartC.status (PartC.handleStop s) = IDLE.
Proof.
  unfold PartC.torn_down. destruct_refsC s; split_all; vm_compute; reflexivity.
Qed.

Lemma torn_down_nothing_due (s : PartC.State) :
  PartC.torn_down s -> PartC.releases_due s = [].
Proof.
  intros (H1 & H2 & H3 & H4 & H5 & _). unfold PartC.releases_due.
  now rewrite H1, H2, H3, H4, H5.
Qed.

Lemma filter_traceC (f : Event -> bool) (s : PartC.State) :
  filter f (PartC.trace s) = rev (filter f (PartC.log s)).
Proof. unfold PartC.trace. apply filter_rev. Qed.

Ltac evaluate_errorC :=
  match goal with
  | |- context [PartC.log (PartC.onerror ?X)] => evaluate (PartC.log (PartC.onerror X))
  end;
  match goal with
  | |- context [PartC.releases_due ?X] => evaluate (PartC.releases_due X)
  end.

Lemma onerrorC_releases (s : PartC.State) :
  filter is_release (PartC.log (PartC.onerror s))
  = rev (PartC.releases_due s) ++ filter is_release (PartC.log s).
Proof.
  destruct_refsC s.
  all: evaluate_errorC.
  all: cbn [PartC.log].
  all: normalise_releases.
  all: reflexivity.
Qed.

Lemma onerrorC_torn_down (s : PartC.State) :
  PartC.torn_down (PartC.onerror s)
  /\ PartC.status (PartC.onerror s) = IDLE
  /\ PartC.errorMessage (PartC.onerror s)
     = Some "Connection interrupted. Please try again."%string.
Proof.
  unfold PartC.torn_down. destruct_refsC s; split_all; vm_compute; reflexivity.
Qed.

(** X15: on the second component of part_000 a stop releases exactly what
    is held, the session first and at once, then the tracks, the two audio
    nodes and the active sources; every cell is clear afterwards, the status
    is IDLE, and a second stop releases nothing.  A connection error does
    the same and leaves its message up. *)
Theorem second_component_stop_releases_what_is_held (s : PartC.State) :
  (filter is_release (PartC.trace (PartC.handleStop s))
   = filter is_release (PartC.trace s) ++ PartC.releases_due s
   /\ PartC.torn_down (PartC.handleStop s)
   /\ PartC.status (PartC.handleStop s) = IDLE
   /\ filter is_release (PartC.trace (PartC.handleStop (PartC.handleStop s)))
      = filter is_release (PartC.trace (PartC.handleStop s)))
  /\ (filter is_release (PartC.trace (PartC.onerror s))
      = filter is_release (PartC.trace s) ++ PartC.releases_due s
      /\ PartC.torn_down (PartC.onerror s)
      /\ PartC.status (PartC.onerror s) = IDLE
      /\ PartC.errorMessage (PartC.onerror s)
         = Some "Connection interrupted. Please try again."%string).
Proof.
  destruct (handleStopC_torn_down s) as [Ht Hs].
  destruct (onerrorC_torn_down s) as (Et & Es & Em).
  split; split_all; try assumption.
  - now rewrite !filter_traceC, handleStopC_releases, rev_app_distr, rev_involutive.
  - rewrite (filter_traceC _ (PartC.handleStop (PartC.handleStop s))), handleStopC_releases.
    rewrite (torn_down_nothing_due _ Ht). cbn [rev app]. now rewrite <- filter_traceC.
  - now rewrite !filter_traceC, onerrorC_releases, rev_app_distr, rev_involutive.
Qed.

(** ** A stop before the connection has resolved *)

Lemma onopenC_log (muted : bool) (s : PartC.State) :
  PartC.audioContextRef s = true ->
  PartC.log (PartC.onopen muted s)
  = NodeConnect processorNode :: NodeConnect sourceNode :: SetState sv_status :: PartC.log s.
Proof. destruct s; cbn. intros ->. reflexivity. Qed.

Lemma audioprocessC_sends (f : list Q) (s : PartC.State) :
  PartC.processorNodeRef s = Some {| closure_isMuted := false |} ->
  PartC.sessionRef s = true ->
  PartC.audioprocess f s = PartC.emit (SendRealtimeInput (pcmBlob f)) s.
Proof.
  intros Hp Hs. unfold PartC.audioprocess, PartC.onaudioprocess. now rewrite Hp, Hs.
Qed.

Lemma connectedC_cells (s : PartC.State) :
  PartC.sessionRef (PartC.handleStart_connected s) = true
  /\ PartC.status (PartC.handleStart_connected s) = PartC.status s
  /\ PartC.processorNodeRef (PartC.handleStart_connected s) = PartC.processorNodeRef s
  /\ PartC.log (PartC.handleStart_connected s) = PartC.log s.
Proof. destruct s; split_all; reflexivity. Qed.

Lemma onopenC_cells (muted : bool) (s : PartC.State) :
  PartC.audioContextRef s = true ->
  PartC.processorNodeRef (PartC.onopen muted s) = Some {| closure_isMuted := muted |}
  /\ PartC.status (PartC.onopen muted s) = CONNECTED
  /\ PartC.sessionRef (PartC.onopen muted s) = PartC.sessionRef s.
Proof. destruct s; cbn. intros ->. split_all; reflexivity. Qed.

Lemma audioContextRef_handleStopC (s : PartC.State) :
  PartC.audioContextRef (PartC.handleStop s) = PartC.audioContextRef s.
Proof. destruct_refsC s; vm_compute; reflexivity. Qed.

Lemma no_close_due (s : PartC.State) :
  PartC.sessionRef s = false -> ~ In SessionClose (PartC.releases_due s).
Proof.
  intros Hs. unfold PartC.releases_due. rewrite Hs. cbn [app].
  rewrite !in_app_iff, !in_map_iff.
  intros [(t & Ht & _) | [H | [H | (src & Hsrc & _)]]]; try discriminate.
  - destruct (is_some (PartC.processorNodeRef s)); simpl in H;
      [destruct H as [H | []]; discriminate H | exact H].
  - destruct (PartC.sourceNodeRef s); simpl in H;
      [destruct H as [H | []]; discriminate H | exact H].
Qed.

(** X16: on the second component a stop issued before the connection has
    resolved makes no close call, and nothing closes the connection later:
    when it resolves, the session is stored under a status of IDLE; if the
    connection opens after the stop, capture is wired again and frames are
    sent on that session.  A start has run before, so that the capture
    context exists. *)
Theorem second_component_stop_while_connecting_leaves_the_connection_open
    (f : list Q) (s : PartC.State) :
  PartC.sessionRef s = false ->
  PartC.audioContextRef s = true ->
  PartC.sessionRef (PartC.handleStart_connected (PartC.handleStop s)) = true
  /\ PartC.status (PartC.handleStart_connected (PartC.handleStop s)) = IDLE
  /\ filter is_release (PartC.trace (PartC.handleStart_connected (PartC.handleStop s)))
     = filter is_release (PartC.trace s) ++ PartC.releases_due s
  /\ ~ In SessionClose (PartC.releases_due s)
  /\ PartC.trace (PartC.audioprocess f
                    (PartC.handleStart_connected (PartC.onopen false (PartC.handleStop s))))
     = PartC.trace (PartC.handleStop s)
       ++ [SetState sv_status; NodeConnect sourceNode; NodeConnect processorNode;
           SendRealtimeInput (pcmBlob f)].
Proof.
  intros Hs Hctx. rewrite <- audioContextRef_handleStopC in Hctx.
  destruct (connectedC_cells (PartC.handleStop s)) as (H1 & H2 & _ & H4).
  destruct (handleStopC_torn_down s) as [_ Hi].
  split_all.
  - exact H1.
  - now rewrite H2.
  - rewrite filter_traceC, H4, handleStopC_releases, rev_app_distr, rev_involutive.
    now rewrite <- filter_traceC.
  - now apply no_close_due.
  - destruct (connectedC_cells (PartC.onopen false (PartC.handleStop s)))
      as (K1 & _ & K3 & K4).
    destruct (onopenC_cells false (PartC.handleStop s) Hctx) as (O1 & _).
    rewrite O1 in K3.
    rewrite (audioprocessC_sends f _ K3 K1).
    unfold PartC.trace.
    replace (PartC.log (PartC.emit (SendRealtimeInput (pcmBlob f))
                          (PartC.handleStart_connected (PartC.onopen false (PartC.handleStop s)))))
      with (SendRealtimeInput (pcmBlob f)
            :: PartC.log (PartC.handleStart_connected (PartC.onopen false (PartC.handleStop s))))
      by (now destruct (PartC.handleStart_connected (PartC.onopen false (PartC.handleStop s)))).
    rewrite K4, (onopenC_log false _ Hctx). simpl. now rewrite <- !app_assoc.
Qed.

Lemma second_component_stop_while_connecting_leaves_the_connection_open_witness :
  PartC.sessionRef (PartC.handleStart_connected (PartC.handleStop connectingC)) = true
  /\ PartC.status (PartC.handleStart_connected (PartC.handleStop connectingC)) = IDLE
  /\ filter is_release (PartC.trace (PartC.handleStart_connected (PartC.handleStop connectingC)))
     = [TrackStop 0].
Proof.
  destruct (second_component_stop_while_connecting_leaves_the_connection_open
              frame_example connectingC) as (H1 & H2 & H3 & _).
  - vm_compute. reflexivity.
  - vm_compute. reflexivity.
  - split; [exact H1 |]. split; [exact H2 |]. rewrite H3. vm_compute. reflexivity.
Defined.


(** ** A connection that fails *)

Lemma pick_app {A : Type} (f : Event -> option A) (a b : list Event) :
  pick f (a ++ b) = pick f a ++ pick f b.
Proof. unfold pick. apply flat_map_app. Qed.

Lemma pick_tracks (l : list nat) : pick stopped_track (map TrackStop l) = l.
Proof. induction l as [| t l IH]; simpl; [reflexivity | now rewrite IH]. Qed.

Lemma pick_no_tracks (l : list Source) :
  pick stopped_track (map (fun src => SourceStop (src_id src)) l) = [].
Proof. induction l as [| t l IH]; simpl; [reflexivity | exact IH]. Qed.

Lemma failedC_cells (stream : MediaStream) (s : PartC.State) :
  PartC.status
    (PartC.handleStart_failed
       (PartC.handleStart_granted stream (PartC.handleStart_before_await s))) = IDLE
  /\ PartC.errorMessage
       (PartC.handleStart_failed
          (PartC.handleStart_granted stream (PartC.handleStart_before_await s)))
     = Some "Could not access microphone or server."%string
  /\ PartC.streamRef
       (PartC.handleStart_failed
          (PartC.handleStart_granted stream (PartC.handleStart_before_await s)))
     = Some stream
  /\ filter is_release
       (PartC.log
          (PartC.handleStart_failed
             (PartC.handleStart_granted stream (PartC.handleStart_before_await s))))
     = filter is_release (PartC.log s).
Proof. destruct s; split_all; reflexivity. Qed.

Lemma grantedC_tracks_due (stream : MediaStream) (s : PartC.State) :
  pick stopped_track
    (PartC.releases_due (PartC.handleStart_granted stream (PartC.handleStart_before_await s)))
  = getTracks stream.
Proof.
  unfold PartC.releases_due.
  replace (PartC.streamRef
             (PartC.handleStart_granted stream (PartC.handleStart_before_await s)))
    with (Some stream) by (now destruct s).
  rewrite !pick_app, pick_tracks, pick_no_tracks.
  destruct (PartC.sessionRef _), (is_some (PartC.processorNodeRef _)), (PartC.sourceNodeRef _);
    cbn [pick flat_map stopped_track app]; now rewrite ?app_nil_r.
Qed.

Lemma pick_released (l : list Event) :
  pick stopped_track (filter is_release l) = pick stopped_track l.
Proof.
  induction l as [| e l IH]; [reflexivity |].
  destruct e; simpl; try exact IH. now rewrite IH.
Qed.

Lemma grantedC_log (stream : MediaStream) (s : PartC.State) :
  filter is_release
    (PartC.log (PartC.handleStart_granted stream (PartC.handleStart_before_await s)))
  = filter is_release (PartC.log s).
Proof. destruct s; reflexivity. Qed.

(** X17: on the second component a connection that fails after the
    microphone was granted ends in IDLE with the stream still held and no
    release call made; the next start overwrites the stream cell, so that
    the stop of the next call stops the tracks of the new stream only. *)
Theorem second_component_failed_connection_keeps_the_microphone
    (stream next : MediaStream) (s : PartC.State) :
  PartC.status
    (PartC.handleStart_failed
       (PartC.handleStart_granted stream (PartC.handleStart_before_await s))) = IDLE
  /\ PartC.streamRef
       (PartC.handleStart_failed
          (PartC.handleStart_granted stream (PartC.handleStart_before_await s)))
     = Some stream
  /\ filter is_release
       (PartC.trace
          (PartC.handleStart_failed
             (PartC.handleStart_granted stream (PartC.handleStart_before_await s))))
     = filter is_release (PartC.trace s)
  /\ pick stopped_track
       (PartC.trace
          (PartC.handleStop
             (PartC.handleStart_granted next
                (PartC.handleStart_before_await
                   (PartC.handleStart_failed
                      (PartC.handleStart_granted stream
                         (PartC.handleStart_before_await s)))))))
     = pick stopped_track (PartC.trace s) ++ getTracks next.
Proof.
  destruct (failedC_cells stream s) as (H1 & _ & H3 & H4).
  split_all.
  - exact H1.
  - exact H3.
  - now rewrite !filter_traceC, H4.
  - rewrite <- pick_released, filter_traceC, handleStopC_releases, grantedC_log, H4.
    rewrite rev_app_distr, rev_involutive, pick_app, grantedC_tracks_due.
    now rewrite <- filter_traceC, pick_released.
Qed.

(** ** Messages: the second component against part_001 *)

Ltac open_agree c b H :=
  destruct c, b; unfold agree in H; cbn in H;
  destruct H as (? & ? & ? & ? & ? & ? & H); subst.

Ltac evaluate_blocks :=
  cbv - [filter Z.max Z.add app rev map Js.trim Js.truthy Js.to_string is_playback].

Lemma filter_playback_stops (l : list Source) :
  filter is_playback (map (fun src => SourceStop (src_id src)) l)
  = map (fun src => SourceStop (src_id src)) l.
Proof. induction l as [| t l IH]; simpl; [reflexivity | now rewrite IH]. Qed.

Ltac close_agree H :=
  unfold agree; evaluate_blocks; split_all; try reflexivity;
  rewrite ?filter_app; cbn [filter is_playback]; rewrite ?filter_app, ?H; reflexivity.

Section Agreement.

Variable decodeAudioData : Js.JsString -> option AudioBuffer.

Lemma agree_schedule (t : Z) (m : LiveServerMessage) (c : PartC.State) (b : State) :
  agree c b ->
  mixerRef b = true ->
  agree_outcome (PartC.schedule_audio decodeAudioData t m c)
                (PartB.schedule_audio decodeAudioData t m b).
Proof.
  intros H Hm. open_agree c b H. cbn in Hm. subst.
  rewrite schedule_audioC_unfold, schedule_audioB_unfold.
  change (PartC.base64Audio m) with (PartB.base64Audio m).
  destruct (PartB.base64Audio m) as [b64 |]; [| split; [close_agree H | reflexivity]].
  destruct (Js.truthy b64); [| split; [close_agree H | reflexivity]].
  match goal with
  | |- context [PartC.outputAudioContextRef ?X] =>
      destruct (PartC.outputAudioContextRef X) eqn:Hctx; cbn in Hctx; subst
  end.
  - destruct (decodeAudioData b64) as [buf |].
    all: evaluate_blocks. all: split; [| reflexivity].
    all: split_all; try reflexivity.
    all: cbn [filter is_playback]; now rewrite H.
  - split; [close_agree H | reflexivity].
Qed.

Lemma agree_interrupted (c : PartC.State) (b : State) :
  agree c b -> mixerRef b = true ->
  agree (PartC.on_interrupted c) (on_interrupted b)
  /\ mixerRef (on_interrupted b) = true.
Proof.
  intros H Hm. open_agree c b H. cbn in Hm. subst.
  split; [| reflexivity].
  unfold agree; evaluate_blocks; split_all; try reflexivity.
  cbn [filter is_playback]. now rewrite !filter_app, H.
Qed.

Lemma agree_transcriptions (m : LiveServerMessage) (c : PartC.State) (b : State) :
  agree c b -> mixerRef b = true ->
  agree (PartC.on_transcriptions m c) (on_transcriptions m b)
  /\ mixerRef (on_transcriptions m b) = true.
Proof.
  intros H Hm. open_agree c b H. cbn in Hm. subst.
  destruct m as [ps i [tin |] [tout |] tc].
  all: split; [| reflexivity].
  all: unfold agree; evaluate_blocks; split_all; try reflexivity.
  all: cbn [filter is_playback]; now rewrite ?H.
Qed.

Lemma agree_turn_complete (now : Z) (c : PartC.State) (b : State) :
  agree c b -> mixerRef b = true ->
  agree (PartC.turn_complete now c) (turn_complete now b)
  /\ mixerRef (turn_complete now b) = true.
Proof.
  intros H Hm. open_agree c b H. cbn in Hm. subst.
  unfold PartC.turn_complete, turn_complete.
  cbn [PartC.transcriptionBufferRef transcriptionBufferRef].
  destruct (Js.truthy (Js.trim (user_text _))), (Js.truthy (Js.trim (agent_text _))).
  all: split; [| reflexivity].
  all: unfold agree; evaluate_blocks; split_all; try reflexivity.
  all: cbn [filter is_playback]; now rewrite ?H.
Qed.

Lemma agree_after_audio (now : Z) (m : LiveServerMessage) (c : PartC.State) (b : State) :
  agree c b -> mixerRef b = true ->
  agree (PartC.after_audio now m c) (after_audio now m b)
  /\ mixerRef (after_audio now m b) = true.
Proof.
  intros H Hm. unfold PartC.after_audio, after_audio.
  assert (H1 : agree (if interrupted m then PartC.on_interrupted c else c)
                     (if interrupted m then on_interrupted b else b)
               /\ mixerRef (if interrupted m then on_interrupted b else b) = true).
  { destruct (interrupted m); [now apply agree_interrupted | now split]. }
  destruct H1 as [H1 Hm1].
  destruct (agree_transcriptions m _ _ H1 Hm1) as [H2 Hm2].
  destruct (turnComplete m); [now apply agree_turn_complete | now split].
Qed.

Lemma agree_onmessage (now t : Z) (m : LiveServerMessage) (c : PartC.State) (b : State) :
  agree c b -> mixerRef b = true ->
  agree_outcome (PartC.onmessage decodeAudioData now t m c)
                (PartB.onmessage decodeAudioData now t m b).
Proof.
  intros H Hm. unfold PartC.onmessage, PartB.onmessage.
  pose proof (agree_schedule t m c b H Hm) as Hs.
  destruct (PartC.schedule_audio decodeAudioData t m c) as [c' | c'],
           (PartB.schedule_audio decodeAudioData t m b) as [b' | b'];
    cbn [agree_outcome] in *; try contradiction.
  - destruct Hs as [Hs Hm']. now apply agree_after_audio.
  - exact Hs.
Qed.

(** X18: the message handler of the second component and the one of
    part_001, run on the same messages from states that agree, stay in
    agreement: same transcript, same buffers, same clock, same active
    sources, and the same starts, stops and speaker connections in the
    same order.  The handlers differ only in the processing flag and the
    mixer connection of part_001. *)
Theorem second_component_handles_messages_as_part_001
    (ms : list (Z * Z * LiveServerMessage)) (c : PartC.State) (b : State) :
  agree c b ->
  mixerRef b = true ->
  agree (PartC.run decodeAudioData ms c) (runB decodeAudioData ms b).
Proof.
  revert c b. induction ms as [| [[now t] m] ms IH]; intros c b H Hm; [exact H |].
  cbn [PartC.run runB].
  pose proof (agree_onmessage now t m c b H Hm) as Ho.
  destruct (PartC.onmessage decodeAudioData now t m c) as [c' | c'],
           (PartB.onmessage decodeAudioData now t m b) as [b' | b'];
    cbn [agree_outcome] in Ho; try contradiction;
    destruct Ho as [Ho Hm']; now apply IH.
Qed.

End Agreement.

Lemma second_component_handles_messages_as_part_001_witness :
  PartC.nextStartTimeRef (PartC.run sample_decoder three_chunks connectedC)
  = nextStartTimeRef (runB sample_decoder three_chunks connectedB)
  /\ PartC.nextStartTimeRef (PartC.run sample_decoder three_chunks connectedC) = 72000.
Proof.
  split; [| vm_compute; reflexivity].
  destruct (second_component_handles_messages_as_part_001 sample_decoder three_chunks
              connectedC connectedB) as (_ & _ & H & _).
  - unfold agree. split_all; vm_compute; reflexivity.
  - vm_compute. reflexivity.
  - exact H.
Defined.


(** ** The status and the playback clock over any sequence of callbacks *)

Lemma calm_refl (s : State) : calm s s.
Proof. split; now left. Qed.

Lemma calm_drain (s s' : State) : calm s s' -> calm s (drain s').
Proof. unfold calm. now rewrite drain_emits. Qed.

Lemma calm_task (h : State -> State) (s : State) : calm s (h s) -> calm s (task h s).
Proof. apply calm_drain. Qed.

Lemma calm_to (s s' : State) (v : AppStatus) :
  status s' = v -> v <> ERROR ->
  nextStartTimeRef s' = nextStartTimeRef s \/ nextStartTimeRef s' = 0 ->
  calm s s'.
Proof.
  intros Hv Hne Hc. split; [| exact Hc]. rewrite Hv.
  destruct v; [right; left | right; right; left | right; right; right |]; congruence.
Qed.

Lemma handleStopA_effect (b : bool) (s : State) :
  isClosingRef s = false ->
  status (PartA.handleStop b s) = (if b then ERROR else IDLE)
  /\ nextStartTimeRef (PartA.handleStop b s) = 0.
Proof.
  intros H. destruct_refs s; simpl in H; try discriminate H; destruct b; split;
    vm_compute; reflexivity.
Qed.

Lemma handleStopB_effect (s : State) :
  status (PartB.handleStop s) = IDLE /\ nextStartTimeRef (PartB.handleStop s) = 0.
Proof. destruct_refs s; split; vm_compute; reflexivity. Qed.

Lemma onerrorB_effect (s : State) :
  status (PartB.onerror s) = IDLE /\ nextStartTimeRef (PartB.onerror s) = 0.
Proof. destruct_refs s; split; vm_compute; reflexivity. Qed.

Lemma onerrorA_clock (s : State) :
  nextStartTimeRef (PartA.onerror s) = (if isClosingRef s then nextStartTimeRef s else 0).
Proof. destruct_refs s; vm_compute; reflexivity. Qed.

Lemma handleStopA_calm (s : State) : calm s (PartA.handleStop false s).
Proof.
  destruct (isClosingRef s) eqn:Hc.
  - rewrite handleStopA_closing by exact Hc. apply calm_refl.
  - destruct (handleStopA_effect false s Hc) as [H1 H2].
    apply (calm_to _ _ IDLE); [exact H1 | discriminate | now right].
Qed.

Lemma handleStopB_calm (s : State) : calm s (PartB.handleStop s).
Proof.
  destruct (handleStopB_effect s) as [H1 H2].
  apply (calm_to _ _ IDLE); [exact H1 | discriminate | now right].
Qed.

Lemma onerrorB_calm (s : State) : calm s (PartB.onerror s).
Proof.
  destruct (onerrorB_effect s) as [H1 H2].
  apply (calm_to _ _ IDLE); [exact H1 | discriminate | now right].
Qed.

Lemma before_awaitA_calm (s s0 : State) : handleStartA_before_await s = Some s0 -> calm s s0.
Proof.
  unfold handleStartA_before_await.
  destruct_start s; cbn [isClosingRef]; intros H; try discriminate H;
    injection H as <-; (apply (calm_to _ _ CONNECTING); [reflexivity | discriminate | now left]).
Qed.

Lemma before_awaitB_calm (s : State) : calm s (handleStartB_before_await s).
Proof.
  destruct_start s;
    (apply (calm_to _ _ CONNECTING); [reflexivity | discriminate | now left]).
Qed.

Lemma after_awaitA_calm (muted : bool) (media : option MediaStream) (s : State) :
  calm s (handleStartA_after_await muted media s).
Proof.
  destruct media.
  - split; left; now destruct s.
  - apply (calm_to _ _ IDLE); [now destruct s | discriminate | left; now destruct s].
Qed.

Lemma after_awaitB_calm (muted : bool) (media : option MediaStream) (s : State) :
  calm s (handleStartB_after_await muted media s).
Proof.
  destruct media.
  - split; left; now destruct s.
  - apply (calm_to _ _ IDLE); [now destruct s | discriminate | left; now destruct s].
Qed.

Lemma settle_calm (s : State) :
  calm s (sessionPromise_fulfilled s) /\ calm s (sessionPromise_rejected s).
Proof.
  unfold sessionPromise_fulfilled, sessionPromise_rejected, calm. cbv zeta.
  rewrite drain_emits.
  destruct (sessionPromiseRef s) as [[| |] |]; split; split; left; reflexivity.
Qed.

Lemma audioprocessA_calm (inputData : list Q) (s : State) :
  calm s (PartA.audioprocess inputData s).
Proof.
  unfold PartA.audioprocess.
  destruct (processorNodeRef s) as [p |]; [| apply calm_refl].
  apply calm_task. unfold PartA.onaudioprocess.
  destruct (closure_isMuted p || isClosingRef s || negb (is_some (sessionPromiseRef s)));
    [apply calm_refl |].
  destruct (sessionPromiseRef s) as [[| |] |]; split; left; reflexivity.
Qed.

Lemma audioprocessB_calm (inputData : list Q) (s : State) :
  calm s (PartB.audioprocess inputData s).
Proof.
  unfold PartB.audioprocess.
  destruct (processorNodeRef s) as [p |]; [| apply calm_refl].
  apply calm_task. unfold PartB.onaudioprocess.
  destruct (closure_isMuted p); [apply calm_refl |].
  destruct (sessionPromiseRef s) as [[| |] |]; split; left; reflexivity.
Qed.

Lemma after_audio_status (now : Z) (m : LiveServerMessage) (s : State) :
  status (after_audio now m s) = status s.
Proof.
  unfold after_audio, on_transcriptions, turn_complete. cbv zeta.
  destruct (interrupted m), (inputTranscription m), (outputTranscription m), (turnComplete m);
    repeat match goal with
           | |- context [if Js.truthy ?c then _ else _] => destruct (Js.truthy c)
           end;
    reflexivity.
Qed.

Lemma after_audioC_status (now : Z) (m : LiveServerMessage) (s : PartC.State) :
  PartC.status (PartC.after_audio now m s) = PartC.status s.
Proof.
  unfold PartC.after_audio, PartC.on_transcriptions, PartC.turn_complete. cbv zeta.
  destruct (interrupted m), (inputTranscription m), (outputTranscription m), (turnComplete m);
    repeat match goal with
           | |- context [if Js.truthy ?c then _ else _] => destruct (Js.truthy c)
           end;
    reflexivity.
Qed.

Lemma after_audioC_clock (now : Z) (m : LiveServerMessage) (s : PartC.State) :
  0 <= PartC.nextStartTimeRef s -> 0 <= PartC.nextStartTimeRef (PartC.after_audio now m s).
Proof.
  intros H.
  unfold PartC.after_audio, PartC.on_transcriptions, PartC.turn_complete. cbv zeta.
  destruct (interrupted m), (inputTranscription m), (outputTranscription m), (turnComplete m);
    repeat match goal with
           | |- context [if Js.truthy ?c then _ else _] => destruct (Js.truthy c)
           end;
    destruct s; cbn in *; lia.
Qed.

Section CalmC.

Variable decodeAudioData : Js.JsString -> option AudioBuffer.

Lemma onmessageC_status (now t : Z) (m : LiveServerMessage) (s : PartC.State) :
  PartC.status (PartC.state_of (PartC.onmessage decodeAudioData now t m s)) = PartC.status s.
Proof.
  unfold PartC.onmessage. rewrite !schedule_audioC_unfold.
  destruct (PartC.base64Audio m) as [b64 |]; [| apply after_audioC_status].
  destruct (Js.truthy b64 && PartC.outputAudioContextRef s); [| apply after_audioC_status].
  cbv zeta.
  destruct (decodeAudioData b64) as [buf |]; [| reflexivity].
  cbn [PartC.state_of]. now rewrite after_audioC_status.
Qed.

Lemma onmessageC_clock (now t : Z) (m : LiveServerMessage) (s : PartC.State) :
  (forall b64 buf, decodeAudioData b64 = Some buf -> 0 <= duration buf) ->
  0 <= PartC.nextStartTimeRef s ->
  0 <= PartC.nextStartTimeRef (PartC.state_of (PartC.onmessage decodeAudioData now t m s)).
Proof.
  intros durations H. unfold PartC.onmessage. rewrite !schedule_audioC_unfold.
  destruct (PartC.base64Audio m) as [b64 |]; [| now apply after_audioC_clock].
  destruct (Js.truthy b64 && PartC.outputAudioContextRef s);
    [| now apply after_audioC_clock].
  cbv zeta.
  destruct (decodeAudioData b64) as [buf |] eqn:Hd.
  - pose proof (durations b64 buf Hd) as Hbuf.
    cbn [PartC.state_of]. apply after_audioC_clock. destruct s; cbn in *; lia.
  - destruct s; cbn in *; lia.
Qed.

Lemma dispatchC_status (cb : CallbackC) (s : PartC.State) :
  PartC.status s <> ERROR -> PartC.status (dispatchC decodeAudioData cb s) <> ERROR.
Proof.
  intros H. destruct cb; cbn [dispatchC].
  - destruct s; discriminate.
  - now destruct s.
  - now destruct s.
  - destruct s; discriminate.
  - rewrite (proj2 (handleStopC_torn_down s)). discriminate.
  - destruct s as [? ? ? ? [|] ? ? ? ? ? ? ? ? ? ?]; discriminate.
  - now rewrite onmessageC_status.
  - destruct (onerrorC_torn_down s) as (_ & K & _). rewrite K. discriminate.
  - unfold PartC.onclose. rewrite (proj2 (handleStopC_torn_down s)). discriminate.
  - unfold PartC.audioprocess, PartC.onaudioprocess.
    destruct (PartC.processorNodeRef s) as [p |]; [| exact H].
    destruct (closure_isMuted p || negb (PartC.sessionRef s)); [exact H | now destruct s].
  - now destruct s.
  - now destruct s.
Qed.

Lemma dispatchC_clock (cb : CallbackC) (s : PartC.State) :
  (forall b64 buf, decodeAudioData b64 = Some buf -> 0 <= duration buf) ->
  0 <= PartC.nextStartTimeRef s ->
  0 <= PartC.nextStartTimeRef (dispatchC decodeAudioData cb s).
Proof.
  intros durations H. destruct cb; cbn [dispatchC].
  - now destruct s.
  - now destruct s.
  - now destruct s.
  - now destruct s.
  - destruct (handleStopC_torn_down s) as [(_ & _ & _ & _ & _ & K) _]. rewrite K. lia.
  - now destruct s as [? ? ? ? [|] ? ? ? ? ? ? ? ? ? ?].
  - now apply onmessageC_clock.
  - destruct (onerrorC_torn_down s) as ((_ & _ & _ & _ & _ & K) & _). rewrite K. lia.
  - unfold PartC.onclose.
    destruct (handleStopC_torn_down s) as [(_ & _ & _ & _ & _ & K) _]. rewrite K. lia.
  - unfold PartC.audioprocess, PartC.onaudioprocess.
    destruct (PartC.processorNodeRef s) as [p |]; [| exact H].
    destruct (closure_isMuted p || negb (PartC.sessionRef s)); [exact H | now destruct s].
  - now destruct s.
  - now destruct s.
Qed.

Lemma deliverC_status (cbs : list CallbackC) (s : PartC.State) :
  PartC.status s <> ERROR -> PartC.status (deliverC decodeAudioData cbs s) <> ERROR.
Proof.
  revert s. induction cbs as [| cb cbs IH]; intros s H; [exact H |].
  apply IH. now apply dispatchC_status.
Qed.

Lemma deliverC_clock (cbs : list CallbackC) (s : PartC.State) :
  (forall b64 buf, decodeAudioData b64 = Some buf -> 0 <= duration buf) ->
  0 <= PartC.nextStartTimeRef s ->
  0 <= PartC.nextStartTimeRef (deliverC decodeAudioData cbs s).
Proof.
  intros durations. revert s. induction cbs as [| cb cbs IH]; intros s H; [exact H |].
  apply IH. now apply dispatchC_clock.
Qed.

End CalmC.

Section Calm.

Variable decodeAudioData : Js.JsString -> option AudioBuffer.

Lemma dispatchA_calm (cb : Callback) (s : State) :
  is_failure cb = false -> is_message cb = false -> calm s (dispatchA decodeAudioData cb s).
Proof.
  intros Hf Hm. destruct cb; cbn [dispatchA]; try discriminate Hf; try discriminate Hm.
  - destruct (handleStartA_before_await s) as [s0 |] eqn:H0; [| apply calm_refl].
    now apply before_awaitA_calm.
  - apply after_awaitA_calm.
  - apply calm_task, handleStopA_calm.
  - split; left; now destruct s.
  - apply calm_task. apply (calm_to _ _ CONNECTED);
      [now destruct s | discriminate | left; now destruct s].
  - apply calm_task. unfold PartA.onclose.
    destruct (isClosingRef s); [apply calm_refl | apply handleStopA_calm].
  - apply settle_calm.
  - apply settle_calm.
  - split; left; now destruct s.
  - apply audioprocessA_calm.
  - split; left; now destruct s.
  - split; left; destruct e_data; now destruct s.
  - split; left; now destruct s.
Qed.

Lemma dispatchB_calm (cb : Callback) (s : State) :
  is_message cb = false -> calm s (dispatchB decodeAudioData cb s).
Proof.
  intros Hm. destruct cb; cbn [dispatchB]; try discriminate Hm.
  - apply before_awaitB_calm.
  - apply after_awaitB_calm.
  - apply calm_task, handleStopB_calm.
  - split; left; now destruct s.
  - apply calm_task. apply (calm_to _ _ CONNECTED);
      [now destruct s | discriminate | left; now destruct s].
  - apply calm_task, onerrorB_calm.
  - apply calm_task, handleStopB_calm.
  - apply settle_calm.
  - apply settle_calm.
  - apply calm_refl.
  - apply audioprocessB_calm.
  - split; left; now destruct s.
  - split; left; destruct e_data; now destruct s.
  - split; left; now destruct s.
Qed.

Lemma schedule_audioA_status (t : Z) (m : LiveServerMessage) (s : State) :
  status (state_of (PartA.schedule_audio decodeAudioData t m s)) = status s.
Proof.
  rewrite !schedule_audioA_unfold.
  destruct (PartA.base64Audio m) as [b64 |]; [| reflexivity].
  destruct (Js.truthy b64 && outputAudioContextRef s); [| reflexivity].
  cbv zeta.
  destruct (decodeAudioData b64) as [buf |]; [| reflexivity].
  change (mixerRef (emit ?e (with_sourcesCreated ?n
           (with_nextStartTimeRef ?z (setIsProcessing ?b s))))) with (mixerRef s).
  destruct (mixerRef s); reflexivity.
Qed.

Lemma schedule_audioB_status (t : Z) (m : LiveServerMessage) (s : State) :
  status (state_of (PartB.schedule_audio decodeAudioData t m s)) = status s.
Proof.
  rewrite !schedule_audioB_unfold.
  destruct (PartB.base64Audio m) as [b64 |]; [| reflexivity].
  destruct (Js.truthy b64 && outputAudioContextRef s); [| reflexivity].
  cbv zeta.
  destruct (decodeAudioData b64) as [buf |]; [| reflexivity].
  change (mixerRef (emit ?e (with_sourcesCreated ?n
           (with_nextStartTimeRef ?z (setIsProcessing ?b s))))) with (mixerRef s).
  destruct (mixerRef s); reflexivity.
Qed.

Lemma onmessageA_status (now t : Z) (m : LiveServerMessage) (s : State) :
  status (state_of (PartA.onmessage decodeAudioData now t m s)) = status s.
Proof.
  pose proof (schedule_audioA_status t m s) as Hs. unfold PartA.onmessage.
  destruct (PartA.schedule_audio decodeAudioData t m s) as [s1 | s1]; cbn [state_of] in *.
  - now rewrite after_audio_status.
  - exact Hs.
Qed.

Lemma onmessageB_status (now t : Z) (m : LiveServerMessage) (s : State) :
  status (state_of (PartB.onmessage decodeAudioData now t m s)) = status s.
Proof.
  pose proof (schedule_audioB_status t m s) as Hs. unfold PartB.onmessage.
  destruct (PartB.schedule_audio decodeAudioData t m s) as [s1 | s1]; cbn [state_of] in *.
  - now rewrite after_audio_status.
  - exact Hs.
Qed.

Lemma dispatchA_status (cb : Callback) (s : State) :
  is_failure cb = false -> status s <> ERROR ->
  status (dispatchA decodeAudioData cb s) <> ERROR.
Proof.
  intros Hf H. destruct (is_message cb) eqn:Hm.
  - destruct cb; try discriminate Hm. cbn [dispatchA]. now rewrite onmessageA_status.
  - destruct (dispatchA_calm cb s Hf Hm) as [[K | [K | [K | K]]] _]; rewrite K;
      try exact H; discriminate.
Qed.

Lemma dispatchB_status (cb : Callback) (s : State) :
  status s <> ERROR -> status (dispatchB decodeAudioData cb s) <> ERROR.
Proof.
  intros H. destruct (is_message cb) eqn:Hm.
  - destruct cb; try discriminate Hm. cbn [dispatchB]. now rewrite onmessageB_status.
  - destruct (dispatchB_calm cb s Hm) as [[K | [K | [K | K]]] _]; rewrite K;
      try exact H; discriminate.
Qed.

(** X19: the status ERROR is reached only through a connection error on
    part_000.  Over any sequence of callbacks part_001 and the second
    component of part_000 never enter ERROR, though their renders test for
    it, and part_000 does not enter it unless [onerror] is among the
    callbacks. *)
Theorem error_status_needs_a_connection_error_on_part_000
    (cbs : list Callback) (s : State) (cbsC : list CallbackC) (c : PartC.State) :
  (status s <> ERROR ->
   existsb is_failure cbs = false ->
   status (deliver (dispatchA decodeAudioData) cbs s) <> ERROR)
  /\ (status s <> ERROR -> status (deliver (dispatchB decodeAudioData) cbs s) <> ERROR)
  /\ (PartC.status c <> ERROR ->
      PartC.status (deliverC decodeAudioData cbsC c) <> ERROR).
Proof.
  split_all.
  - revert s. induction cbs as [| cb cbs IH]; intros s H Hcbs; [exact H |].
    cbn [existsb] in Hcbs. apply orb_false_iff in Hcbs. destruct Hcbs as [Hcb Hcbs].
    rewrite deliver_cons. apply IH; [| exact Hcbs]. now apply dispatchA_status.
  - revert s. induction cbs as [| cb cbs IH]; intros s H; [exact H |].
    rewrite deliver_cons. apply IH. now apply dispatchB_status.
  - apply deliverC_status.
Qed.

Hypothesis durations : forall b64 buf, decodeAudioData b64 = Some buf -> 0 <= duration buf.

Lemma schedule_audioA_clock (t : Z) (m : LiveServerMessage) (s : State) :
  0 <= nextStartTimeRef s ->
  0 <= nextStartTimeRef (state_of (PartA.schedule_audio decodeAudioData t m s)).
Proof.
  intros H. rewrite !schedule_audioA_unfold.
  destruct (PartA.base64Audio m) as [b64 |]; [| exact H].
  destruct (Js.truthy b64 && outputAudioContextRef s); [| exact H].
  cbv zeta.
  destruct (decodeAudioData b64) as [buf |] eqn:Hd.
  - pose proof (durations b64 buf Hd) as Hbuf.
    change (mixerRef (emit ?e (with_sourcesCreated ?n
             (with_nextStartTimeRef ?z (setIsProcessing ?b s))))) with (mixerRef s).
    destruct (mixerRef s); cbn; lia.
  - cbn; lia.
Qed.

Lemma schedule_audioB_clock (t : Z) (m : LiveServerMessage) (s : State) :
  0 <= nextStartTimeRef s ->
  0 <= nextStartTimeRef (state_of (PartB.schedule_audio decodeAudioData t m s)).
Proof.
  intros H. rewrite !schedule_audioB_unfold.
  destruct (PartB.base64Audio m) as [b64 |]; [| exact H].
  destruct (Js.truthy b64 && outputAudioContextRef s); [| exact H].
  cbv zeta.
  destruct (decodeAudioData b64) as [buf |] eqn:Hd.
  - pose proof (durations b64 buf Hd) as Hbuf.
    change (mixerRef (emit ?e (with_sourcesCreated ?n
             (with_nextStartTimeRef ?z (setIsProcessing ?b s))))) with (mixerRef s).
    destruct (mixerRef s); cbn; lia.
  - cbn; lia.
Qed.

Lemma after_audio_clock (now : Z) (m : LiveServerMessage) (s : State) :
  0 <= nextStartTimeRef s -> 0 <= nextStartTimeRef (after_audio now m s).
Proof.
  intros H. destruct (after_audio_effect now m s) as [K _]. rewrite K.
  destruct (interrupted m); [lia | exact H].
Qed.

Lemma dispatchA_clock (cb : Callback) (s : State) :
  0 <= nextStartTimeRef s -> 0 <= nextStartTimeRef (dispatchA decodeAudioData cb s).
Proof.
  intros H. destruct (is_message cb) eqn:Hm; [| destruct (is_failure cb) eqn:Hf].
  - destruct cb; try discriminate Hm. cbn [dispatchA].
    pose proof (schedule_audioA_clock currentTime m s H) as Hs. unfold PartA.onmessage.
    destruct (PartA.schedule_audio decodeAudioData currentTime m s) as [s1 | s1];
      cbn [state_of] in *; [now apply after_audio_clock | exact Hs].
  - destruct cb; try discriminate Hf. cbn [dispatchA]. unfold task.
    rewrite drain_emits. cbn [nextStartTimeRef with_log with_microtasks].
    rewrite onerrorA_clock. destruct (isClosingRef s); [exact H | lia].
  - destruct (dispatchA_calm cb s Hf Hm) as [_ [K | K]]; rewrite K; [exact H | lia].
Qed.

Lemma dispatchB_clock (cb : Callback) (s : State) :
  0 <= nextStartTimeRef s -> 0 <= nextStartTimeRef (dispatchB decodeAudioData cb s).
Proof.
  intros H. destruct (is_message cb) eqn:Hm.
  - destruct cb; try discriminate Hm. cbn [dispatchB].
    pose proof (schedule_audioB_clock currentTime m s H) as Hs. unfold PartB.onmessage.
    destruct (PartB.schedule_audio decodeAudioData currentTime m s) as [s1 | s1];
      cbn [state_of] in *; [now apply after_audio_clock | exact Hs].
  - destruct (dispatchB_calm cb s Hm) as [_ [K | K]]; rewrite K; [exact H | lia].
Qed.

(** X20: the playback clock is never negative, whatever callbacks are
    delivered in whatever order and whatever the clock readings, as long
    as no decoded chunk has a negative duration; on all three
    components. *)
Theorem playback_clock_is_never_negative
    (cbs : list Callback) (s : State) (cbsC : list CallbackC) (c : PartC.State) :
  (0 <= nextStartTimeRef s ->
   0 <= nextStartTimeRef (deliver (dispatchA decodeAudioData) cbs s)
   /\ 0 <= nextStartTimeRef (deliver (dispatchB decodeAudioData) cbs s))
  /\ (0 <= PartC.nextStartTimeRef c ->
      0 <= PartC.nextStartTimeRef (deliverC decodeAudioData cbsC c)).
Proof.
  split.
  - intros H. split; revert s H; induction cbs as [| cb cbs IH]; intros s H;
      try exact H; rewrite deliver_cons; apply IH.
    + now apply dispatchA_clock.
    + now apply dispatchB_clock.
  - now apply deliverC_clock.
Qed.

End Calm.

Lemma error_status_needs_a_connection_error_on_part_000_witness :
  status (deliver (dispatchB sample_decoder) failed_call init) <> ERROR
  /\ status (deliver (dispatchA sample_decoder) failed_call init) = ERROR.
Proof.
  split; [| vm_compute; reflexivity].
  destruct (error_status_needs_a_connection_error_on_part_000 sample_decoder
              failed_call init [] PartC.init) as (_ & H & _).
  apply H. vm_compute. discriminate.
Defined.

Lemma playback_clock_is_never_negative_witness :
  0 <= nextStartTimeRef (deliver (dispatchA sample_decoder) one_recorded_call init)
  /\ 0 <= PartC.nextStartTimeRef
            (deliverC sample_decoder [ReceivedC 1 (-5) (audio_message "A")] connectedC).
Proof.
  destruct (playback_clock_is_never_negative sample_decoder
              sample_decoder_durations
              one_recorded_call init [ReceivedC 1 (-5) (audio_message "A")] connectedC)
    as [HA HC].
  split.
  - apply HA. vm_compute. discriminate.
  - apply HC. vm_compute. discriminate.
Defined.
